(** * Studiums-Dashboard: domain model and persistence mapping

    A shallow embedding of [models.py] and [database.py].

    Conventions of the embedding:
    - a Python [float] is modelled by an exact rational ([Q]); comparisons
      are the exact ones, [sum], [/] and [round] are the exact operations;
    - a Python [int] is a [Z], [len(l)] is [Z.of_nat (length l)];
    - [Optional[int]] is [option Z], [None] being Python's [None];
    - a method that mutates [self] and may raise is a computation in the
      monad [Py S A := S -> Outcome A * S]: the state after the call is
      there also when the call raised;
    - every class is a Rocq module holding its record [t] and its methods. *)

From Stdlib Require Import String.
From Stdlib Require Import ZArith QArith Qround Qabs List Bool Lia Lqa.
From Stdlib Require Import Permutation.
Import ListNotations.

Local Open Scope Z_scope.

(* ================================================================== *)
(** * Python run-time: exceptions and stateful methods                 *)
(* ================================================================== *)

Inductive exn : Type :=
| ValueError (msg : string)
| OverflowError (msg : string)
| ZeroDivisionError
| IndexError
| IntegrityError.

Inductive Outcome (A : Type) : Type :=
| Ok (a : A)
| Raise (e : exn).
Arguments Ok {A} a.
Arguments Raise {A} e.

Definition Py (S A : Type) : Type := S -> Outcome A * S.

Definition ret {S A} (a : A) : Py S A := fun s => (Ok a, s).
Definition bind {S A B} (c : Py S A) (k : A -> Py S B) : Py S B :=
  fun s => match c s with
           | (Ok a, s') => k a s'
           | (Raise e, s') => (Raise e, s')
           end.

Declare Scope py_scope.
Delimit Scope py_scope with py.
Notation "x <- c ;; k" := (bind c (fun x => k))
  (at level 61, c at next level, right associativity) : py_scope.
Notation "c ;;; k" := (bind c (fun _ => k))
  (at level 61, right associativity) : py_scope.

(** [len(l)] *)
Definition len {A} (l : list A) : Z := Z.of_nat (length l).

(** [l[-1]]: the last element, [IndexError] on the empty list. *)
Definition py_last {A} (l : list A) : Outcome A :=
  match rev l with
  | [] => Raise IndexError
  | x :: _ => Ok x
  end.

(** [a == b] on [Optional[int]]. *)
Definition opt_eqb (a b : option Z) : bool :=
  match a, b with
  | None, None => true
  | Some x, Some y => x =? y
  | _, _ => false
  end.

(* ------------------------------------------------------------------ *)
(** ** Floats as exact rationals                                        *)
(* ------------------------------------------------------------------ *)

(** [sum(l)]: accumulation from [0], left to right. *)
Definition py_sum (l : list Q) : Q := fold_left Qplus l 0%Q.

(** [x / y] on floats, [ZeroDivisionError] when [y] is zero. *)
Definition py_truediv (x y : Q) : Outcome Q :=
  if Qeq_bool y 0 then Raise ZeroDivisionError else Ok (x / y)%Q.

(** [int(x)]: truncation towards zero. *)
Definition py_int (x : Q) : Z := Z.quot (Qnum x) (Zpos (Qden x)).

(** Nearest integer, ties to the even one. *)
Definition round_half_even (x : Q) : Z :=
  let f := Qfloor x in
  let r := (x - inject_Z f)%Q in
  match (r ?= 1 # 2)%Q with
  | Lt => f
  | Gt => f + 1
  | Eq => if Z.even f then f else f + 1
  end.

(** [round(x, 2)]: nearest multiple of 0.01, ties to even. *)
Definition py_round2 (x : Q) : Q := Qmake (round_half_even (x * 100)) 100.

(* ================================================================== *)
(** * The [datetime] library, as far as the program uses it            *)
(* ================================================================== *)

(** A [timedelta] is determined by its total number of microseconds. *)
Module timedelta.

Definition t : Type := Z.

(** [timedelta(days=n)] *)
Definition of_days (n : Z) : t := n * 86400000000.

(** [total_seconds()] *)
Definition total_seconds (d : t) : Q := Qmake d 1000000.

End timedelta.

(** Naive [datetime] values, with the proleptic Gregorian calendar of the
    library ([_ymd2ord], [_ord2ymd]). *)
Module datetime.

Record t : Type := mk {
  year : Z; month : Z; day : Z;
  hour : Z; minute : Z; second : Z; microsecond : Z
}.

Definition MINYEAR : Z := 1.
Definition MAXYEAR : Z := 9999.
Definition _MAXORDINAL : Z := 3652059.

Definition _DAYS_IN_MONTH : list Z :=
  [-1; 31; 28; 31; 30; 31; 30; 31; 31; 30; 31; 30; 31].
Definition _DAYS_BEFORE_MONTH : list Z :=
  [-1; 0; 31; 59; 90; 120; 151; 181; 212; 243; 273; 304; 334].

Definition _is_leap (year : Z) : bool :=
  (year mod 4 =? 0) && (negb (year mod 100 =? 0) || (year mod 400 =? 0)).

Definition _days_before_year (year : Z) : Z :=
  let y := year - 1 in y * 365 + y / 4 - y / 100 + y / 400.

Definition _days_in_month (year month : Z) : Z :=
  if (month =? 2) && _is_leap year then 29
  else nth (Z.to_nat month) _DAYS_IN_MONTH 0.

Definition _days_before_month (year month : Z) : Z :=
  nth (Z.to_nat month) _DAYS_BEFORE_MONTH 0
  + (if (month >? 2) && _is_leap year then 1 else 0).

Definition _ymd2ord (year month day : Z) : Z :=
  _days_before_year year + _days_before_month year month + day.

Definition _DI400Y : Z := 146097.
Definition _DI100Y : Z := 36524.
Definition _DI4Y : Z := 1461.

Definition _ord2ymd (n : Z) : Z * Z * Z :=
  let n := n - 1 in
  let n400 := n / _DI400Y in let n := n mod _DI400Y in
  let year := n400 * 400 + 1 in
  let n100 := n / _DI100Y in let n := n mod _DI100Y in
  let n4 := n / _DI4Y in let n := n mod _DI4Y in
  let n1 := n / 365 in let n := n mod 365 in
  let year := year + n100 * 100 + n4 * 4 + n1 in
  if (n1 =? 4) || (n100 =? 4) then (year - 1, 12, 31)
  else
    let leapyear := (n1 =? 3) && (negb (n4 =? 24) || (n100 =? 3)) in
    let month := Z.shiftr (n + 50) 5 in
    let preceding :=
      nth (Z.to_nat month) _DAYS_BEFORE_MONTH 0
      + (if (month >? 2) && leapyear then 1 else 0) in
    if preceding >? n then
      let month := month - 1 in
      let preceding :=
        preceding - (nth (Z.to_nat month) _DAYS_IN_MONTH 0
                     + (if (month =? 2) && leapyear then 1 else 0)) in
      (year, month, n - preceding + 1)
    else (year, month, n - preceding + 1).

(** The checks of the constructor on the date fields. *)
Definition _check_date_fields (year month day : Z) : Outcome unit :=
  if negb ((MINYEAR <=? year) && (year <=? MAXYEAR))
  then Raise (ValueError "year is out of range")
  else if negb ((1 <=? month) && (month <=? 12))
  then Raise (ValueError "month must be in 1..12")
  else if negb ((1 <=? day) && (day <=? _days_in_month year month))
  then Raise (ValueError "day is out of range for month")
  else Ok tt.

Definition _check_time_fields (hour minute second microsecond : Z) : bool :=
  (0 <=? hour) && (hour <=? 23) && (0 <=? minute) && (minute <=? 59)
  && (0 <=? second) && (second <=? 59)
  && (0 <=? microsecond) && (microsecond <=? 999999).

(** The values the constructor accepts. *)
Definition valid (d : t) : bool :=
  match _check_date_fields (year d) (month d) (day d) with
  | Ok _ => _check_time_fields (hour d) (minute d) (second d) (microsecond d)
  | Raise _ => false
  end.

(** [self.replace(year=y, month=m)]: a new value through the constructor,
    which checks the date again. *)
Definition replace_year_month (self : t) (y m : Z) : Outcome t :=
  match _check_date_fields y m (day self) with
  | Raise e => Raise e
  | Ok _ => Ok (mk y m (day self) (hour self) (minute self) (second self)
                   (microsecond self))
  end.

Definition toordinal (self : t) : Z :=
  _ymd2ord (year self) (month self) (day self).

(** Microseconds since midnight. *)
Definition time_us (self : t) : Z :=
  ((hour self * 3600 + minute self * 60 + second self) * 1000000
   + microsecond self).

(** [self + delta] *)
Definition add (self : t) (delta : timedelta.t) : Outcome t :=
  let total := toordinal self * 86400000000 + time_us self + delta in
  let days := total / 86400000000 in
  let rest := total mod 86400000000 in
  let seconds := rest / 1000000 in
  let us := rest mod 1000000 in
  let hour := seconds / 3600 in
  let rem := seconds mod 3600 in
  if (0 <? days) && (days <=? _MAXORDINAL) then
    let '(y, m, d) := _ord2ymd days in
    Ok (mk y m d hour (rem / 60) (rem mod 60) us)
  else Raise (OverflowError "date value out of range").

(** [self - delta] for a [timedelta] *)
Definition sub_timedelta (self : t) (delta : timedelta.t) : Outcome t :=
  add self (- delta).

(** [self - other] for two [datetime] values *)
Definition sub (self other : t) : timedelta.t :=
  (toordinal self - toordinal other) * 86400000000
  + (time_us self - time_us other).

End datetime.

(* ================================================================== *)
(** * models.py                                                        *)
(* ================================================================== *)

Inductive Status : Type := OFFEN | BESTANDEN | NICHT_BESTANDEN.

Definition Status_eqb (a b : Status) : bool :=
  match a, b with
  | OFFEN, OFFEN | BESTANDEN, BESTANDEN
  | NICHT_BESTANDEN, NICHT_BESTANDEN => true
  | _, _ => false
  end.

Module Pruefungsleistung.

Record t : Type := mk {
  _note : Q;
  versuchs_nummer : Z;
  id : option Z
}.

(** The [note] property: getter. *)
Definition note (self : t) : Q := _note self.

(** The [note] property: setter with validation. *)
Definition set_note (wert : Q) : Py t unit := fun self =>
  if negb (Qle_bool 1 wert && Qle_bool wert 5)
  then (Raise (ValueError "Note muss zwischen 1.0 und 5.0 liegen."), self)
  else (Ok tt, mk wert (versuchs_nummer self) (id self)).

(** [Pruefungsleistung(note, versuchs_nummer)]: [_note] starts at [0.0],
    the setter validates, then number and identity are set.  When the
    setter raises no object comes into existence. *)
Definition init (note : Q) (versuchs_nummer : Z) : Outcome t :=
  match set_note note (mk 0 versuchs_nummer None) with
  | (Ok _, self) => Ok self
  | (Raise e, _) => Raise e
  end.

Definition ist_bestanden (self : t) : bool := Qle_bool (_note self) 4.

(** [self.id = i], done by the persistence layer. *)
Definition set_id (i : option Z) (self : t) : t :=
  mk (_note self) (versuchs_nummer self) i.

End Pruefungsleistung.

(** ** Time entries: [ZeitEintrag] and its two subclasses *)

Module Lerntermin.

Record t : Type := mk {
  datum : datetime.t;
  start_zeit : datetime.t;
  geplante_dauer : Z;
  beschreibung : string;
  modul_id : option Z;
  id : option Z
}.

Definition init (datum start_zeit : datetime.t) (geplante_dauer : Z)
    (beschreibung : string) (modul_id : option Z) : t :=
  mk datum start_zeit geplante_dauer beschreibung modul_id None.

Definition dauer (self : t) : Z := geplante_dauer self.

End Lerntermin.

Module Lernsession.

Record t : Type := mk {
  datum : datetime.t;
  start_zeit : datetime.t;
  end_zeit : datetime.t;
  tatsaechliche_dauer : Z;
  modul_id : option Z;
  id : option Z
}.

Definition _berechne_dauer (self : t) : Z :=
  let differenz := datetime.sub (end_zeit self) (start_zeit self) in
  py_int (timedelta.total_seconds differenz / 60)%Q.

(** [Lernsession(datum, start_zeit, end_zeit, modul_id)]: the duration is
    computed once the other attributes are in place. *)
Definition init (datum start_zeit end_zeit : datetime.t)
    (modul_id : option Z) : t :=
  let self := mk datum start_zeit end_zeit 0 modul_id None in
  mk datum start_zeit end_zeit (_berechne_dauer self) modul_id None.

Definition dauer (self : t) : Z := tatsaechliche_dauer self.



Definition set_tatsaechliche_dauer (v : Z) (self : t) : t :=
  mk (datum self) (start_zeit self) (end_zeit self) v
     (modul_id self) (id self).

End Lernsession.

Module ZeitEintrag.

Inductive t : Type :=
| Termin (e : Lerntermin.t)
| Session (e : Lernsession.t).

Definition modul_id (self : t) : option Z :=
  match self with
  | Termin e => Lerntermin.modul_id e
  | Session e => Lernsession.modul_id e
  end.

(** [dauer()], dispatched on the class of the entry. *)
Definition dauer (self : t) : Z :=
  match self with
  | Termin e => Lerntermin.dauer e
  | Session e => Lernsession.dauer e
  end.

End ZeitEintrag.

Module Modul.

Record t : Type := mk {
  titel : string;
  ects : Z;
  status : Status;
  geplantes_semester : Z;
  pruefungsleistungen : list Pruefungsleistung.t;
  id : option Z
}.

(** [Modul(titel, ects, status=OFFEN, geplantes_semester=1)] *)
Definition init (titel : string) (ects : Z) (status : Status)
    (geplantes_semester : Z) : t :=
  mk titel ects status geplantes_semester [] None.

Definition set_status (s : Status) (self : t) : t :=
  mk (titel self) (ects self) s (geplantes_semester self)
     (pruefungsleistungen self) (id self).

Definition set_pruefungsleistungen (l : list Pruefungsleistung.t)
    (self : t) : t :=
  mk (titel self) (ects self) (status self) (geplantes_semester self)
     l (id self).

Definition set_id (i : option Z) (self : t) : t :=
  mk (titel self) (ects self) (status self) (geplantes_semester self)
     (pruefungsleistungen self) i.

Definition aktualisiere_status : Py t unit := fun self =>
  match pruefungsleistungen self with
  | [] => (Ok tt, set_status OFFEN self)
  | _ :: _ =>
      match py_last (pruefungsleistungen self) with
      | Raise e => (Raise e, self)
      | Ok letzte =>
          if Pruefungsleistung.ist_bestanden letzte
          then (Ok tt, set_status BESTANDEN self)
          else if len (pruefungsleistungen self) >=? 3
          then (Ok tt, set_status NICHT_BESTANDEN self)
          else (Ok tt, set_status OFFEN self)
      end
  end.

Definition neue_pruefungsleistung (note : Q) : Py t unit := fun self =>
  if len (pruefungsleistungen self) >=? 3
  then (Raise (ValueError "Maximal 3 Versuche erlaubt."), self)
  else
    let versuch := len (pruefungsleistungen self) + 1 in
    match Pruefungsleistung.init note versuch with
    | Raise e => (Raise e, self)
    | Ok leistung =>
        aktualisiere_status
          (set_pruefungsleistungen
             (pruefungsleistungen self ++ [leistung]) self)
    end.

Definition ist_bestanden (self : t) : bool :=
  Status_eqb (status self) BESTANDEN.

Definition berechne_aufwand (self : t) (sessions : list ZeitEintrag.t) : Z :=
  fold_left
    (fun gesamt s =>
       if opt_eqb (ZeitEintrag.modul_id s) (id self)
       then gesamt + ZeitEintrag.dauer s
       else gesamt)
    sessions 0.

End Modul.

Module Semester.

Record t : Type := mk {
  nummer : Z;
  start_datum : datetime.t;
  end_datum : datetime.t;
  id : option Z
}.

Definition init (nummer : Z) (start_datum end_datum : datetime.t) : t :=
  mk nummer start_datum end_datum None.

Definition set_id (i : option Z) (self : t) : t :=
  mk (nummer self) (start_datum self) (end_datum self) i.

(** The loop of [berechne_notendurchschnitt] that collects [noten]. *)
Fixpoint sammle_noten (self : t) (module : list Modul.t) (noten : list Q)
    : Outcome (list Q) :=
  match module with
  | [] => Ok noten
  | m :: rest =>
      if (Modul.geplantes_semester m =? nummer self) && Modul.ist_bestanden m
      then
        match Modul.pruefungsleistungen m with
        | [] => sammle_noten self rest noten
        | _ :: _ =>
            match py_last (Modul.pruefungsleistungen m) with
            | Raise e => Raise e
            | Ok letzte =>
                sammle_noten self rest
                  (noten ++ [Pruefungsleistung.note letzte])
            end
        end
      else sammle_noten self rest noten
  end.

Definition berechne_notendurchschnitt (self : t) (module : list Modul.t)
    : Outcome Q :=
  match sammle_noten self module [] with
  | Raise e => Raise e
  | Ok [] => Ok 0%Q
  | Ok noten =>
      match py_truediv (py_sum noten) (inject_Z (len noten)) with
      | Raise e => Raise e
      | Ok schnitt => Ok (py_round2 schnitt)
      end
  end.

End Semester.

Module Studiengang.

Record t : Type := mk {
  name : string;
  regelstudienzeit : Z;
  zielschnitt : Q;
  semester_liste : list Semester.t;
  module : list Modul.t;
  id : option Z
}.

(** [Studiengang(name, regelstudienzeit=6, zielschnitt=2.0)] *)
Definition init (name : string) (regelstudienzeit : Z) (zielschnitt : Q) : t :=
  mk name regelstudienzeit zielschnitt [] [] None.

Definition set_semester_liste (l : list Semester.t) (self : t) : t :=
  mk (name self) (regelstudienzeit self) (zielschnitt self) l
     (module self) (id self).

Definition set_module (l : list Modul.t) (self : t) : t :=
  mk (name self) (regelstudienzeit self) (zielschnitt self)
     (semester_liste self) l (id self).

Definition set_id (i : option Z) (self : t) : t :=
  mk (name self) (regelstudienzeit self) (zielschnitt self)
     (semester_liste self) (module self) i.

(** [range(1, n + 1)] *)
Definition range1 (n : Z) : list Z := map Z.of_nat (seq 1 (Z.to_nat n)).

(** [while monat > 12: monat = monat - 12; jahr = jahr + 1], with one unit
    of fuel per iteration. *)
Fixpoint jahresueberlauf (fuel : nat) (monat jahr : Z) : Z * Z :=
  match fuel with
  | O => (monat, jahr)
  | S fuel' =>
      if monat >? 12 then jahresueberlauf fuel' (monat - 12) (jahr + 1)
      else (monat, jahr)
  end.

(** The body of the [for] loop, the cursor [aktueller_start] being the
    loop's local state next to [self]. *)
Fixpoint semester_schleife (indices : list Z) (aktueller_start : datetime.t)
    : Py t unit := fun self =>
  match indices with
  | [] => (Ok tt, self)
  | i :: rest =>
      let monat := datetime.month aktueller_start + 6 in
      let jahr := datetime.year aktueller_start in
      let '(monat, jahr) := jahresueberlauf (Z.to_nat monat) monat jahr in
      match datetime.replace_year_month aktueller_start jahr monat with
      | Raise e => (Raise e, self)
      | Ok naechster_start =>
          match datetime.sub_timedelta naechster_start (timedelta.of_days 1) with
          | Raise e => (Raise e, self)
          | Ok ende =>
              semester_schleife rest naechster_start
                (set_semester_liste
                   (semester_liste self
                      ++ [Semester.init i aktueller_start ende]) self)
          end
      end
  end.

Definition generiere_semester (start_datum : datetime.t) : Py t unit :=
  fun self =>
    semester_schleife (range1 (regelstudienzeit self)) start_datum
      (set_semester_liste [] self).

End Studiengang.

(* ================================================================== *)
(** * database.py                                                      *)
(* ================================================================== *)

(** ** The SQLite store

    One list of rows per table, in the order of insertion, which is the
    order of the row ids and the order a [SELECT] without [ORDER BY] scans
    them in.  The columns [start_datum] and [end_datum] hold the ISO text of
    a [datetime]; [fromisoformat] reads back what [isoformat] wrote, so the
    cell is modelled by the value itself.  The table of the time entries,
    which no operation below touches, is left out. *)

Record studiengang_zeile : Type := mk_studiengang_zeile {
  sg_id : Z;
  sg_name : string;
  sg_regelstudienzeit : Z;
  sg_zielschnitt : Q
}.

Record semester_zeile : Type := mk_semester_zeile {
  sem_id : Z;
  sem_nummer : Z;
  sem_start_datum : datetime.t;
  sem_end_datum : datetime.t;
  sem_studiengang_id : Z
}.

Record modul_zeile : Type := mk_modul_zeile {
  mod_id : Z;
  mod_titel : string;
  mod_ects : Z;
  mod_status : string;
  mod_geplantes_semester : Z;
  mod_studiengang_id : Z
}.

Record pl_zeile : Type := mk_pl_zeile {
  pl_id : Z;
  pl_note : Q;
  pl_versuchs_nummer : Z;
  pl_modul_id : Z
}.

(** The four tables and, per table, the largest row id handed out so far
    ([sqlite_sequence], kept for [AUTOINCREMENT] columns). *)
Record Database : Type := mk_database {
  studiengaenge : list studiengang_zeile;
  semester : list semester_zeile;
  module : list modul_zeile;
  pruefungsleistungen : list pl_zeile;
  seq_studiengaenge : Z;
  seq_semester : Z;
  seq_module : Z;
  seq_pruefungsleistungen : Z
}.


Definition max_id (ids : list Z) : Z := fold_right Z.max 0 ids.

(** The row id of an [INTEGER PRIMARY KEY AUTOINCREMENT] insert: one more
    than the largest id in the table and the largest id ever handed out. *)
Definition next_id (ids : list Z) (seq : Z) : Z := Z.max (max_id ids) seq + 1.

(** [ORDER BY key]: a stable sort, rows with equal keys stay in scan order. *)
Fixpoint insert_by {A} (key : A -> Z) (x : A) (l : list A) : list A :=
  match l with
  | [] => [x]
  | y :: rest =>
      if key x <=? key y then x :: y :: rest else y :: insert_by key x rest
  end.

Fixpoint order_by {A} (key : A -> Z) (l : list A) : list A :=
  match l with
  | [] => []
  | x :: rest => insert_by key x (order_by key rest)
  end.

(** [for x in xs], collecting the objects as the loop body leaves them. *)
Fixpoint for_map {S A B} (xs : list A) (body : A -> Py S B) : Py S (list B) :=
  match xs with
  | [] => ret []
  | x :: rest =>
      bind (body x) (fun y =>
      bind (for_map rest body) (fun ys => ret (y :: ys)))
  end.

Fixpoint map_outcome {A B} (f : A -> Outcome B) (xs : list A)
    : Outcome (list B) :=
  match xs with
  | [] => Ok []
  | x :: rest =>
      match f x with
      | Raise e => Raise e
      | Ok y => match map_outcome f rest with
                | Raise e => Raise e
                | Ok ys => Ok (y :: ys)
                end
      end
  end.

(** Writing one table, with its sequence entry. *)
Definition mit_studiengaenge (rows : list studiengang_zeile) (seq : Z)
    (db : Database) : Database :=
  mk_database rows (semester db) (module db) (pruefungsleistungen db)
    seq (seq_semester db) (seq_module db) (seq_pruefungsleistungen db).

Definition mit_semester (rows : list semester_zeile) (seq : Z)
    (db : Database) : Database :=
  mk_database (studiengaenge db) rows (module db) (pruefungsleistungen db)
    (seq_studiengaenge db) seq (seq_module db) (seq_pruefungsleistungen db).

Definition mit_module (rows : list modul_zeile) (seq : Z)
    (db : Database) : Database :=
  mk_database (studiengaenge db) (semester db) rows (pruefungsleistungen db)
    (seq_studiengaenge db) (seq_semester db) seq (seq_pruefungsleistungen db).

Definition mit_pruefungsleistungen (rows : list pl_zeile) (seq : Z)
    (db : Database) : Database :=
  mk_database (studiengaenge db) (semester db) (module db) rows
    (seq_studiengaenge db) (seq_semester db) (seq_module db) seq.

(** The id the next insert into a table gets. *)
Definition nid_studiengaenge (db : Database) : Z :=
  next_id (map sg_id (studiengaenge db)) (seq_studiengaenge db).
Definition nid_semester (db : Database) : Z :=
  next_id (map sem_id (semester db)) (seq_semester db).
Definition nid_module (db : Database) : Z :=
  next_id (map mod_id (module db)) (seq_module db).
Definition nid_pruefungsleistungen (db : Database) : Z :=
  next_id (map pl_id (pruefungsleistungen db)) (seq_pruefungsleistungen db).

(** [INSERT INTO studiengaenge (name, regelstudienzeit, zielschnitt)];
    the result is [cursor.lastrowid]. *)
Definition insert_studiengang (name : string) (regelstudienzeit : Z)
    (zielschnitt : Q) : Py Database Z := fun db =>
  let i := nid_studiengaenge db in
  (Ok i,
   mit_studiengaenge
     (studiengaenge db
        ++ [mk_studiengang_zeile i name regelstudienzeit zielschnitt]) i db).

(** [UPDATE studiengaenge SET name=?, regelstudienzeit=?, zielschnitt=?
    WHERE id=?] *)
Definition update_studiengang (name : string) (regelstudienzeit : Z)
    (zielschnitt : Q) (i : Z) : Py Database unit := fun db =>
  (Ok tt,
   mit_studiengaenge
     (map (fun z => if sg_id z =? i
                    then mk_studiengang_zeile i name regelstudienzeit zielschnitt
                    else z) (studiengaenge db))
     (seq_studiengaenge db) db).

(** [DELETE FROM semester WHERE studiengang_id=?] *)
Definition delete_semester (sg : Z) : Py Database unit := fun db =>
  (Ok tt,
   mit_semester
     (filter (fun z => negb (sem_studiengang_id z =? sg)) (semester db))
     (seq_semester db) db).

(** [INSERT INTO semester (nummer, start_datum, end_datum, studiengang_id)];
    the foreign key must name a row of [studiengaenge]. *)
Definition insert_semester (nummer : Z) (start_datum end_datum : datetime.t)
    (sg : Z) : Py Database Z := fun db =>
  if existsb (fun z => sg_id z =? sg) (studiengaenge db) then
    let i := nid_semester db in
    (Ok i,
     mit_semester
       (semester db ++ [mk_semester_zeile i nummer start_datum end_datum sg])
       i db)
  else (Raise IntegrityError, db).

(** [INSERT INTO module (titel, ects, status, geplantes_semester,
    studiengang_id)]; the foreign key is [NOT NULL] and must name a row of
    [studiengaenge]. *)
Definition insert_modul (titel : string) (ects : Z) (status : string)
    (geplantes_semester : Z) (studiengang_id : option Z) : Py Database Z :=
  fun db =>
    match studiengang_id with
    | None => (Raise IntegrityError, db)
    | Some sg =>
        if existsb (fun z => sg_id z =? sg) (studiengaenge db) then
          let i := nid_module db in
          (Ok i,
           mit_module
             (module db
                ++ [mk_modul_zeile i titel ects status geplantes_semester sg])
             i db)
        else (Raise IntegrityError, db)
    end.

(** [UPDATE module SET titel=?, ects=?, status=?, geplantes_semester=?
    WHERE id=?] *)
Definition update_modul (titel : string) (ects : Z) (status : string)
    (geplantes_semester : Z) (i : Z) : Py Database unit := fun db =>
  (Ok tt,
   mit_module
     (map (fun z => if mod_id z =? i
                    then mk_modul_zeile i titel ects status geplantes_semester
                           (mod_studiengang_id z)
                    else z) (module db))
     (seq_module db) db).

(** [INSERT INTO pruefungsleistungen (note, versuchs_nummer, modul_id)];
    the foreign key must name a row of [module]. *)
Definition insert_pruefungsleistung (note : Q) (versuchs_nummer : Z)
    (modul : Z) : Py Database Z := fun db =>
  if existsb (fun z => mod_id z =? modul) (module db) then
    let i := nid_pruefungsleistungen db in
    (Ok i,
     mit_pruefungsleistungen
       (pruefungsleistungen db ++ [mk_pl_zeile i note versuchs_nummer modul])
       i db)
  else (Raise IntegrityError, db).

(** [status.value] and [Status(text)] *)
Definition Status_value (s : Status) : string :=
  match s with
  | OFFEN => "OFFEN"
  | BESTANDEN => "BESTANDEN"
  | NICHT_BESTANDEN => "NICHT_BESTANDEN"
  end.

Definition Status_of_value (text : string) : Outcome Status :=
  if String.eqb text "OFFEN" then Ok OFFEN
  else if String.eqb text "BESTANDEN" then Ok BESTANDEN
  else if String.eqb text "NICHT_BESTANDEN" then Ok NICHT_BESTANDEN
  else Raise (ValueError "is not a valid Status").

Module StudiengangRepository.

(** The body of the loop over the semesters: each one is inserted anew. *)
Definition speichere_semester (studiengang_id : Z) (sem : Semester.t)
    : Py Database Semester.t :=
  (j <- insert_semester (Semester.nummer sem) (Semester.start_datum sem)
          (Semester.end_datum sem) studiengang_id ;;
   ret (Semester.set_id (Some j) sem))%py.

(** [speichern(studiengang)]; the result is the object as the call leaves
    it, with the identities the store assigned. *)
Definition speichern (studiengang : Studiengang.t)
    : Py Database Studiengang.t :=
  (i <- match Studiengang.id studiengang with
        | None =>
            insert_studiengang (Studiengang.name studiengang)
              (Studiengang.regelstudienzeit studiengang)
              (Studiengang.zielschnitt studiengang)
        | Some i =>
            update_studiengang (Studiengang.name studiengang)
              (Studiengang.regelstudienzeit studiengang)
              (Studiengang.zielschnitt studiengang) i ;;;
            ret i
        end ;;
   delete_semester i ;;;
   semester_liste <-
     for_map (Studiengang.semester_liste studiengang) (speichere_semester i) ;;
   ret (Studiengang.set_semester_liste semester_liste
          (Studiengang.set_id (Some i) studiengang)))%py.

Definition lade_semester (sg : Z) (db : Database) : list Semester.t :=
  map (fun z => Semester.set_id (Some (sem_id z))
                  (Semester.init (sem_nummer z) (sem_start_datum z)
                     (sem_end_datum z)))
    (order_by sem_nummer
       (filter (fun z => sem_studiengang_id z =? sg) (semester db))).

Definition laden_alle (db : Database) : list Studiengang.t :=
  map (fun z =>
         Studiengang.set_semester_liste (lade_semester (sg_id z) db)
           (Studiengang.set_id (Some (sg_id z))
              (Studiengang.init (sg_name z) (sg_regelstudienzeit z)
                 (sg_zielschnitt z))))
    (studiengaenge db).

End StudiengangRepository.

Module ModulRepository.

(** The body of the loop over the attempts: only an attempt without
    identity is inserted. *)
Definition speichere_neue (modul_id : Z) (pl : Pruefungsleistung.t)
    : Py Database Pruefungsleistung.t :=
  match Pruefungsleistung.id pl with
  | None =>
      (j <- insert_pruefungsleistung (Pruefungsleistung.note pl)
              (Pruefungsleistung.versuchs_nummer pl) modul_id ;;
       ret (Pruefungsleistung.set_id (Some j) pl))%py
  | Some _ => ret pl
  end.

(** [speichern(modul, studiengang_id)]; the result is the object as the
    call leaves it. *)
Definition speichern (modul : Modul.t) (studiengang_id : option Z)
    : Py Database Modul.t :=
  (i <- match Modul.id modul with
        | None =>
            insert_modul (Modul.titel modul) (Modul.ects modul)
              (Status_value (Modul.status modul))
              (Modul.geplantes_semester modul) studiengang_id
        | Some i =>
            update_modul (Modul.titel modul) (Modul.ects modul)
              (Status_value (Modul.status modul))
              (Modul.geplantes_semester modul) i ;;;
            ret i
        end ;;
   pruefungsleistungen <-
     for_map (Modul.pruefungsleistungen modul) (speichere_neue i) ;;
   ret (Modul.set_pruefungsleistungen pruefungsleistungen
          (Modul.set_id (Some i) modul)))%py.

Definition lade_pruefungsleistungen (modul : Z) (db : Database)
    : Outcome (list Pruefungsleistung.t) :=
  map_outcome
    (fun z =>
       match Pruefungsleistung.init (pl_note z) (pl_versuchs_nummer z) with
       | Raise e => Raise e
       | Ok pl => Ok (Pruefungsleistung.set_id (Some (pl_id z)) pl)
       end)
    (order_by pl_versuchs_nummer
       (filter (fun z => pl_modul_id z =? modul) (pruefungsleistungen db))).

Definition laden_fuer_studiengang (sg_id : option Z) (db : Database)
    : Outcome (list Modul.t) :=
  map_outcome
    (fun z =>
       match Status_of_value (mod_status z) with
       | Raise e => Raise e
       | Ok status =>
           match lade_pruefungsleistungen (mod_id z) db with
           | Raise e => Raise e
           | Ok pls =>
               Ok (Modul.set_pruefungsleistungen pls
                     (Modul.set_id (Some (mod_id z))
                        (Modul.init (mod_titel z) (mod_ects z) status
                           (mod_geplantes_semester z))))
           end
       end)
    (filter (fun z => match sg_id with
                      | Some sg => mod_studiengang_id z =? sg
                      | None => false
                      end) (module db)).

End ModulRepository.

Module DatenbankManager.

Definition speichern (studiengang : Studiengang.t)
    : Py Database Studiengang.t :=
  (sg <- StudiengangRepository.speichern studiengang ;;
   module <- for_map (Studiengang.module sg)
               (fun modul => ModulRepository.speichern modul (Studiengang.id sg)) ;;
   ret (Studiengang.set_module module sg))%py.

(** [laden()["studiengaenge"]] *)
Definition laden (db : Database) : Outcome (list Studiengang.t) :=
  map_outcome
    (fun sg =>
       match ModulRepository.laden_fuer_studiengang (Studiengang.id sg) db with
       | Raise e => Raise e
       | Ok module => Ok (Studiengang.set_module module sg)
       end)
    (StudiengangRepository.laden_alle db).

End DatenbankManager.

(** The status rule in the words of the specification, a pure function of
    the score sequence. *)
Definition status_rule (scores : list Q) : Status :=
  match scores with
  | [] => OFFEN
  | _ :: _ =>
      if Qle_bool (last scores 0%Q) 4 then BESTANDEN
      else if (3 <=? length scores)%nat then NICHT_BESTANDEN
      else OFFEN
  end.

Definition scores_of (m : Modul.t) : list Q :=
  map Pruefungsleistung.note (Modul.pruefungsleistungen m).

(** Adding a sequence of scores, one [neue_pruefungsleistung] per score;
    the status after each call is recorded, a failing call ends the run. *)
Fixpoint add_all (scores : list Q) (m : Modul.t) : list Status * Modul.t :=
  match scores with
  | [] => ([], m)
  | s :: rest =>
      match Modul.neue_pruefungsleistung s m with
      | (Ok _, m') =>
          let '(sts, m'') := add_all rest m' in (Modul.status m' :: sts, m'')
      | (Raise _, m') => ([], m')
      end
  end.

(** The attempts that can exist: made by the constructor, then changed
    only through the [note] setter or by the persistence layer setting
    [id]. *)
Inductive existing : Pruefungsleistung.t -> Prop :=
| existing_init note nr a :
    Pruefungsleistung.init note nr = Ok a -> existing a
| existing_set_note wert a r a' :
    existing a -> Pruefungsleistung.set_note wert a = (r, a') -> existing a'
| existing_set_id i a :
    existing a -> existing (Pruefungsleistung.set_id i a).

Definition in_range (x : Q) : Prop := (1 <= x /\ x <= 5)%Q.


(** The effort in the words of the specification: the sum of [dauer()] over
    the entries whose module reference equals the identity of the module. *)
Definition refers_to (m : Modul.t) (e : ZeitEintrag.t) : bool :=
  opt_eqb (ZeitEintrag.modul_id e) (Modul.id m).

Definition effort_spec (m : Modul.t) (entries : list ZeitEintrag.t) : Z :=
  fold_right Z.add 0 (map ZeitEintrag.dauer (filter (refers_to m) entries)).

(** Sample values used in examples. *)
Definition at_time (y mo d h mi s : Z) : datetime.t :=
  datetime.mk y mo d h mi s 0.

(** The average grade of a semester in the words of the specification:
    the modules planned for the semester and passed, the score of the most
    recent attempt of each, the mean rounded to two decimals, [0.0] when
    there is no score. *)
Definition selected (sem : Semester.t) (module : list Modul.t) : list Modul.t :=
  filter (fun m => (Modul.geplantes_semester m =? Semester.nummer sem)
                   && Modul.ist_bestanden m) module.

Definition latest_score (m : Modul.t) : option Q :=
  match rev (Modul.pruefungsleistungen m) with
  | a :: _ => Some (Pruefungsleistung.note a)
  | [] => None
  end.

Definition latest_scores (module : list Modul.t) : list Q :=
  flat_map (fun m => match latest_score m with
                     | Some q => [q]
                     | None => []
                     end) module.

Definition average_grade_spec (sem : Semester.t) (module : list Modul.t) : Q :=
  match latest_scores (selected sem module) with
  | [] => 0%Q
  | noten => py_round2 (py_sum noten / inject_Z (len noten))%Q
  end.

(** ** What a save leaves behind

    The objects and rows a save produces, written out as functions of the
    objects saved and of the ids the store hands out next. *)














(** The scores of all attempts are in range, as they are for attempts made
    by the constructor. *)
Definition noten_gueltig (sg : Studiengang.t) : Prop :=
  Forall (fun m => Forall (fun pl => in_range (Pruefungsleistung.note pl))
                     (Modul.pruefungsleistungen m))
    (Studiengang.module sg).

(** A program as a load presents it: semesters by number, the attempts of
    each module by attempt number. *)
Definition modul_geordnet (m : Modul.t) : Modul.t :=
  Modul.set_pruefungsleistungen
    (order_by Pruefungsleistung.versuchs_nummer (Modul.pruefungsleistungen m)) m.

Definition studiengang_geordnet (sg : Studiengang.t) : Studiengang.t :=
  Studiengang.set_module (map modul_geordnet (Studiengang.module sg))
    (Studiengang.set_semester_liste
       (order_by Semester.nummer (Studiengang.semester_liste sg)) sg).




(** Non-decreasing keys: the order a load by key leaves untouched. *)
Fixpoint aufsteigend {A} (key : A -> Z) (l : list A) : Prop :=
  match l with
  | [] => True
  | x :: rest => Forall (fun y => key x <= key y) rest /\ aufsteigend key rest
  end.


(** A store just created. *)
Definition leere_datenbank : Database := mk_database [] [] [] [] 0 0 0 0.

(** A program with two semesters and three modules, one of them with two
    attempts, none of them saved yet. *)
Definition beispiel_studiengang : Studiengang.t :=
  Studiengang.mk "Informatik" 2 (2 # 1)
    [Semester.init 1 (at_time 2024 10 1 0 0 0) (at_time 2025 3 31 0 0 0);
     Semester.init 2 (at_time 2025 4 1 0 0 0) (at_time 2025 9 30 0 0 0)]
    [Modul.mk "Mathematik I" 5 BESTANDEN 1
       [Pruefungsleistung.mk (5 # 1) 1 None;
        Pruefungsleistung.mk (23 # 10) 2 None] None;
     Modul.init "Physik" 5 OFFEN 1;
     Modul.init "Algorithmen" 10 OFFEN 2]
    None.





(** Semester generation in the words of the specification: the cursor
    moves by six calendar months, with the year rolling over past
    December, and a semester ends on the day before the next cursor. *)
Definition sechs_monate_spaeter (d : datetime.t) : datetime.t :=
  if datetime.month d + 6 >? 12
  then datetime.mk (datetime.year d + 1) (datetime.month d - 6) (datetime.day d)
         (datetime.hour d) (datetime.minute d) (datetime.second d)
         (datetime.microsecond d)
  else datetime.mk (datetime.year d) (datetime.month d + 6) (datetime.day d)
         (datetime.hour d) (datetime.minute d) (datetime.second d)
         (datetime.microsecond d).

Definition tag_davor (d : datetime.t) : datetime.t :=
  let '(y, m, t) := datetime._ord2ymd (datetime.toordinal d - 1) in
  datetime.mk y m t (datetime.hour d) (datetime.minute d) (datetime.second d)
    (datetime.microsecond d).

Fixpoint semester_folge (indices : list Z) (cursor : datetime.t)
    : list Semester.t :=
  match indices with
  | [] => []
  | i :: rest =>
      let naechster := sechs_monate_spaeter cursor in
      Semester.init i cursor (tag_davor naechster)
      :: semester_folge rest naechster
  end.

(* ================================================================== *)
(** * models.py: the remaining methods                                 *)
(* ================================================================== *)

(** Comparison of two naive [datetime] values: field by field, the year
    first. *)
Definition datetime_fields (d : datetime.t) : list Z :=
  [datetime.year d; datetime.month d; datetime.day d; datetime.hour d;
   datetime.minute d; datetime.second d; datetime.microsecond d].

Fixpoint cmp_fields (a b : list Z) : comparison :=
  match a, b with
  | x :: a', y :: b' =>
      match x ?= y with
      | Eq => cmp_fields a' b'
      | c => c
      end
  | [], [] => Eq
  | [], _ :: _ => Lt
  | _ :: _, [] => Gt
  end.

(** [a <= b] and [a < b] on [datetime] *)
Definition datetime_leb (a b : datetime.t) : bool :=
  match cmp_fields (datetime_fields a) (datetime_fields b) with
  | Gt => false
  | _ => true
  end.

Definition datetime_ltb (a b : datetime.t) : bool :=
  match cmp_fields (datetime_fields a) (datetime_fields b) with
  | Lt => true
  | _ => false
  end.

(** [Semester.ist_aktuell], [jetzt] being what [datetime.now()] returns. *)
Definition Semester_ist_aktuell (jetzt : datetime.t) (self : Semester.t) : bool :=
  datetime_leb (Semester.start_datum self) jetzt
  && datetime_leb jetzt (Semester.end_datum self).

(** The loop of [get_aktuelles_semester]; every [ist_aktuell] reads the
    clock anew, [uhr k] is the reading number [k] of the call. *)
Fixpoint aktuelles_semester_schleife (uhr : nat -> datetime.t) (k : nat)
    (semester_liste : list Semester.t) : option Z :=
  match semester_liste with
  | [] => None
  | sem :: rest =>
      if Semester_ist_aktuell (uhr k) sem then Some (Semester.nummer sem)
      else aktuelles_semester_schleife uhr (S k) rest
  end.

Definition Studiengang_get_aktuelles_semester (uhr : nat -> datetime.t)
    (self : Studiengang.t) : Z :=
  match aktuelles_semester_schleife uhr 0 (Studiengang.semester_liste self) with
  | Some nummer => nummer
  | None =>
      match Studiengang.semester_liste self with
      | [] => Studiengang.regelstudienzeit self
      | erstes :: _ =>
          let jetzt := uhr (length (Studiengang.semester_liste self)) in
          if datetime_ltb jetzt (Semester.start_datum erstes) then 1
          else Studiengang.regelstudienzeit self
      end
  end.

Definition Studiengang_berechne_gesamt_fortschritt (self : Studiengang.t) : Z :=
  fold_left
    (fun summe modul =>
       if Modul.ist_bestanden modul then summe + Modul.ects modul else summe)
    (Studiengang.module self) 0.



Fixpoint alle_bestanden (module : list Modul.t) : bool :=
  match module with
  | [] => true
  | modul :: rest =>
      if negb (Modul.ist_bestanden modul) then false else alle_bestanden rest
  end.

Definition Studiengang_ist_abgeschlossen (self : Studiengang.t) : bool :=
  match Studiengang.module self with
  | [] => false
  | _ :: _ => alle_bestanden (Studiengang.module self)
  end.

(** The modules the program can build: made by the constructor with its
    default status, then changed by [neue_pruefungsleistung] only, whether
    the call goes through or raises. *)
Inductive aufgebaut : Modul.t -> Prop :=
| aufgebaut_init titel ects geplantes_semester :
    aufgebaut (Modul.init titel ects OFFEN geplantes_semester)
| aufgebaut_neu note m r m' :
    aufgebaut m -> Modul.neue_pruefungsleistung note m = (r, m') ->
    aufgebaut m'.

(** [l.remove(l[i])] for a list of distinct objects: the element at
    index [i] goes. *)
Definition entferne_index {A} (i : nat) (l : list A) : list A :=
  firstn i l ++ skipn (S i) l.

(** [_note_loeschen] of the console layer, without its prompts and its
    calls of the store: the attempt [v_nr] is taken out of the list and the
    status recomputed. *)
Definition note_loeschen (v_nr : Z) : Py Modul.t unit := fun modul =>
  if negb (v_nr =? 0) && (1 <=? v_nr)
     && (v_nr <=? len (Modul.pruefungsleistungen modul))
  then
    Modul.aktualisiere_status
      (Modul.set_pruefungsleistungen
         (entferne_index (Z.to_nat (v_nr - 1)) (Modul.pruefungsleistungen modul))
         modul)
  else (Ok tt, modul).

(** The sum of the credit points of a list of modules. *)
Definition ects_summe (module : list Modul.t) : Z :=
  fold_right Z.add 0 (map Modul.ects module).

(** The average of a list of scores as both average methods compute it:
    the sentinel [0.0] for no score, the rounded mean otherwise. *)
Definition durchschnitt_von (noten : list Q) : Q :=
  match noten with
  | [] => 0%Q
  | _ :: _ => py_round2 (py_sum noten / inject_Z (len noten))%Q
  end.

(* ================================================================== *)
(** * database.py: deleting, and the time entries                      *)
(* ================================================================== *)

(** The table [zeiteintraege].  Its variant columns can be [NULL]; date
    and start are kept as values, like the dates of the semesters. *)
Record zeiteintrag_zeile : Type := mk_zeiteintrag_zeile {
  ze_id : Z;
  ze_typ : string;
  ze_datum : datetime.t;
  ze_start_zeit : datetime.t;
  ze_end_zeit : option datetime.t;
  ze_geplante_dauer : option Z;
  ze_tatsaechliche_dauer : option Z;
  ze_beschreibung : option string;
  ze_modul_id : option Z
}.

Record Zeittabelle : Type := mk_zeittabelle {
  zeiteintraege : list zeiteintrag_zeile;
  seq_zeiteintraege : Z
}.

(** The whole store: the four tables of the programs and the table of the
    time entries. *)
Definition Speicher : Type := (Database * Zeittabelle)%type.

(** [DELETE FROM pruefungsleistungen WHERE id=?]
    ([ModulRepository.loeschen_pruefungsleistung]) *)
Definition loeschen_pruefungsleistung (pl : Z) (db : Database) : Database :=
  mit_pruefungsleistungen
    (filter (fun z => negb (pl_id z =? pl)) (pruefungsleistungen db))
    (seq_pruefungsleistungen db) db.

(** Deleting the rows of [module] that satisfy [weg]: their attempts go
    with them ([ON DELETE CASCADE]) and the time entries that name them
    lose the reference ([ON DELETE SET NULL]). *)
Definition delete_module (weg : modul_zeile -> bool) (s : Speicher) : Speicher :=
  let '(db, zt) := s in
  let ids := map mod_id (filter weg (module db)) in
  let geloescht m := existsb (Z.eqb m) ids in
  (mit_pruefungsleistungen
     (filter (fun z => negb (geloescht (pl_modul_id z))) (pruefungsleistungen db))
     (seq_pruefungsleistungen db)
     (mit_module (filter (fun z => negb (weg z)) (module db)) (seq_module db) db),
   mk_zeittabelle
     (map (fun z =>
             match ze_modul_id z with
             | Some m =>
                 if geloescht m
                 then mk_zeiteintrag_zeile (ze_id z) (ze_typ z) (ze_datum z)
                        (ze_start_zeit z) (ze_end_zeit z) (ze_geplante_dauer z)
                        (ze_tatsaechliche_dauer z) (ze_beschreibung z) None
                 else z
             | None => z
             end) (zeiteintraege zt))
     (seq_zeiteintraege zt)).

(** [DELETE FROM module WHERE id=?] ([ModulRepository.loeschen]) *)
Definition loeschen_modul (modul_id : Z) (s : Speicher) : Speicher :=
  delete_module (fun z => mod_id z =? modul_id) s.

(** [DELETE FROM studiengaenge WHERE id=?] ([StudiengangRepository.loeschen]):
    with a deleted program row go its semesters and its modules. *)
Definition loeschen_studiengang (sg : Z) (s : Speicher) : Speicher :=
  let '(db, zt) := s in
  if existsb (fun z => sg_id z =? sg) (studiengaenge db) then
    delete_module (fun z => mod_studiengang_id z =? sg)
      (mit_semester
         (filter (fun z => negb (sem_studiengang_id z =? sg)) (semester db))
         (seq_semester db)
         (mit_studiengaenge
            (filter (fun z => negb (sg_id z =? sg)) (studiengaenge db))
            (seq_studiengaenge db) db),
       zt)
  else s.

(** Integrity of the four tables of the programs: primary keys are unique
    and every foreign key names a row. *)
Definition integritaet (db : Database) : Prop :=
  NoDup (map sg_id (studiengaenge db))
  /\ NoDup (map sem_id (semester db))
  /\ NoDup (map mod_id (module db))
  /\ NoDup (map pl_id (pruefungsleistungen db))
  /\ (forall z, In z (semester db) ->
        In (sem_studiengang_id z) (map sg_id (studiengaenge db)))
  /\ (forall z, In z (module db) ->
        In (mod_studiengang_id z) (map sg_id (studiengaenge db)))
  /\ (forall z, In z (pruefungsleistungen db) ->
        In (pl_modul_id z) (map mod_id (module db))).

(** Integrity of the time entries: unique keys, and a module reference
    names a row of [module]. *)
Definition integritaet_zeit (s : Speicher) : Prop :=
  NoDup (map ze_id (zeiteintraege (snd s)))
  /\ (forall z m, In z (zeiteintraege (snd s)) -> ze_modul_id z = Some m ->
        In m (map mod_id (module (fst s)))).

(** The programs of a load without the program [sg], without the module
    [modul], without the attempt [pl]. *)
Definition ohne_studiengang (sg : Z) (l : list Studiengang.t) : list Studiengang.t :=
  filter (fun s => negb (opt_eqb (Studiengang.id s) (Some sg))) l.

Definition ohne_modul (modul : Z) (l : list Studiengang.t) : list Studiengang.t :=
  map (fun s =>
         Studiengang.set_module
           (filter (fun m => negb (opt_eqb (Modul.id m) (Some modul)))
              (Studiengang.module s)) s) l.

Definition ohne_pruefungsleistung (pl : Z) (l : list Studiengang.t)
    : list Studiengang.t :=
  map (fun s =>
         Studiengang.set_module
           (map (fun m =>
                   Modul.set_pruefungsleistungen
                     (filter (fun a => negb (opt_eqb (Pruefungsleistung.id a)
                                               (Some pl)))
                        (Modul.pruefungsleistungen m)) m)
              (Studiengang.module s)) s) l.


(* ================================================================== *)
(** * database.py: the repository of the time entries                  *)
(* ================================================================== *)

(** [eintrag.id = i] on the two classes of time entries. *)
Definition Lerntermin_set_id (i : option Z) (e : Lerntermin.t) : Lerntermin.t :=
  Lerntermin.mk (Lerntermin.datum e) (Lerntermin.start_zeit e)
    (Lerntermin.geplante_dauer e) (Lerntermin.beschreibung e)
    (Lerntermin.modul_id e) i.

Definition Lernsession_set_id (i : option Z) (e : Lernsession.t) : Lernsession.t :=
  Lernsession.mk (Lernsession.datum e) (Lernsession.start_zeit e)
    (Lernsession.end_zeit e) (Lernsession.tatsaechliche_dauer e)
    (Lernsession.modul_id e) i.

Definition ZeitEintrag_id (e : ZeitEintrag.t) : option Z :=
  match e with
  | ZeitEintrag.Termin t => Lerntermin.id t
  | ZeitEintrag.Session s => Lernsession.id s
  end.

Definition ZeitEintrag_set_id (i : option Z) (e : ZeitEintrag.t) : ZeitEintrag.t :=
  match e with
  | ZeitEintrag.Termin t => ZeitEintrag.Termin (Lerntermin_set_id i t)
  | ZeitEintrag.Session s => ZeitEintrag.Session (Lernsession_set_id i s)
  end.

Definition ZeitEintrag_datum (e : ZeitEintrag.t) : datetime.t :=
  match e with
  | ZeitEintrag.Termin t => Lerntermin.datum t
  | ZeitEintrag.Session s => Lernsession.datum s
  end.

(** The sort key of [ORDER BY datum].  The column holds the ISO text
    [YYYY-MM-DDTHH:MM:SS[.ffffff]] of the value; the texts compare as
    their digits do, read as one number. *)
Definition iso_schluessel (d : datetime.t) : Z :=
  (((((datetime.year d * 100 + datetime.month d) * 100 + datetime.day d) * 100
      + datetime.hour d) * 100 + datetime.minute d) * 100
   + datetime.second d) * 1000000 + datetime.microsecond d.

Definition nid_zeiteintraege (zt : Zeittabelle) : Z :=
  next_id (map ze_id (zeiteintraege zt)) (seq_zeiteintraege zt).

(** The foreign key [zeiteintraege.modul_id]: [NULL], or a row of [module]. *)
Definition modul_vorhanden (modul_id : option Z) (db : Database) : bool :=
  match modul_id with
  | None => true
  | Some m => existsb (fun z => mod_id z =? m) (module db)
  end.

(** [INSERT INTO zeiteintraege (...)]: the columns the statement does not
    name are [NULL]; the result is [cursor.lastrowid]. *)
Definition insert_zeiteintrag (typ : string) (datum start_zeit : datetime.t)
    (end_zeit : option datetime.t) (geplante_dauer tatsaechliche_dauer : option Z)
    (beschreibung : option string) (modul_id : option Z) : Py Speicher Z :=
  fun s =>
    if modul_vorhanden modul_id (fst s) then
      let i := nid_zeiteintraege (snd s) in
      (Ok i,
       (fst s,
        mk_zeittabelle
          (zeiteintraege (snd s)
             ++ [mk_zeiteintrag_zeile i typ datum start_zeit end_zeit
                   geplante_dauer tatsaechliche_dauer beschreibung modul_id])
          i))
    else (Raise IntegrityError, s).

(** [UPDATE zeiteintraege SET ..., modul_id=? WHERE id=?]: [neu] writes the
    columns of the statement into the row with the id; the foreign key is
    checked for a row that is written. *)
Definition update_zeiteintrag (neu : zeiteintrag_zeile -> zeiteintrag_zeile)
    (modul_id : option Z) (i : Z) : Py Speicher unit :=
  fun s =>
    if existsb (fun z => ze_id z =? i) (zeiteintraege (snd s))
       && negb (modul_vorhanden modul_id (fst s))
    then (Raise IntegrityError, s)
    else
      (Ok tt,
       (fst s,
        mk_zeittabelle
          (map (fun z => if ze_id z =? i then neu z else z)
             (zeiteintraege (snd s)))
          (seq_zeiteintraege (snd s)))).

(** What reading the table can end in besides a list of entries: the
    [TypeError] of [fromisoformat(None)] for a row that is no [TERMIN] and
    has no end, and, for a [TERMIN] row without duration or description,
    an object that holds [None] where the class [Lerntermin] has a number
    or a text, which the classes here do not describe. *)
Inductive Lesefehler : Type := TypeError | Untypisiert.

Inductive Gelesen (A : Type) : Type :=
| Wert (a : A)
| Fehler (f : Lesefehler).
Arguments Wert {A} a.
Arguments Fehler {A} f.

Module ZeiteintragRepository.

(** [speichern(eintrag)]; the result is the object as the call leaves it. *)
Definition speichern (eintrag : ZeitEintrag.t) : Py Speicher ZeitEintrag.t :=
  match eintrag with
  | ZeitEintrag.Termin e =>
      match Lerntermin.id e with
      | None =>
          (i <- insert_zeiteintrag "TERMIN" (Lerntermin.datum e)
                  (Lerntermin.start_zeit e) None
                  (Some (Lerntermin.geplante_dauer e)) None
                  (Some (Lerntermin.beschreibung e)) (Lerntermin.modul_id e) ;;
           ret (ZeitEintrag.Termin (Lerntermin_set_id (Some i) e)))%py
      | Some i =>
          (update_zeiteintrag
             (fun z =>
                mk_zeiteintrag_zeile (ze_id z) (ze_typ z) (Lerntermin.datum e)
                  (Lerntermin.start_zeit e) (ze_end_zeit z)
                  (Some (Lerntermin.geplante_dauer e))
                  (ze_tatsaechliche_dauer z)
                  (Some (Lerntermin.beschreibung e)) (Lerntermin.modul_id e))
             (Lerntermin.modul_id e) i ;;;
           ret eintrag)%py
      end
  | ZeitEintrag.Session e =>
      match Lernsession.id e with
      | None =>
          (i <- insert_zeiteintrag "SESSION" (Lernsession.datum e)
                  (Lernsession.start_zeit e) (Some (Lernsession.end_zeit e))
                  None (Some (Lernsession.tatsaechliche_dauer e)) None
                  (Lernsession.modul_id e) ;;
           ret (ZeitEintrag.Session (Lernsession_set_id (Some i) e)))%py
      | Some i =>
          (update_zeiteintrag
             (fun z =>
                mk_zeiteintrag_zeile (ze_id z) (ze_typ z) (Lernsession.datum e)
                  (Lernsession.start_zeit e) (Some (Lernsession.end_zeit e))
                  (ze_geplante_dauer z)
                  (Some (Lernsession.tatsaechliche_dauer e))
                  (ze_beschreibung z) (Lernsession.modul_id e))
             (Lernsession.modul_id e) i ;;;
           ret eintrag)%py
      end
  end.

(** The body of the loop of [laden_alle]. *)
Definition lies_zeile (zeile : zeiteintrag_zeile) : Gelesen ZeitEintrag.t :=
  let datum := ze_datum zeile in
  let start := ze_start_zeit zeile in
  let m_id := ze_modul_id zeile in
  if String.eqb (ze_typ zeile) "TERMIN" then
    match ze_geplante_dauer zeile, ze_beschreibung zeile with
    | Some geplante_dauer, Some beschreibung =>
        Wert (ZeitEintrag.Termin
                (Lerntermin_set_id (Some (ze_id zeile))
                   (Lerntermin.init datum start geplante_dauer beschreibung
                      m_id)))
    | _, _ => Fehler Untypisiert
    end
  else
    match ze_end_zeit zeile with
    | None => Fehler TypeError
    | Some ende =>
        Wert (ZeitEintrag.Session
                (Lernsession_set_id (Some (ze_id zeile))
                   (Lernsession.init datum start ende m_id)))
    end.

(** The loop: it stops at the first [TypeError]; an object outside the
    classes does not stop it. *)
Fixpoint lies_alle (zeilen : list zeiteintrag_zeile)
    : Gelesen (list ZeitEintrag.t) :=
  match zeilen with
  | [] => Wert []
  | zeile :: rest =>
      match lies_zeile zeile with
      | Fehler TypeError => Fehler TypeError
      | Fehler Untypisiert =>
          match lies_alle rest with
          | Fehler TypeError => Fehler TypeError
          | _ => Fehler Untypisiert
          end
      | Wert eintrag =>
          match lies_alle rest with
          | Wert zeiteintraege => Wert (eintrag :: zeiteintraege)
          | Fehler f => Fehler f
          end
      end
  end.

(** [laden_alle()]: [SELECT * FROM zeiteintraege ORDER BY datum] *)
Definition laden_alle (zt : Zeittabelle) : Gelesen (list ZeitEintrag.t) :=
  lies_alle (order_by (fun z => iso_schluessel (ze_datum z)) (zeiteintraege zt)).

(** [loeschen(eintrag_id)]: [DELETE FROM zeiteintraege WHERE id=?] *)
Definition loeschen (eintrag_id : Z) (s : Speicher) : Speicher :=
  (fst s,
   mk_zeittabelle
     (filter (fun z => negb (ze_id z =? eintrag_id)) (zeiteintraege (snd s)))
     (seq_zeiteintraege (snd s))).

End ZeiteintragRepository.

(** An entry as a load builds it from what a save wrote: a session gets
    its duration from start and end again. *)
Definition wie_geladen (e : ZeitEintrag.t) : ZeitEintrag.t :=
  match e with
  | ZeitEintrag.Termin t => ZeitEintrag.Termin t
  | ZeitEintrag.Session s =>
      ZeitEintrag.Session
        (Lernsession_set_id (Lernsession.id s)
           (Lernsession.init (Lernsession.datum s) (Lernsession.start_zeit s)
              (Lernsession.end_zeit s) (Lernsession.modul_id s)))
  end.

(** The rows of the time entries as the statements of the program write
    them: a [TERMIN] row has duration and description, every other row
    has an end. *)
Definition zeile_typisiert (z : zeiteintrag_zeile) : Prop :=
  if String.eqb (ze_typ z) "TERMIN"
  then ze_geplante_dauer z <> None /\ ze_beschreibung z <> None
  else ze_end_zeit z <> None.

(** The rows of the programs as a load needs them: a score in range and
    the text of a status. *)
Definition zeilen_lesbar (db : Database) : Prop :=
  Forall (fun z => in_range (pl_note z)) (pruefungsleistungen db)
  /\ Forall (fun z => exists status, mod_status z = Status_value status)
       (module db).

Definition leerer_speicher : Speicher := (leere_datenbank, mk_zeittabelle [] 0).

(** The stores the operations of the persistence layer lead to, from the
    empty store; a save counts whether it goes through or raises. *)
Inductive erreichbar : Speicher -> Prop :=
| erreichbar_leer : erreichbar leerer_speicher
| erreichbar_speichern sg s :
    erreichbar s -> noten_gueltig sg ->
    erreichbar (snd (DatenbankManager.speichern sg (fst s)), snd s)
| erreichbar_speichern_zeiteintrag e s :
    erreichbar s -> erreichbar (snd (ZeiteintragRepository.speichern e s))
| erreichbar_loeschen_zeiteintrag i s :
    erreichbar s -> erreichbar (ZeiteintragRepository.loeschen i s)
| erreichbar_loeschen_pruefungsleistung i s :
    erreichbar s -> erreichbar (loeschen_pruefungsleistung i (fst s), snd s)
| erreichbar_loeschen_modul i s :
    erreichbar s -> erreichbar (loeschen_modul i s)
| erreichbar_loeschen_studiengang i s :
    erreichbar s -> erreichbar (loeschen_studiengang i s).

(** A consistent store: keys are unique, references name rows, and every
    row can be read back. *)
Definition konsistent (s : Speicher) : Prop :=
  integritaet (fst s) /\ integritaet_zeit s /\ zeilen_lesbar (fst s)
  /\ Forall zeile_typisiert (zeiteintraege (snd s)).

(* ================================================================== *)
(** * ui.py: the figures of the dashboard                              *)
(* ================================================================== *)





(** [[s for s in zeiteintraege if isinstance(s, Lernsession)]] *)
Definition nur_sessions (zeiteintraege : list ZeitEintrag.t)
    : list ZeitEintrag.t :=
  filter (fun s => match s with
                   | ZeitEintrag.Session _ => true
                   | ZeitEintrag.Termin _ => false
                   end) zeiteintraege.

(** [DashboardAnzeige._zeige_lernzeit]: nothing for no session, otherwise
    the total of the minutes and a line with title and minutes for each
    module with a positive effort. *)
Definition zeige_lernzeit (sg : Studiengang.t) (sessions : list ZeitEintrag.t)
    : option (Z * list (string * Z)) :=
  match sessions with
  | [] => None
  | _ :: _ =>
      let gesamt_min :=
        fold_left (fun summe s => summe + ZeitEintrag.dauer s) sessions 0 in
      Some (gesamt_min,
            map (fun modul =>
                   (Modul.titel modul, Modul.berechne_aufwand modul sessions))
              (filter (fun modul => Modul.berechne_aufwand modul sessions >? 0)
                 (Studiengang.module sg)))
  end.

(** The sum of a list of minutes. *)
Definition minuten_summe (l : list Z) : Z := fold_right Z.add 0 l.

(* ================================================================== *)
(** * Saving a program that is in the store                            *)
(* ================================================================== *)









(* ================================================================== *)
(** * Confirming an appointment                                        *)
(* ================================================================== *)

(** The part of [_ord2ymd] that finds month and day from the day [n] of
    the year, counted from 0. *)
Definition monat_und_tag (n : Z) (leapyear : bool) : Z * Z :=
  let month := Z.shiftr (n + 50) 5 in
  let preceding :=
    nth (Z.to_nat month) datetime._DAYS_BEFORE_MONTH 0
    + (if (month >? 2) && leapyear then 1 else 0) in
  if preceding >? n then
    let month := month - 1 in
    let preceding :=
      preceding - (nth (Z.to_nat month) datetime._DAYS_IN_MONTH 0
                   + (if (month =? 2) && leapyear then 1 else 0)) in
    (month, n - preceding + 1)
  else (month, n - preceding + 1).

(** The check of month and day for every day of a year. *)
Definition monat_und_tag_richtig (leapyear : bool) (k : nat) : bool :=
  let n := Z.of_nat k in
  let '(month, day) := monat_und_tag n leapyear in
  (1 <=? month) && (month <=? 12) && (1 <=? day)
  && (day <=? nth (Z.to_nat month) datetime._DAYS_IN_MONTH 0
              + (if (month =? 2) && leapyear then 1 else 0))
  && (nth (Z.to_nat month) datetime._DAYS_BEFORE_MONTH 0
      + (if (month >? 2) && leapyear then 1 else 0) + day =? n + 1).

(** [timedelta(minutes=n)]: the days of the normalised value are bounded. *)
Definition timedelta_of_minutes (n : Z) : Outcome timedelta.t :=
  let us := n * 60000000 in
  if (-999999999 <=? us / 86400000000) && (us / 86400000000 <=? 999999999)
  then Ok us
  else Raise (OverflowError "days; must have magnitude <= 999999999").

(** [[t for t in zeiteintraege if isinstance(t, Lerntermin)]] *)
Definition nur_termine (zeiteintraege : list ZeitEintrag.t) : list Lerntermin.t :=
  flat_map (fun e => match e with
                     | ZeitEintrag.Termin t => [t]
                     | ZeitEintrag.Session _ => []
                     end) zeiteintraege.

(** [zeiteintraege.remove(termin)] for the appointment number [k], counted
    from 0, of the list: the objects define no equality, so the object
    itself goes, not an equal one in front of it. *)
Fixpoint entferne_termin (k : nat) (zeiteintraege : list ZeitEintrag.t)
    : list ZeitEintrag.t :=
  match zeiteintraege with
  | [] => []
  | ZeitEintrag.Termin t :: rest =>
      match k with
      | O => rest
      | S k' => ZeitEintrag.Termin t :: entferne_termin k' rest
      end
  | e :: rest => e :: entferne_termin k rest
  end.

(** [LernterminMenue._bestaetigen] without its output: [nr] and
    [tatsaechlich] are what the two prompts return.  The state is the
    list of the entries in memory, which the method changes in place,
    and the store. *)
Definition bestaetigen (nr tatsaechlich : option Z)
    : Py (list ZeitEintrag.t * Speicher) unit := fun zustand =>
  let '(zeiteintraege, s) := zustand in
  let termine := nur_termine zeiteintraege in
  match termine with
  | [] => (Ok tt, zustand)
  | _ :: _ =>
      match nr with
      | None => (Ok tt, zustand)
      | Some nr =>
          if negb ((1 <=? nr) && (nr <=? len termine)) then (Ok tt, zustand)
          else
            match nth_error termine (Z.to_nat (nr - 1)) with
            | None => (Raise IndexError, zustand)
            | Some termin =>
                match tatsaechlich with
                | None => (Ok tt, zustand)
                | Some tatsaechlich =>
                    match timedelta_of_minutes tatsaechlich with
                    | Raise e => (Raise e, zustand)
                    | Ok delta =>
                        match datetime.add (Lerntermin.start_zeit termin) delta with
                        | Raise e => (Raise e, zustand)
                        | Ok end_zeit =>
                            let session :=
                              Lernsession.set_tatsaechliche_dauer tatsaechlich
                                (Lernsession.init (Lerntermin.datum termin)
                                   (Lerntermin.start_zeit termin) end_zeit
                                   (Lerntermin.modul_id termin)) in
                            match ZeiteintragRepository.speichern
                                    (ZeitEintrag.Session session) s with
                            | (Raise e, s') =>
                                (Raise e,
                                 (zeiteintraege ++ [ZeitEintrag.Session session],
                                  s'))
                            | (Ok gespeichert, s') =>
                                let liste :=
                                  entferne_termin (Z.to_nat (nr - 1))
                                    (zeiteintraege ++ [gespeichert]) in
                                match Lerntermin.id termin with
                                | None => (Ok tt, (liste, s'))
                                | Some i =>
                                    if i =? 0 then (Ok tt, (liste, s'))
                                    else (Ok tt,
                                          (liste,
                                           ZeiteintragRepository.loeschen i s'))
                                end
                            end
                        end
                    end
                end
            end
      end
  end.

(* ================================================================== *)
(** * Theorems                                                         *)
(* ================================================================== *)

Lemma py_last_app {A} (l : list A) (x : A) : py_last (l ++ [x]) = Ok x.
Proof. unfold py_last. now rewrite rev_app_distr. Qed.

Lemma py_last_nil_iff {A} (l : list A) e : py_last l = Raise e -> l = [].
Proof.
  unfold py_last. destruct l as [|a l]; [reflexivity|].
  simpl. destruct (rev l ++ [a]) eqn:E; [|discriminate].
  now apply app_eq_nil in E as [_ E].
Qed.


(* ------------------------------------------------------------------ *)
(** ** Attempts and the status of a module                              *)
(* ------------------------------------------------------------------ *)

Lemma range_check_true (x : Q) :
  Qle_bool 1 x && Qle_bool x 5 = true <-> in_range x.
Proof.
  unfold in_range. rewrite andb_true_iff, !Qle_bool_iff. tauto.
Qed.

Lemma range_check_false (x : Q) :
  Qle_bool 1 x && Qle_bool x 5 = false <-> ~ in_range x.
Proof.
  rewrite <- range_check_true. destruct (Qle_bool 1 x && Qle_bool x 5);
    split; intros; congruence.
Qed.

Lemma set_note_ok (wert : Q) (a : Pruefungsleistung.t) :
  in_range wert ->
  Pruefungsleistung.set_note wert a
  = (Ok tt, Pruefungsleistung.mk wert (Pruefungsleistung.versuchs_nummer a)
              (Pruefungsleistung.id a)).
Proof.
  intros H. unfold Pruefungsleistung.set_note.
  apply range_check_true in H. now rewrite H.
Qed.

Lemma set_note_raises (wert : Q) (a : Pruefungsleistung.t) :
  ~ in_range wert ->
  Pruefungsleistung.set_note wert a
  = (Raise (ValueError "Note muss zwischen 1.0 und 5.0 liegen."), a).
Proof.
  intros H. unfold Pruefungsleistung.set_note.
  apply range_check_false in H. now rewrite H.
Qed.

Lemma init_ok (note : Q) (nr : Z) :
  in_range note ->
  Pruefungsleistung.init note nr = Ok (Pruefungsleistung.mk note nr None).
Proof.
  intros H. unfold Pruefungsleistung.init. now rewrite set_note_ok.
Qed.

Lemma init_raises (note : Q) (nr : Z) :
  ~ in_range note ->
  Pruefungsleistung.init note nr
  = Raise (ValueError "Note muss zwischen 1.0 und 5.0 liegen.").
Proof.
  intros H. unfold Pruefungsleistung.init. now rewrite set_note_raises.
Qed.

Lemma in_range_dec (x : Q) : {in_range x} + {~ in_range x}.
Proof.
  destruct (Qle_bool 1 x && Qle_bool x 5) eqn:E.
  - left. now apply range_check_true.
  - right. now apply range_check_false.
Qed.

Lemma existing_in_range (a : Pruefungsleistung.t) :
  existing a -> in_range (Pruefungsleistung.note a).
Proof.
  induction 1 as [note nr a H | wert a r a' Ha IH H | i a Ha IH].
  - destruct (in_range_dec note) as [Hr | Hr].
    + rewrite (init_ok _ _ Hr) in H. injection H as <-. exact Hr.
    + rewrite (init_raises _ _ Hr) in H. discriminate.
  - destruct (in_range_dec wert) as [Hr | Hr].
    + rewrite (set_note_ok _ _ Hr) in H. injection H as _ <-. exact Hr.
    + rewrite (set_note_raises _ _ Hr) in H. injection H as _ <-. exact IH.
  - exact IH.
Qed.

(** C5. Constructing an attempt with a score outside [1.0, 5.0] raises the
    validation error and setting such a score raises it too, leaving the
    attempt as it was; scores inside the range are accepted.  Hence the
    score of every existing attempt lies in [1.0, 5.0], and an attempt is
    passing exactly when its score is at most 4.0. *)
Theorem attempt_score_validated :
  (forall note nr, ~ in_range note ->
     Pruefungsleistung.init note nr
     = Raise (ValueError "Note muss zwischen 1.0 und 5.0 liegen."))
  /\ (forall note nr, in_range note ->
        exists a, Pruefungsleistung.init note nr = Ok a
                  /\ Pruefungsleistung.note a = note
                  /\ Pruefungsleistung.versuchs_nummer a = nr)
  /\ (forall wert a, ~ in_range wert ->
        Pruefungsleistung.set_note wert a
        = (Raise (ValueError "Note muss zwischen 1.0 und 5.0 liegen."), a))
  /\ (forall wert a, in_range wert ->
        exists a', Pruefungsleistung.set_note wert a = (Ok tt, a')
                   /\ Pruefungsleistung.note a' = wert)
  /\ (forall a, existing a -> in_range (Pruefungsleistung.note a))
  /\ (forall a, Pruefungsleistung.ist_bestanden a = true
                <-> (Pruefungsleistung.note a <= 4)%Q).
Proof.
  repeat split.
  - apply init_raises.
  - intros note nr H. eexists. rewrite (init_ok _ _ H). now repeat split.
  - apply set_note_raises.
  - intros wert a H. eexists. rewrite (set_note_ok _ _ H). now split.
  - apply existing_in_range; assumption.
  - apply existing_in_range; assumption.
  - apply Qle_bool_iff.
  - apply Qle_bool_iff.
Qed.

Lemma attempt_score_validated_witness :
  Pruefungsleistung.init (6 # 1) 1
  = Raise (ValueError "Note muss zwischen 1.0 und 5.0 liegen.")
  /\ Pruefungsleistung.set_note (1 # 2) (Pruefungsleistung.mk (4 # 1) 1 None)
     = (Raise (ValueError "Note muss zwischen 1.0 und 5.0 liegen."),
        Pruefungsleistung.mk (4 # 1) 1 None)
  /\ Pruefungsleistung.ist_bestanden (Pruefungsleistung.mk (4 # 1) 1 None)
     = true.
Proof.
  destruct attempt_score_validated as (H1 & _ & H3 & _ & _ & H6).
  split; [|split].
  - apply H1. unfold in_range. intros [_ H]. vm_compute in H. now apply H.
  - apply H3. unfold in_range. intros [H _]. vm_compute in H. now apply H.
  - apply H6. vm_compute. discriminate.
Defined.

Lemma len_ge3 {A} (l : list A) : (len l >=? 3) = (3 <=? length l)%nat.
Proof.
  unfold len. destruct (Nat.leb_spec 3 (length l)); lia.
Qed.

Lemma aktualisiere_status_rule (m : Modul.t) :
  Modul.aktualisiere_status m
  = (Ok tt, Modul.set_status (status_rule (scores_of m)) m).
Proof.
  unfold Modul.aktualisiere_status, scores_of.
  destruct (Modul.pruefungsleistungen m) as [|a l] eqn:E; [reflexivity|].
  rewrite <- E. destruct (py_last (Modul.pruefungsleistungen m)) as [x|e] eqn:L.
  - assert (S : status_rule (map Pruefungsleistung.note (Modul.pruefungsleistungen m))
                = if Pruefungsleistung.ist_bestanden x then BESTANDEN
                  else if len (Modul.pruefungsleistungen m) >=? 3
                       then NICHT_BESTANDEN else OFFEN).
    { rewrite len_ge3. unfold status_rule.
      destruct (map Pruefungsleistung.note (Modul.pruefungsleistungen m)) eqn:M.
      - rewrite E in M. discriminate.
      - rewrite <- M. rewrite length_map.
        replace (last (map Pruefungsleistung.note (Modul.pruefungsleistungen m)) 0%Q)
          with (Pruefungsleistung.note x); [reflexivity|].
        clear - L. destruct (Modul.pruefungsleistungen m) as [|b k] using rev_ind;
          [discriminate|].
        rewrite py_last_app in L. injection L as ->.
        rewrite map_app. cbn [map]. now rewrite last_last. }
    rewrite S.
    destruct (Pruefungsleistung.ist_bestanden x); [reflexivity|].
    now destruct (len (Modul.pruefungsleistungen m) >=? 3).
  - apply py_last_nil_iff in L. congruence.
Qed.

Lemma neue_pruefungsleistung_full (note : Q) (m : Modul.t) :
  (len (Modul.pruefungsleistungen m) >=? 3) = true ->
  Modul.neue_pruefungsleistung note m
  = (Raise (ValueError "Maximal 3 Versuche erlaubt."), m).
Proof.
  intros H. unfold Modul.neue_pruefungsleistung. now rewrite H.
Qed.

Lemma neue_pruefungsleistung_ok (note : Q) (m : Modul.t) :
  (len (Modul.pruefungsleistungen m) >=? 3) = false -> in_range note ->
  Modul.neue_pruefungsleistung note m
  = (Ok tt,
     Modul.mk (Modul.titel m) (Modul.ects m)
       (status_rule (scores_of m ++ [note])) (Modul.geplantes_semester m)
       (Modul.pruefungsleistungen m
          ++ [Pruefungsleistung.mk note
                (len (Modul.pruefungsleistungen m) + 1) None])
       (Modul.id m)).
Proof.
  intros H R. unfold Modul.neue_pruefungsleistung. rewrite H, (init_ok _ _ R).
  rewrite aktualisiere_status_rule. unfold scores_of. simpl.
  now rewrite map_app.
Qed.

Lemma neue_pruefungsleistung_invalid (note : Q) (m : Modul.t) :
  ~ in_range note -> exists e, Modul.neue_pruefungsleistung note m = (Raise e, m).
Proof.
  intros R. unfold Modul.neue_pruefungsleistung.
  destruct (len (Modul.pruefungsleistungen m) >=? 3); [eauto|].
  rewrite (init_raises _ _ R). eauto.
Qed.

Lemma neue_pruefungsleistung_status (note : Q) (m m' : Modul.t) :
  Modul.neue_pruefungsleistung note m = (Ok tt, m') ->
  Modul.status m' = status_rule (scores_of m').
Proof.
  intros H.
  destruct (len (Modul.pruefungsleistungen m) >=? 3) eqn:E.
  - rewrite (neue_pruefungsleistung_full _ _ E) in H. discriminate.
  - destruct (in_range_dec note) as [R | R].
    + rewrite (neue_pruefungsleistung_ok _ _ E R) in H. injection H as <-.
      unfold scores_of. simpl. now rewrite map_app.
    + destruct (neue_pruefungsleistung_invalid note m R) as [e He].
      rewrite He in H. discriminate.
Qed.

(** C1. After a status recomputation, and after every [neue_pruefungsleistung]
    that went through, the status is the pure function [status_rule] of the
    score sequence: OFFEN without attempts, BESTANDEN when the last score is
    at most 4.0, NICHT_BESTANDEN when it is not and there are three attempts
    or more, OFFEN otherwise.  On a module without attempts the scores
    5.0, 5.0, 3.0 give OFFEN, OFFEN, BESTANDEN and the scores 5.0, 5.0, 5.0
    end in NICHT_BESTANDEN. *)
Theorem status_follows_rule :
  (forall m, Modul.aktualisiere_status m
             = (Ok tt, Modul.set_status (status_rule (scores_of m)) m))
  /\ (forall note m m',
        Modul.neue_pruefungsleistung note m = (Ok tt, m') ->
        Modul.status m' = status_rule (scores_of m'))
  /\ (forall m, Modul.pruefungsleistungen m = [] ->
        fst (add_all [5 # 1; 5 # 1; 3 # 1]%Q m) = [OFFEN; OFFEN; BESTANDEN])
  /\ (forall m, Modul.pruefungsleistungen m = [] ->
        fst (add_all [5 # 1; 5 # 1; 5 # 1]%Q m)
        = [OFFEN; OFFEN; NICHT_BESTANDEN]).
Proof.
  split; [exact aktualisiere_status_rule|].
  split; [exact neue_pruefungsleistung_status|].
  split; intros [ti ec st gs pl i] H; simpl in H; subst pl; reflexivity.
Qed.

Lemma status_follows_rule_witness :
  (let m' := snd (Modul.neue_pruefungsleistung (3 # 1)
                   (Modul.init "Mathematik I" 5 OFFEN 1)) in
   Modul.status m' = status_rule (scores_of m'))
  /\ fst (add_all [5 # 1; 5 # 1; 3 # 1]%Q (Modul.init "Mathematik I" 5 OFFEN 1))
     = [OFFEN; OFFEN; BESTANDEN].
Proof.
  destruct status_follows_rule as (_ & H2 & H3 & _).
  split.
  - exact (H2 (3 # 1)%Q (Modul.init "Mathematik I" 5 OFFEN 1) _ eq_refl).
  - apply H3. reflexivity.
Defined.

(** C2. On a module that holds three attempts [neue_pruefungsleistung] raises
    "Maximal 3 Versuche erlaubt." and leaves the module, so its attempts and
    its status, as it was.  With fewer than three attempts and a score in
    range it appends exactly one attempt, numbered previous count + 1, after
    the existing ones, and recomputes the status.  Four calls in a row on a
    module without attempts: the fourth raises and three attempts remain. *)
Theorem add_attempt_capacity :
  (forall note m, length (Modul.pruefungsleistungen m) = 3%nat ->
     Modul.neue_pruefungsleistung note m
     = (Raise (ValueError "Maximal 3 Versuche erlaubt."), m))
  /\ (forall note m,
        (length (Modul.pruefungsleistungen m) < 3)%nat -> in_range note ->
        Modul.neue_pruefungsleistung note m
        = (Ok tt,
           Modul.mk (Modul.titel m) (Modul.ects m)
             (status_rule (scores_of m ++ [note])) (Modul.geplantes_semester m)
             (Modul.pruefungsleistungen m
                ++ [Pruefungsleistung.mk note
                      (Z.of_nat (length (Modul.pruefungsleistungen m)) + 1) None])
             (Modul.id m)))
  /\ (forall n1 n2 n3 n4 m,
        Modul.pruefungsleistungen m = [] ->
        in_range n1 -> in_range n2 -> in_range n3 ->
        let m3 := snd (Modul.neue_pruefungsleistung n3
                    (snd (Modul.neue_pruefungsleistung n2
                       (snd (Modul.neue_pruefungsleistung n1 m))))) in
        length (Modul.pruefungsleistungen m3) = 3%nat
        /\ Modul.neue_pruefungsleistung n4 m3
           = (Raise (ValueError "Maximal 3 Versuche erlaubt."), m3)).
Proof.
  assert (Full : forall note m, length (Modul.pruefungsleistungen m) = 3%nat ->
     Modul.neue_pruefungsleistung note m
     = (Raise (ValueError "Maximal 3 Versuche erlaubt."), m)).
  { intros note m H. apply neue_pruefungsleistung_full.
    rewrite len_ge3, H. reflexivity. }
  assert (Free : forall note m,
        (length (Modul.pruefungsleistungen m) < 3)%nat -> in_range note ->
        Modul.neue_pruefungsleistung note m
        = (Ok tt,
           Modul.mk (Modul.titel m) (Modul.ects m)
             (status_rule (scores_of m ++ [note])) (Modul.geplantes_semester m)
             (Modul.pruefungsleistungen m
                ++ [Pruefungsleistung.mk note
                      (Z.of_nat (length (Modul.pruefungsleistungen m)) + 1) None])
             (Modul.id m))).
  { intros note m H R. apply neue_pruefungsleistung_ok; [|exact R].
    rewrite len_ge3. apply Nat.leb_gt. exact H. }
  split; [exact Full|]. split; [exact Free|].
  intros n1 n2 n3 n4 m E R1 R2 R3 m3.
  assert (L : length (Modul.pruefungsleistungen m3) = 3%nat).
  { subst m3. destruct m as [ti ec st gs pl i]. simpl in E. subst pl.
    rewrite (Free n1); [|simpl; lia|assumption].
    cbn [snd]. rewrite (Free n2); [|simpl; lia|assumption].
    cbn [snd]. rewrite (Free n3); [|simpl; lia|assumption].
    reflexivity. }
  split; [exact L|]. apply Full, L.
Qed.

Lemma in_range_2 : in_range (2 # 1).
Proof. split; discriminate. Qed.

Lemma add_attempt_capacity_witness :
  let m := Modul.mk "Mathematik I" 5 NICHT_BESTANDEN 1
             [Pruefungsleistung.mk (5 # 1) 1 None;
              Pruefungsleistung.mk (5 # 1) 2 None;
              Pruefungsleistung.mk (5 # 1) 3 None] None in
  Modul.neue_pruefungsleistung (2 # 1) m
  = (Raise (ValueError "Maximal 3 Versuche erlaubt."), m)
  /\ Modul.pruefungsleistungen
       (snd (Modul.neue_pruefungsleistung (2 # 1) (Modul.init "Mathematik I" 5 OFFEN 1)))
     = [Pruefungsleistung.mk (2 # 1) 1 None].
Proof.
  destruct add_attempt_capacity as (H1 & H2 & _).
  split.
  - apply H1. reflexivity.
  - rewrite H2; [reflexivity | simpl; lia | exact in_range_2].
Defined.

(* ------------------------------------------------------------------ *)
(** ** Time entries                                                     *)
(* ------------------------------------------------------------------ *)

Lemma py_int_minutes (d : timedelta.t) :
  py_int (timedelta.total_seconds d / 60)%Q = Z.quot d 60000000.
Proof.
  unfold py_int, timedelta.total_seconds, Qdiv, Qmult, Qinv.
  cbn [Qnum Qden]. now rewrite Z.mul_1_r.
Qed.


Lemma berechne_dauer_quot (s : Lernsession.t) :
  Lernsession._berechne_dauer s
  = Z.quot (datetime.sub (Lernsession.end_zeit s) (Lernsession.start_zeit s))
      60000000.
Proof. unfold Lernsession._berechne_dauer. apply py_int_minutes. Qed.






Lemma opt_eqb_eq (a b : option Z) : opt_eqb a b = true <-> a = b.
Proof.
  destruct a as [x|], b as [y|]; simpl; try (split; congruence).
  rewrite Z.eqb_eq. split; congruence.
Qed.

Lemma aufwand_acc (m : Modul.t) (entries : list ZeitEintrag.t) (acc : Z) :
  fold_left
    (fun gesamt s =>
       if opt_eqb (ZeitEintrag.modul_id s) (Modul.id m)
       then gesamt + ZeitEintrag.dauer s else gesamt)
    entries acc
  = acc + effort_spec m entries.
Proof.
  revert acc. induction entries as [|e es IH]; intros acc.
  - unfold effort_spec. simpl. lia.
  - simpl. rewrite IH. unfold effort_spec. simpl. unfold refers_to at 2.
    destruct (opt_eqb (ZeitEintrag.modul_id e) (Modul.id m)); simpl; lia.
Qed.

Lemma berechne_aufwand_spec (m : Modul.t) (entries : list ZeitEintrag.t) :
  Modul.berechne_aufwand m entries = effort_spec m entries.
Proof. unfold Modul.berechne_aufwand. now rewrite aufwand_acc. Qed.

(** C10. [berechne_aufwand] returns the sum of [dauer()] over exactly the
    entries whose module reference equals the identity of the module, of
    whichever variant: an entry with an equal reference adds its duration, an
    entry with another reference adds nothing.  A module without identity
    counts the entries without reference, and a planned session with an
    equal reference adds its planned duration. *)
Theorem effort_sums_matching_entries :
  (forall m entries, Modul.berechne_aufwand m entries = effort_spec m entries)
  /\ (forall m e, refers_to m e = true <-> ZeitEintrag.modul_id e = Modul.id m)
  /\ (forall m e entries,
        ZeitEintrag.modul_id e = Modul.id m ->
        Modul.berechne_aufwand m (e :: entries)
        = ZeitEintrag.dauer e + Modul.berechne_aufwand m entries)
  /\ (forall m e entries,
        ZeitEintrag.modul_id e <> Modul.id m ->
        Modul.berechne_aufwand m (e :: entries)
        = Modul.berechne_aufwand m entries)
  /\ (forall m e entries,
        Modul.id m = None -> ZeitEintrag.modul_id e = None ->
        Modul.berechne_aufwand m (e :: entries)
        = ZeitEintrag.dauer e + Modul.berechne_aufwand m entries)
  /\ (forall m t entries,
        Lerntermin.modul_id t = Modul.id m ->
        Modul.berechne_aufwand m (ZeitEintrag.Termin t :: entries)
        = Lerntermin.geplante_dauer t + Modul.berechne_aufwand m entries).
Proof.
  assert (Hit : forall m e entries,
        ZeitEintrag.modul_id e = Modul.id m ->
        Modul.berechne_aufwand m (e :: entries)
        = ZeitEintrag.dauer e + Modul.berechne_aufwand m entries).
  { intros m e es H. rewrite !berechne_aufwand_spec. unfold effort_spec.
    simpl. apply opt_eqb_eq in H. unfold refers_to at 1. now rewrite H. }
  split; [exact berechne_aufwand_spec|].
  split; [intros; apply opt_eqb_eq|].
  split; [exact Hit|].
  split; [|split].
  - intros m e es H. rewrite !berechne_aufwand_spec. unfold effort_spec.
    simpl. unfold refers_to at 1.
    destruct (opt_eqb (ZeitEintrag.modul_id e) (Modul.id m)) eqn:E;
      [|reflexivity].
    apply opt_eqb_eq in E. contradiction.
  - intros m e es Hm He. apply Hit. congruence.
  - intros m t es H. apply (Hit m (ZeitEintrag.Termin t)). exact H.
Qed.

Lemma effort_sums_matching_entries_witness :
  let m := Modul.init "Mathematik I" 5 OFFEN 1 in
  let t := Lerntermin.init (at_time 2024 5 6 0 0 0) (at_time 2024 5 6 9 0 0)
             45 "Analysis" None in
  let s := Lernsession.init (at_time 2024 5 6 0 0 0) (at_time 2024 5 6 14 0 0)
             (at_time 2024 5 6 15 30 0) (Some 7) in
  Modul.berechne_aufwand m [ZeitEintrag.Termin t; ZeitEintrag.Session s]
  = 45 + Modul.berechne_aufwand m [ZeitEintrag.Session s]
  /\ Modul.berechne_aufwand m [ZeitEintrag.Session s]
     = Modul.berechne_aufwand m [].
Proof.
  destruct effort_sums_matching_entries as (_ & _ & _ & H4 & _ & H6).
  split.
  - apply (H6 (Modul.init "Mathematik I" 5 OFFEN 1)). reflexivity.
  - apply H4. discriminate.
Defined.

(* ------------------------------------------------------------------ *)
(** ** The average grade of a semester                                  *)
(* ------------------------------------------------------------------ *)




Lemma latest_score_last (m : Modul.t) :
  match Modul.pruefungsleistungen m with
  | [] => latest_score m = None
  | _ :: _ => exists a, py_last (Modul.pruefungsleistungen m) = Ok a
                        /\ latest_score m = Some (Pruefungsleistung.note a)
  end.
Proof.
  unfold latest_score, py_last.
  destruct (Modul.pruefungsleistungen m) as [|a l] eqn:E; [reflexivity|].
  destruct (rev (a :: l)) as [|b k] eqn:R.
  - apply (f_equal (@length _)) in R. rewrite length_rev in R. discriminate.
  - eauto.
Qed.

Lemma sammle_noten_spec (sem : Semester.t) (module : list Modul.t) :
  forall noten,
    Semester.sammle_noten sem module noten
    = Ok (noten ++ latest_scores (selected sem module)).
Proof.
  induction module as [|m ms IH]; intros noten; simpl.
  - now rewrite app_nil_r.
  - destruct ((Modul.geplantes_semester m =? Semester.nummer sem)
              && Modul.ist_bestanden m); [|apply IH].
    pose proof (latest_score_last m) as L.
    destruct (Modul.pruefungsleistungen m) as [|a l].
    + simpl. rewrite L. apply IH.
    + destruct L as (b & -> & L). rewrite IH. simpl. rewrite L.
      now rewrite <- app_assoc.
Qed.

Lemma len_cons_nonzero {A} (a : A) (l : list A) :
  Qeq_bool (inject_Z (len (a :: l))) 0 = false.
Proof.
  apply not_true_is_false. intros H. apply Qeq_bool_iff in H.
  unfold len, Qeq in H. simpl in H. lia.
Qed.

Lemma berechne_notendurchschnitt_spec (sem : Semester.t) (module : list Modul.t) :
  Semester.berechne_notendurchschnitt sem module
  = Ok (average_grade_spec sem module).
Proof.
  unfold Semester.berechne_notendurchschnitt, average_grade_spec.
  rewrite sammle_noten_spec. cbn [app].
  destruct (latest_scores (selected sem module)) as [|q l]; [reflexivity|].
  unfold py_truediv. now rewrite len_cons_nonzero.
Qed.



(* ------------------------------------------------------------------ *)
(** ** Persistence: row ids                                             *)
(* ------------------------------------------------------------------ *)

Lemma max_id_ge (ids : list Z) : forall i, In i ids -> i <= max_id ids.
Proof.
  induction ids as [|j ids IH]; intros i H; [destruct H|].
  simpl. destruct H as [-> | H]; [lia|]. specialize (IH i H). lia.
Qed.


Lemma next_id_fresh (ids : list Z) (seq i : Z) :
  In i ids -> i < next_id ids seq.
Proof. intros H. apply max_id_ge in H. unfold next_id. lia. Qed.







Lemma len_nonneg {A} (l : list A) : 0 <= len l.
Proof. unfold len. lia. Qed.

Lemma len_cons {A} (a : A) (l : list A) : len (a :: l) = 1 + len l.
Proof. unfold len. simpl length. lia. Qed.


(* ------------------------------------------------------------------ *)
(** ** Saving the attempts of a module                                  *)
(* ------------------------------------------------------------------ *)





















(* ------------------------------------------------------------------ *)
(** ** Saving a program without identities                              *)
(* ------------------------------------------------------------------ *)




(* ------------------------------------------------------------------ *)
(** ** [ORDER BY]                                                       *)
(* ------------------------------------------------------------------ *)



Lemma insert_by_in {A} (key : A -> Z) (x y : A) (l : list A) :
  In y (insert_by key x l) <-> y = x \/ In y l.
Proof.
  induction l as [|z l IH]; simpl; [intuition congruence|].
  destruct (key x <=? key z); simpl; [intuition congruence|].
  rewrite IH. intuition congruence.
Qed.

Lemma order_by_in {A} (key : A -> Z) (y : A) (l : list A) :
  In y (order_by key l) <-> In y l.
Proof.
  induction l as [|x l IH]; simpl; [tauto|].
  rewrite insert_by_in, IH. intuition congruence.
Qed.


Lemma insert_by_sorted {A} (key : A -> Z) (x : A) (l : list A) :
  aufsteigend key l -> aufsteigend key (insert_by key x l).
Proof.
  induction l as [|y l IH]; intros H; simpl; [now repeat constructor|].
  destruct H as [Hy Hl].
  destruct (Z.leb_spec (key x) (key y)) as [L | L]; simpl.
  - split; [|now split]. constructor; [exact L|].
    eapply Forall_impl; [|exact Hy]. simpl. intros; lia.
  - split; [|now apply IH].
    apply Forall_forall. intros z Hz. apply insert_by_in in Hz as [-> | Hz];
      [lia|]. rewrite Forall_forall in Hy. now apply Hy.
Qed.

Lemma order_by_sorted {A} (key : A -> Z) (l : list A) :
  aufsteigend key (order_by key l).
Proof.
  induction l as [|x l IH]; simpl; [exact I|]. now apply insert_by_sorted.
Qed.




(* ------------------------------------------------------------------ *)
(** ** Loading what a save wrote                                        *)
(* ------------------------------------------------------------------ *)

Lemma Status_round_trip (s : Status) : Status_of_value (Status_value s) = Ok s.
Proof. now destruct s. Qed.


Lemma filter_all {A} (p : A -> bool) (l : list A) :
  (forall x, In x l -> p x = true) -> filter p l = l.
Proof.
  induction l as [|x l IH]; intros H; [reflexivity|].
  simpl. rewrite (H x (or_introl eq_refl)). f_equal. apply IH.
  intros; apply H; now right.
Qed.
























Lemma in_range_5 : in_range (5 # 1).
Proof. split; discriminate. Qed.

Lemma in_range_23 : in_range (23 # 10).
Proof. split; discriminate. Qed.


(* ------------------------------------------------------------------ *)
(** ** Semester generation                                              *)
(* ------------------------------------------------------------------ *)

Lemma valid_inv (d : datetime.t) :
  datetime.valid d = true ->
  (1 <= datetime.year d <= 9999) /\ (1 <= datetime.month d <= 12)
  /\ (1 <= datetime.day d <= datetime._days_in_month (datetime.year d) (datetime.month d))
  /\ (0 <= datetime.time_us d < 86400000000)
  /\ (0 <= datetime.hour d <= 23) /\ (0 <= datetime.minute d <= 59)
  /\ (0 <= datetime.second d <= 59) /\ (0 <= datetime.microsecond d <= 999999).
Proof.
  unfold datetime.valid, datetime._check_date_fields, datetime._check_time_fields,
    datetime.MINYEAR, datetime.MAXYEAR, datetime.time_us.
  intros H.
  destruct ((1 <=? datetime.year d) && (datetime.year d <=? 9999)) eqn:E1;
    [|discriminate].
  destruct ((1 <=? datetime.month d) && (datetime.month d <=? 12)) eqn:E2;
    [|discriminate].
  destruct ((1 <=? datetime.day d)
            && (datetime.day d <=? datetime._days_in_month (datetime.year d)
                                     (datetime.month d))) eqn:E3;
    [|discriminate].
  cbn [negb] in H.
  repeat rewrite andb_true_iff in *. repeat rewrite Z.leb_le in *. lia.
Qed.

Lemma jahresueberlauf_once (m y : Z) :
  1 <= m <= 12 ->
  Studiengang.jahresueberlauf (Z.to_nat (m + 6)) (m + 6) y
  = if m + 6 >? 12 then (m - 6, y + 1) else (m + 6, y).
Proof.
  intros H.
  destruct (Z.to_nat (m + 6)) as [|[|k]] eqn:E; try lia.
  cbn [Studiengang.jahresueberlauf].
  destruct (Z.gtb_spec (m + 6) 12); [|reflexivity].
  replace (m + 6 - 12) with (m - 6) by lia.
  destruct (Z.gtb_spec (m - 6) 12); [lia | reflexivity].
Qed.

Lemma month_cases (m : Z) :
  1 <= m <= 12 ->
  m = 1 \/ m = 2 \/ m = 3 \/ m = 4 \/ m = 5 \/ m = 6 \/ m = 7 \/ m = 8
  \/ m = 9 \/ m = 10 \/ m = 11 \/ m = 12.
Proof. lia. Qed.

Ltac eval_table :=
  match goal with
  | |- context [nth ?i ?l 0] =>
      let v := eval vm_compute in (nth i l 0) in
      change (nth i l 0) with v
  end.

Lemma days_in_month_ge_28 (y m : Z) :
  1 <= m <= 12 -> 28 <= datetime._days_in_month y m.
Proof.
  intros H. unfold datetime._days_in_month.
  destruct (datetime._is_leap y);
    destruct (month_cases m H) as [-> | [-> | [-> | [-> | [-> | [-> | [-> | [-> |
             [-> | [-> | [-> | ->]]]]]]]]]]];
    cbn [Z.eqb Z.gtb Z.compare Pos.compare Pos.compare_cont Pos.eqb andb];
    try eval_table; lia.
Qed.

Lemma days_before_month_bounds (y m : Z) :
  1 <= m <= 12 ->
  0 <= datetime._days_before_month y m <= 335
  /\ (7 <= m -> 181 <= datetime._days_before_month y m).
Proof.
  intros H. unfold datetime._days_before_month.
  destruct (datetime._is_leap y);
    destruct (month_cases m H) as [-> | [-> | [-> | [-> | [-> | [-> | [-> | [-> |
             [-> | [-> | [-> | ->]]]]]]]]]]];
    cbn [Z.eqb Z.gtb Z.compare Pos.compare Pos.compare_cont Pos.eqb andb];
    try eval_table; lia.
Qed.

Lemma days_in_month_le_31 (y m : Z) :
  1 <= m <= 12 -> datetime._days_in_month y m <= 31.
Proof.
  intros H. unfold datetime._days_in_month.
  destruct (datetime._is_leap y);
    destruct (month_cases m H) as [-> | [-> | [-> | [-> | [-> | [-> | [-> | [-> |
             [-> | [-> | [-> | ->]]]]]]]]]]];
    cbn [Z.eqb Z.gtb Z.compare Pos.compare Pos.compare_cont Pos.eqb andb];
    try eval_table; lia.
Qed.

Lemma days_before_year_bounds (y : Z) :
  1 <= y <= 9999 ->
  0 <= datetime._days_before_year y <= 3651694
  /\ (2 <= y -> 365 <= datetime._days_before_year y).
Proof.
  intros H. unfold datetime._days_before_year. cbv zeta.
  pose proof (Z.div_mod (y - 1) 4). pose proof (Z.mod_pos_bound (y - 1) 4).
  pose proof (Z.div_mod (y - 1) 100). pose proof (Z.mod_pos_bound (y - 1) 100).
  pose proof (Z.div_mod (y - 1) 400). pose proof (Z.mod_pos_bound (y - 1) 400).
  lia.
Qed.

Lemma div_mod_unique (a d q r : Z) :
  0 <= r < d -> a = q * d + r -> a / d = q /\ a mod d = r.
Proof.
  intros Hr ->. split.
  - symmetry. apply (Z.div_unique _ d q r); lia.
  - symmetry. apply (Z.mod_unique _ d q r); lia.
Qed.

Lemma sub_one_day (d : datetime.t) :
  datetime.valid d = true ->
  2 <= datetime.toordinal d ->
  datetime.sub_timedelta d (timedelta.of_days 1) = Ok (tag_davor d).
Proof.
  intros V Hord.
  destruct (valid_inv d V) as (Hy & Hm & Hd & Ht & Hh & Hmi & Hs & Hus).
  assert (Hmax : datetime.toordinal d <= 3652060).
  { unfold datetime.toordinal, datetime._ymd2ord.
    pose proof (days_before_year_bounds _ Hy) as [B1 _].
    pose proof (days_before_month_bounds (datetime.year d) _ Hm) as [B2 _].
    pose proof (days_in_month_le_31 (datetime.year d) _ Hm). lia. }
  unfold datetime.sub_timedelta, datetime.add, timedelta.of_days, tag_davor.
  cbv zeta.
  set (ord := datetime.toordinal d) in *.
  set (t := datetime.time_us d) in *.
  destruct (div_mod_unique (ord * 86400000000 + t + - (1 * 86400000000))
              86400000000 (ord - 1) t Ht ltac:(lia)) as [-> ->].
  unfold datetime._MAXORDINAL.
  destruct (Z.ltb_spec 0 (ord - 1)); [|lia].
  destruct (Z.leb_spec (ord - 1) 3652059); [|lia].
  cbn [andb].
  destruct (datetime._ord2ymd (ord - 1)) as [[y m] dd].
  set (secs := datetime.hour d * 3600 + datetime.minute d * 60 + datetime.second d).
  assert (Et : t = secs * 1000000 + datetime.microsecond d) by reflexivity.
  destruct (div_mod_unique t 1000000 secs (datetime.microsecond d)
              ltac:(lia) Et) as [-> ->].
  destruct (div_mod_unique secs 3600 (datetime.hour d)
              (datetime.minute d * 60 + datetime.second d)
              ltac:(lia) ltac:(unfold secs; lia)) as [-> ->].
  destruct (div_mod_unique (datetime.minute d * 60 + datetime.second d) 60
              (datetime.minute d) (datetime.second d)
              ltac:(lia) ltac:(lia)) as [-> ->].
  reflexivity.
Qed.

Lemma sechs_monate_spaeter_ok (d : datetime.t) :
  datetime.valid d = true -> datetime.day d <= 28 -> datetime.year d < 9999 ->
  let n := sechs_monate_spaeter d in
  datetime.replace_year_month d
    (snd (Studiengang.jahresueberlauf (Z.to_nat (datetime.month d + 6))
            (datetime.month d + 6) (datetime.year d)))
    (fst (Studiengang.jahresueberlauf (Z.to_nat (datetime.month d + 6))
            (datetime.month d + 6) (datetime.year d)))
  = Ok n
  /\ datetime.valid n = true /\ datetime.day n <= 28
  /\ datetime.year n <= datetime.year d + 1
  /\ 2 <= datetime.toordinal n.
Proof.
  intros V H28 Hy9 n.
  destruct (valid_inv d V) as (Hy & Hm & Hd & Ht & Hh & Hmi & Hs & Hus).
  rewrite (jahresueberlauf_once _ (datetime.year d) Hm).
  assert (Hn : (1 <= datetime.year n <= 9999) /\ (1 <= datetime.month n <= 12)
               /\ datetime.day n = datetime.day d
               /\ datetime.year n <= datetime.year d + 1
               /\ (2 <= datetime.year n \/ 7 <= datetime.month n)
               /\ datetime.hour n = datetime.hour d
               /\ datetime.minute n = datetime.minute d
               /\ datetime.second n = datetime.second d
               /\ datetime.microsecond n = datetime.microsecond d).
  { unfold n, sechs_monate_spaeter.
    destruct (Z.gtb_spec (datetime.month d + 6) 12); cbn; lia. }
  destruct Hn as (Ny & Nm & Nd & Ny1 & Nlate & Nh & Nmi & Ns & Nus).
  pose proof (days_in_month_ge_28 (datetime.year n) _ Nm) as D28.
  assert (C : datetime._check_date_fields (datetime.year n) (datetime.month n)
                (datetime.day d) = Ok tt).
  { unfold datetime._check_date_fields, datetime.MINYEAR, datetime.MAXYEAR.
    destruct (Z.leb_spec 1 (datetime.year n)); [|lia].
    destruct (Z.leb_spec (datetime.year n) 9999); [|lia].
    destruct (Z.leb_spec 1 (datetime.month n)); [|lia].
    destruct (Z.leb_spec (datetime.month n) 12); [|lia].
    destruct (Z.leb_spec 1 (datetime.day d)); [|lia].
    destruct (Z.leb_spec (datetime.day d)
                (datetime._days_in_month (datetime.year n) (datetime.month n)));
      [reflexivity | lia]. }
  split; [|split; [|split; [|split]]].
  - unfold datetime.replace_year_month.
    replace (snd (if datetime.month d + 6 >? 12
                  then (datetime.month d - 6, datetime.year d + 1)
                  else (datetime.month d + 6, datetime.year d)))
      with (datetime.year n)
      by (unfold n, sechs_monate_spaeter;
          now destruct (datetime.month d + 6 >? 12)).
    replace (fst (if datetime.month d + 6 >? 12
                  then (datetime.month d - 6, datetime.year d + 1)
                  else (datetime.month d + 6, datetime.year d)))
      with (datetime.month n)
      by (unfold n, sechs_monate_spaeter;
          now destruct (datetime.month d + 6 >? 12)).
    rewrite C. f_equal. unfold n, sechs_monate_spaeter.
    now destruct (datetime.month d + 6 >? 12).
  - unfold datetime.valid. rewrite Nd, C.
    unfold datetime._check_time_fields. rewrite Nh, Nmi, Ns, Nus.
    repeat (apply andb_true_iff; split); apply Z.leb_le; lia.
  - lia.
  - exact Ny1.
  - unfold datetime.toordinal, datetime._ymd2ord.
    pose proof (days_before_year_bounds _ Ny) as [B1 B2].
    pose proof (days_before_month_bounds (datetime.year n) _ Nm) as [B3 B4].
    lia.
Qed.

Lemma semester_schleife_spec (indices : list Z) :
  forall cursor self,
    datetime.valid cursor = true -> datetime.day cursor <= 28 ->
    datetime.year cursor + len indices <= 9999 ->
    Studiengang.semester_schleife indices cursor self
    = (Ok tt,
       Studiengang.set_semester_liste
         (Studiengang.semester_liste self ++ semester_folge indices cursor)
         self).
Proof.
  induction indices as [|i rest IH]; intros cursor self V H28 Hy.
  - simpl. rewrite app_nil_r. now destruct self.
  - rewrite len_cons in Hy. pose proof (len_nonneg rest).
    destruct (sechs_monate_spaeter_ok cursor V H28 ltac:(lia))
      as (R & Vn & Dn & Yn & On).
    cbn [Studiengang.semester_schleife semester_folge].
    destruct (Studiengang.jahresueberlauf _ _ _) as [monat jahr].
    cbn [fst snd] in R. rewrite R.
    rewrite (sub_one_day _ Vn On).
    rewrite IH by (try assumption; lia).
    cbn. now rewrite <- app_assoc.
Qed.

Lemma semester_folge_nummern (indices : list Z) :
  forall cursor, map Semester.nummer (semester_folge indices cursor) = indices.
Proof.
  induction indices as [|i rest IH]; intros cursor; [reflexivity|].
  simpl. now rewrite IH.
Qed.

(** Away from the ends of months and of the calendar the generation does
    what the specification says: for a start on day 1 to 28 it replaces the
    semester list by [regelstudienzeit] semesters numbered 1, 2, ..., each
    starting at the cursor and ending on the day before the cursor six
    calendar months later. *)
Lemma generiere_semester_spec (start_datum : datetime.t) (sg : Studiengang.t) :
  datetime.valid start_datum = true -> datetime.day start_datum <= 28 ->
  datetime.year start_datum + Z.max 0 (Studiengang.regelstudienzeit sg) <= 9999 ->
  let folge := semester_folge (Studiengang.range1 (Studiengang.regelstudienzeit sg))
                 start_datum in
  Studiengang.generiere_semester start_datum sg
  = (Ok tt, Studiengang.set_semester_liste folge sg)
  /\ len folge = Z.max 0 (Studiengang.regelstudienzeit sg)
  /\ map Semester.nummer folge
     = Studiengang.range1 (Studiengang.regelstudienzeit sg).
Proof.
  intros V H28 Hy folge.
  assert (L : len (Studiengang.range1 (Studiengang.regelstudienzeit sg))
              = Z.max 0 (Studiengang.regelstudienzeit sg)).
  { unfold len, Studiengang.range1. rewrite length_map, length_seq. lia. }
  split; [|split].
  - unfold Studiengang.generiere_semester.
    rewrite semester_schleife_spec; try assumption; [reflexivity | lia].
  - rewrite <- L. unfold len, folge.
    rewrite <- (length_map Semester.nummer), semester_folge_nummern.
    reflexivity.
  - apply semester_folge_nummern.
Qed.

(** C6, the concrete case of the specification: from 2024-10-01 with six
    semesters, semester 1 spans 2024-10-01 to 2025-03-31 and semester 2
    starts on 2025-04-01. *)
Lemma generiere_semester_example :
  map (fun s => (Semester.nummer s, Semester.start_datum s, Semester.end_datum s))
    (firstn 2 (Studiengang.semester_liste
                 (snd (Studiengang.generiere_semester (at_time 2024 10 1 0 0 0)
                         (Studiengang.init "Informatik" 6 (2 # 1))))))
  = [(1, at_time 2024 10 1 0 0 0, at_time 2025 3 31 0 0 0);
     (2, at_time 2025 4 1 0 0 0, at_time 2025 9 30 0 0 0)].
Proof. reflexivity. Qed.

(** C6. The claim asks for [regelstudienzeit] semesters from every start
    date; the code raises whenever the month six calendar months after the
    start has no day with the number of the start day: [replace] keeps the
    day, raises "day is out of range for month" in the first iteration, and
    the program is left with an empty semester list in place of the one it
    held.  A start on 2024-08-31 is such a date, the 31st of February 2025
    does not exist. *)
Theorem generate_semesters_fails_at_month_end :
  forall sg start_datum,
    datetime.valid start_datum = true ->
    0 < Studiengang.regelstudienzeit sg ->
    datetime.year (sechs_monate_spaeter start_datum) <= 9999 ->
    datetime._days_in_month (datetime.year (sechs_monate_spaeter start_datum))
      (datetime.month (sechs_monate_spaeter start_datum))
    < datetime.day start_datum ->
    Studiengang.generiere_semester start_datum sg
    = (Raise (ValueError "day is out of range for month"),
       Studiengang.set_semester_liste [] sg).
Proof.
  intros sg d V L Hy Hd.
  destruct (valid_inv d V) as (Vy & Vm & _).
  unfold Studiengang.generiere_semester, Studiengang.range1.
  destruct (Z.to_nat (Studiengang.regelstudienzeit sg)) as [|k] eqn:E; [lia|].
  cbn [seq map Studiengang.semester_schleife].
  rewrite (jahresueberlauf_once _ (datetime.year d) Vm).
  unfold sechs_monate_spaeter in Hy, Hd.
  unfold datetime.replace_year_month, datetime._check_date_fields,
    datetime.MINYEAR, datetime.MAXYEAR.
  destruct (Z.gtb_spec (datetime.month d + 6) 12) as [G | G];
    cbn [datetime.year datetime.month] in Hy, Hd.
  - destruct (Z.leb_spec 1 (datetime.year d + 1)); [|lia].
    destruct (Z.leb_spec (datetime.year d + 1) 9999); [|lia].
    destruct (Z.leb_spec 1 (datetime.month d - 6)); [|lia].
    destruct (Z.leb_spec (datetime.month d - 6) 12); [|lia].
    cbn [andb negb].
    destruct (Z.leb_spec (datetime.day d)
                (datetime._days_in_month (datetime.year d + 1)
                   (datetime.month d - 6))); [lia|].
    now rewrite andb_false_r.
  - destruct (Z.leb_spec 1 (datetime.year d)); [|lia].
    destruct (Z.leb_spec (datetime.year d) 9999); [|lia].
    destruct (Z.leb_spec 1 (datetime.month d + 6)); [|lia].
    destruct (Z.leb_spec (datetime.month d + 6) 12); [|lia].
    cbn [andb negb].
    destruct (Z.leb_spec (datetime.day d)
                (datetime._days_in_month (datetime.year d)
                   (datetime.month d + 6))); [lia|].
    now rewrite andb_false_r.
Qed.

Lemma generate_semesters_fails_at_month_end_witness :
  let alt := [Semester.init 1 (at_time 2024 4 1 0 0 0) (at_time 2024 9 30 0 0 0)] in
  Studiengang.generiere_semester (at_time 2024 8 31 0 0 0)
    (Studiengang.mk "Informatik" 6 (2 # 1) alt [] None)
  = (Raise (ValueError "day is out of range for month"),
     Studiengang.mk "Informatik" 6 (2 # 1) [] [] None).
Proof.
  intros alt.
  apply (generate_semesters_fails_at_month_end
           (Studiengang.mk "Informatik" 6 (2 # 1) alt [] None)
           (at_time 2024 8 31 0 0 0)).
  - reflexivity.
  - simpl. lia.
  - vm_compute. discriminate.
  - vm_compute. reflexivity.
Defined.

(* ================================================================== *)
(** * Further properties of the model classes                          *)
(* ================================================================== *)

Lemma alle_bestanden_forall (module : list Modul.t) :
  alle_bestanden module = true
  <-> Forall (fun m => Modul.status m = BESTANDEN) module.
Proof.
  induction module as [|m ms IH]; simpl.
  - split; [constructor | reflexivity].
  - unfold Modul.ist_bestanden.
    destruct (Modul.status m) eqn:E; simpl; split; intros H;
      try discriminate; try (inversion H; subst; congruence).
    + constructor; [exact E | now apply IH].
    + inversion H; subst. now apply IH.
Qed.

Lemma fortschritt_acc (module : list Modul.t) (acc : Z) :
  fold_left
    (fun summe modul =>
       if Modul.ist_bestanden modul then summe + Modul.ects modul else summe)
    module acc
  = acc + ects_summe (filter Modul.ist_bestanden module).
Proof.
  revert acc. induction module as [|m ms IH]; intros acc.
  - unfold ects_summe. simpl. lia.
  - simpl. rewrite IH. destruct (Modul.ist_bestanden m); unfold ects_summe;
      simpl; lia.
Qed.

Lemma ects_summe_filter_bounds (p : Modul.t -> bool) (module : list Modul.t) :
  Forall (fun m => 0 <= Modul.ects m) module ->
  0 <= ects_summe (filter p module) <= ects_summe module.
Proof.
  induction 1 as [|m ms Hm Hms IH]; unfold ects_summe in *; simpl; [lia|].
  destruct (p m); simpl; lia.
Qed.

(** X1. A program is complete exactly when it has at least one module and
    every module is passed; the progress is the sum of the credit points of
    the passed modules, so it is the sum over all modules for a complete
    program, and it lies between 0 and that sum when no module has negative
    credit points. *)
Theorem progress_and_completion :
  (forall sg, Studiengang_ist_abgeschlossen sg = true
              <-> Studiengang.module sg <> []
                  /\ Forall (fun m => Modul.status m = BESTANDEN)
                       (Studiengang.module sg))
  /\ (forall sg, Studiengang_berechne_gesamt_fortschritt sg
                 = ects_summe (filter Modul.ist_bestanden (Studiengang.module sg)))
  /\ (forall sg, Studiengang_ist_abgeschlossen sg = true ->
                 Studiengang_berechne_gesamt_fortschritt sg
                 = ects_summe (Studiengang.module sg))
  /\ (forall sg, Forall (fun m => 0 <= Modul.ects m) (Studiengang.module sg) ->
                 0 <= Studiengang_berechne_gesamt_fortschritt sg
                   <= ects_summe (Studiengang.module sg)).
Proof.
  assert (A : forall sg, Studiengang_ist_abgeschlossen sg = true
              <-> Studiengang.module sg <> []
                  /\ Forall (fun m => Modul.status m = BESTANDEN)
                       (Studiengang.module sg)).
  { intros sg. unfold Studiengang_ist_abgeschlossen.
    destruct (Studiengang.module sg) as [|m ms] eqn:E.
    - split; [discriminate | intros [H _]; now elim H].
    - rewrite alle_bestanden_forall. split; [intros H; split; [discriminate | exact H]
                                            | now intros [_ H]]. }
  assert (B : forall sg, Studiengang_berechne_gesamt_fortschritt sg
                 = ects_summe (filter Modul.ist_bestanden (Studiengang.module sg))).
  { intros sg. unfold Studiengang_berechne_gesamt_fortschritt.
    now rewrite fortschritt_acc. }
  split; [exact A|]. split; [exact B|]. split.
  - intros sg H. rewrite B. apply A in H as [_ H]. f_equal.
    apply filter_all. intros m Hm. rewrite Forall_forall in H.
    unfold Modul.ist_bestanden. now rewrite (H m Hm).
  - intros sg H. rewrite B. now apply ects_summe_filter_bounds.
Qed.

Lemma progress_and_completion_witness :
  let sg := Studiengang.mk "Informatik" 6 (2 # 1) []
              [Modul.mk "Mathematik I" 5 BESTANDEN 1
                 [Pruefungsleistung.mk (2 # 1) 1 None] None;
               Modul.mk "Physik" 10 BESTANDEN 1
                 [Pruefungsleistung.mk (3 # 1) 1 None] None] None in
  Studiengang_berechne_gesamt_fortschritt sg = 15
  /\ 0 <= Studiengang_berechne_gesamt_fortschritt sg <= 15.
Proof.
  intros sg. destruct progress_and_completion as (_ & _ & H3 & H4).
  split.
  - apply (H3 sg). reflexivity.
  - apply (H4 sg). repeat constructor; simpl; lia.
Defined.




Lemma py_sum_acc_bounds (l : list Q) :
  Forall in_range l ->
  forall acc,
    (acc + inject_Z (len l) <= fold_left Qplus l acc
     /\ fold_left Qplus l acc <= acc + 5 * inject_Z (len l))%Q.
Proof.
  induction 1 as [|x l [Hx1 Hx5] Hl IH]; intros acc.
  - simpl. change (inject_Z (len [])) with 0%Q. split; lra.
  - simpl. destruct (IH (acc + x)%Q) as [L U].
    rewrite len_cons, inject_Z_plus. change (inject_Z 1) with 1%Q.
    split; lra.
Qed.

Lemma round_half_even_between (a b : Z) (y : Q) :
  (inject_Z a <= y)%Q -> (y <= inject_Z b)%Q ->
  a <= round_half_even y <= b.
Proof.
  intros Ha Hb. unfold round_half_even.
  pose proof (Qfloor_le y) as Hl.
  assert (Fa : a <= Qfloor y).
  { rewrite <- (Qfloor_Z a). now apply Qfloor_resp_le. }
  assert (Fb : Qfloor y <= b).
  { rewrite <- (Qfloor_Z b). now apply Qfloor_resp_le. }
  set (f := Qfloor y) in *.
  assert (Step : (1 # 2 <= y - inject_Z f)%Q -> f + 1 <= b).
  { intros Hr. destruct (Z.eq_dec f b) as [E | E]; [|lia].
    rewrite E in Hr. lra. }
  destruct (Qcompare_spec (y - inject_Z f) (1 # 2)) as [E | E | E].
  - destruct (Z.even f); [lia|]. split; [lia|]. apply Step. rewrite E. lra.
  - lia.
  - split; [lia|]. apply Step. lra.
Qed.

Lemma py_round2_in_range (x : Q) : in_range x -> in_range (py_round2 x).
Proof.
  intros [H1 H5]. unfold py_round2.
  destruct (round_half_even_between 100 500 (x * 100)) as [L U].
  - change (inject_Z 100) with 100%Q. lra.
  - change (inject_Z 500) with 500%Q. lra.
  - split; unfold Qle; simpl; lia.
Qed.

Lemma durchschnitt_von_in_range (noten : list Q) :
  Forall in_range noten -> noten <> [] -> in_range (durchschnitt_von noten).
Proof.
  intros H Hne. destruct noten as [|q l]; [now elim Hne|].
  unfold durchschnitt_von. apply py_round2_in_range.
  destruct (py_sum_acc_bounds (q :: l) H 0%Q) as [L U].
  fold (py_sum (q :: l)) in L, U.
  set (n := inject_Z (len (q :: l))) in *.
  assert (Hn : (0 < n)%Q).
  { unfold n. rewrite len_cons. pose proof (len_nonneg l).
    rewrite <- (Zlt_Qlt 0). lia. }
  split.
  - apply Qle_shift_div_l; [exact Hn | lra].
  - apply Qle_shift_div_r; [exact Hn | lra].
Qed.

Lemma latest_scores_in_range (module : list Modul.t) :
  Forall (fun m => Forall (fun pl => in_range (Pruefungsleistung.note pl))
                     (Modul.pruefungsleistungen m)) module ->
  Forall in_range (latest_scores module).
Proof.
  induction 1 as [|m ms Hm Hms IH]; [constructor|].
  unfold latest_scores in *. simpl. apply Forall_app. split; [|exact IH].
  unfold latest_score. destruct (rev (Modul.pruefungsleistungen m)) as [|a k] eqn:R;
    constructor; [|constructor].
  rewrite Forall_forall in Hm. apply Hm. apply in_rev. rewrite R. now left.
Qed.

Lemma Forall_filter {A} (P : A -> Prop) (p : A -> bool) (l : list A) :
  Forall P l -> Forall P (filter p l).
Proof.
  induction 1 as [|x l Hx Hl IH]; simpl; [constructor|].
  destruct (p x); [now constructor | exact IH].
Qed.



(** X3. The average of a semester is the sentinel 0.0 or, when the scores
    of the attempts are in [1.0, 5.0], a value in [1.0, 5.0]; it is the
    sentinel exactly when no module planned for the semester and passed
    holds an attempt. *)
Theorem semester_average_range :
  forall sem module,
    Forall (fun m => Forall (fun pl => in_range (Pruefungsleistung.note pl))
                       (Modul.pruefungsleistungen m)) module ->
    exists r,
      Semester.berechne_notendurchschnitt sem module = Ok r
      /\ ((r = 0%Q /\ latest_scores (selected sem module) = [])
          \/ (in_range r /\ latest_scores (selected sem module) <> [])).
Proof.
  intros sem module H. eexists.
  split; [apply berechne_notendurchschnitt_spec|].
  unfold average_grade_spec.
  destruct (latest_scores (selected sem module)) as [|q l] eqn:E;
    [left; now split|].
  right. split; [|discriminate].
  apply (durchschnitt_von_in_range (q :: l)); [|discriminate].
  rewrite <- E. apply latest_scores_in_range. now apply Forall_filter.
Qed.

Lemma semester_average_range_witness :
  let sem := Semester.init 1 (at_time 2024 10 1 0 0 0) (at_time 2025 3 31 0 0 0) in
  let module := [Modul.mk "Mathematik I" 5 BESTANDEN 1
                   [Pruefungsleistung.mk (23 # 10) 1 None] None] in
  exists r,
    Semester.berechne_notendurchschnitt sem module = Ok r
    /\ ((r = 0%Q /\ latest_scores (selected sem module) = [])
        \/ (in_range r /\ latest_scores (selected sem module) <> [])).
Proof.
  intros sem module. apply (semester_average_range sem module).
  repeat constructor; simpl; apply in_range_23.
Defined.

Lemma status_rule_snoc (l : list Q) (x : Q) :
  status_rule (l ++ [x])
  = if Qle_bool x 4 then BESTANDEN
    else if (2 <=? length l)%nat then NICHT_BESTANDEN else OFFEN.
Proof.
  unfold status_rule. destruct (l ++ [x]) as [|y k] eqn:E.
  - now destruct l.
  - rewrite <- E, last_last, length_app. simpl length.
    destruct (Qle_bool x 4); [reflexivity|].
    destruct (Nat.leb_spec 3 (length l + 1)), (Nat.leb_spec 2 (length l));
      try reflexivity; lia.
Qed.

Lemma status_rule_failed (l : list Q) :
  status_rule l = NICHT_BESTANDEN -> (3 <= length l)%nat.
Proof.
  unfold status_rule. destruct l as [|x l]; [discriminate|].
  destruct (Qle_bool _ 4); [discriminate|].
  destruct (Nat.leb_spec 3 (length (x :: l))); [auto | discriminate].
Qed.

Lemma neue_pruefungsleistung_cases (note : Q) (m : Modul.t) :
  (exists e, Modul.neue_pruefungsleistung note m = (Raise e, m))
  \/ ((length (Modul.pruefungsleistungen m) < 3)%nat /\ in_range note
      /\ Modul.neue_pruefungsleistung note m
         = (Ok tt,
            Modul.mk (Modul.titel m) (Modul.ects m)
              (status_rule (scores_of m ++ [note])) (Modul.geplantes_semester m)
              (Modul.pruefungsleistungen m
                 ++ [Pruefungsleistung.mk note
                       (len (Modul.pruefungsleistungen m) + 1) None])
              (Modul.id m))).
Proof.
  destruct (len (Modul.pruefungsleistungen m) >=? 3) eqn:E.
  - left. eexists. now apply neue_pruefungsleistung_full.
  - destruct (in_range_dec note) as [R | R].
    + right. split; [|split; [exact R | now apply neue_pruefungsleistung_ok]].
      rewrite len_ge3 in E. now apply Nat.leb_gt.
    + left. now apply neue_pruefungsleistung_invalid.
Qed.

Lemma aufgebaut_step (note : Q) (m : Modul.t) :
  aufgebaut m -> aufgebaut (snd (Modul.neue_pruefungsleistung note m)).
Proof.
  intros H. eapply aufgebaut_neu; [exact H | apply surjective_pairing].
Qed.

(** X4. Every module built by the constructor and calls of
    [neue_pruefungsleistung] holds at most three attempts, numbered
    1, 2, ... in list order, with scores in [1.0, 5.0] and without
    identity, and its status is the one the status rule gives for its
    scores. *)
Theorem built_module_invariant :
  forall m,
    aufgebaut m ->
    (length (Modul.pruefungsleistungen m) <= 3)%nat
    /\ map Pruefungsleistung.versuchs_nummer (Modul.pruefungsleistungen m)
       = map Z.of_nat (seq 1 (length (Modul.pruefungsleistungen m)))
    /\ Modul.status m = status_rule (scores_of m)
    /\ Forall (fun pl => in_range (Pruefungsleistung.note pl))
         (Modul.pruefungsleistungen m)
    /\ Forall (fun pl => Pruefungsleistung.id pl = None)
         (Modul.pruefungsleistungen m)
    /\ Modul.id m = None.
Proof.
  induction 1 as [titel ects gs | note m r m' Hm IH H].
  - simpl. repeat split; auto.
  - destruct (neue_pruefungsleistung_cases note m) as [[e He] | (L & R & Hok)].
    + rewrite He in H. injection H as _ <-. exact IH.
    + rewrite Hok in H. injection H as _ <-.
      destruct IH as (I1 & I2 & I3 & I4 & I5 & I6).
      cbn [Modul.pruefungsleistungen Modul.status Modul.id].
      rewrite length_app. simpl length.
      split; [lia|]. split; [|split; [|split; [|split]]].
      * rewrite map_app, I2. cbn [map Pruefungsleistung.versuchs_nummer].
        rewrite Nat.add_1_r, seq_S, map_app. cbn [map]. f_equal. f_equal.
        unfold len. lia.
      * unfold scores_of. cbn [Modul.pruefungsleistungen].
        rewrite map_app. reflexivity.
      * apply Forall_app. split; [exact I4 | constructor; [exact R | constructor]].
      * apply Forall_app. split; [exact I5 | constructor; [reflexivity | constructor]].
      * exact I6.
Qed.

Lemma built_module_invariant_witness :
  let m := snd (Modul.neue_pruefungsleistung (23 # 10)
             (snd (Modul.neue_pruefungsleistung (5 # 1)
                (Modul.init "Mathematik I" 5 OFFEN 1)))) in
  (length (Modul.pruefungsleistungen m) <= 3)%nat
  /\ map Pruefungsleistung.versuchs_nummer (Modul.pruefungsleistungen m)
     = map Z.of_nat (seq 1 (length (Modul.pruefungsleistungen m)))
  /\ Modul.status m = status_rule (scores_of m)
  /\ Forall (fun pl => in_range (Pruefungsleistung.note pl))
       (Modul.pruefungsleistungen m)
  /\ Forall (fun pl => Pruefungsleistung.id pl = None)
       (Modul.pruefungsleistungen m)
  /\ Modul.id m = None.
Proof.
  intros m. apply (built_module_invariant m).
  apply aufgebaut_step, aufgebaut_step, aufgebaut_init.
Defined.

(** X5. After an attempt is added, the status depends on the new score and
    on the number of attempts held before only: BESTANDEN for a score up to
    4.0, otherwise NICHT_BESTANDEN on the third attempt and OFFEN before.
    So a passed module becomes open or failed again by a later failing
    attempt, while a built module that has failed stays as it is: every
    further call raises. *)
Theorem status_after_attempt :
  (forall m note,
     (length (Modul.pruefungsleistungen m) < 3)%nat -> in_range note ->
     Modul.status (snd (Modul.neue_pruefungsleistung note m))
     = if Qle_bool note 4 then BESTANDEN
       else if (2 <=? length (Modul.pruefungsleistungen m))%nat
            then NICHT_BESTANDEN else OFFEN)
  /\ (forall m note,
        aufgebaut m -> Modul.status m = NICHT_BESTANDEN ->
        Modul.neue_pruefungsleistung note m
        = (Raise (ValueError "Maximal 3 Versuche erlaubt."), m)).
Proof.
  split.
  - intros m note L R.
    rewrite neue_pruefungsleistung_ok; [|rewrite len_ge3; now apply Nat.leb_gt | exact R].
    cbn [snd Modul.status]. rewrite status_rule_snoc. unfold scores_of.
    now rewrite length_map.
  - intros m note B S. apply neue_pruefungsleistung_full.
    destruct (built_module_invariant m B) as (_ & _ & I3 & _).
    rewrite I3 in S. apply status_rule_failed in S.
    unfold scores_of in S. rewrite length_map in S.
    rewrite len_ge3. now apply Nat.leb_le.
Qed.

Lemma status_after_attempt_witness :
  let passed := snd (Modul.neue_pruefungsleistung (2 # 1)
                       (Modul.init "Mathematik I" 5 OFFEN 1)) in
  Modul.status passed = BESTANDEN
  /\ Modul.status (snd (Modul.neue_pruefungsleistung (5 # 1) passed))
     = (if Qle_bool (5 # 1) 4 then BESTANDEN
        else if (2 <=? length (Modul.pruefungsleistungen passed))%nat
             then NICHT_BESTANDEN else OFFEN).
Proof.
  intros passed. split; [reflexivity|].
  apply (proj1 status_after_attempt passed (5 # 1)%Q).
  - simpl. lia.
  - exact in_range_5.
Defined.

Lemma note_loeschen_run (v_nr : Z) (m : Modul.t) :
  1 <= v_nr <= len (Modul.pruefungsleistungen m) ->
  note_loeschen v_nr m
  = (Ok tt,
     Modul.mk (Modul.titel m) (Modul.ects m)
       (status_rule
          (map Pruefungsleistung.note
             (entferne_index (Z.to_nat (v_nr - 1)) (Modul.pruefungsleistungen m))))
       (Modul.geplantes_semester m)
       (entferne_index (Z.to_nat (v_nr - 1)) (Modul.pruefungsleistungen m))
       (Modul.id m)).
Proof.
  intros H. unfold note_loeschen.
  destruct (Z.eqb_spec v_nr 0); [lia|].
  destruct (Z.leb_spec 1 v_nr); [|lia].
  destruct (Z.leb_spec v_nr (len (Modul.pruefungsleistungen m))); [|lia].
  cbn [negb andb]. now rewrite aktualisiere_status_rule.
Qed.

(** X6. Capacity and numbering count the attempts held, not the attempts
    made: when an attempt other than the last is removed from a built
    module and a score is added, the call goes through, also for a module
    that held three attempts, and the new attempt gets the number that the
    last attempt already carries. *)
Theorem attempt_number_reused_after_removal :
  forall m v_nr note,
    aufgebaut m ->
    1 <= v_nr < len (Modul.pruefungsleistungen m) ->
    in_range note ->
    exists m2,
      Modul.neue_pruefungsleistung note (snd (note_loeschen v_nr m)) = (Ok tt, m2)
      /\ len (Modul.pruefungsleistungen m2) = len (Modul.pruefungsleistungen m)
      /\ ~ NoDup (map Pruefungsleistung.versuchs_nummer
                    (Modul.pruefungsleistungen m2)).
Proof.
  intros m v_nr note B Hv R.
  destruct (built_module_invariant m B) as (I1 & I2 & _).
  rewrite note_loeschen_run by lia. cbn [snd].
  destruct m as [ti ec st gs pl i].
  cbn [Modul.pruefungsleistungen Modul.titel Modul.ects Modul.geplantes_semester
       Modul.id] in *.
  unfold len in Hv.
  destruct pl as [|a [|b [|c [|d pl]]]]; simpl length in *; try lia.
  - assert (v_nr = 1) by lia. subst v_nr.
    injection I2 as Ha Hb.
    eexists. rewrite neue_pruefungsleistung_ok; [|reflexivity | exact R].
    split; [reflexivity|]. split; [reflexivity|].
    cbn. rewrite Hb. intros N. inversion N as [|? ? Hin _]; subst.
    apply Hin. now left.
  - injection I2 as Ha Hb Hc.
    assert (Hv' : v_nr = 1 \/ v_nr = 2) by lia.
    destruct Hv' as [-> | ->];
      (eexists; rewrite neue_pruefungsleistung_ok; [|reflexivity | exact R];
       split; [reflexivity|]; split; [reflexivity|];
       unfold entferne_index; simpl; rewrite Hc; intros N; inversion N as [|? ? _ N']; subst;
       inversion N' as [|? ? Hin _]; subst; apply Hin; now left).
Qed.

Lemma attempt_number_reused_after_removal_witness :
  let m := snd (Modul.neue_pruefungsleistung (5 # 1)
             (snd (Modul.neue_pruefungsleistung (5 # 1)
                (snd (Modul.neue_pruefungsleistung (5 # 1)
                   (Modul.init "Mathematik I" 5 OFFEN 1)))))) in
  exists m2,
    Modul.neue_pruefungsleistung (2 # 1) (snd (note_loeschen 1 m)) = (Ok tt, m2)
    /\ len (Modul.pruefungsleistungen m2) = len (Modul.pruefungsleistungen m)
    /\ ~ NoDup (map Pruefungsleistung.versuchs_nummer
                  (Modul.pruefungsleistungen m2)).
Proof.
  intros m. apply (attempt_number_reused_after_removal m 1 (2 # 1)%Q).
  - apply aufgebaut_step, aufgebaut_step, aufgebaut_step, aufgebaut_init.
  - vm_compute. split; [discriminate | reflexivity].
  - exact in_range_2.
Defined.

Lemma range1_bounds (n x : Z) : In x (Studiengang.range1 n) -> 1 <= x <= n.
Proof.
  unfold Studiengang.range1. intros H.
  apply in_map_iff in H as (k & <- & Hk). apply in_seq in Hk. lia.
Qed.

Lemma aktuelles_semester_schleife_in (uhr : nat -> datetime.t)
    (sems : list Semester.t) :
  forall k n,
    aktuelles_semester_schleife uhr k sems = Some n ->
    exists sem, In sem sems /\ Semester.nummer sem = n
                /\ exists j, Semester_ist_aktuell (uhr j) sem = true.
Proof.
  induction sems as [|sem rest IH]; intros k n H; [discriminate|].
  simpl in H. destruct (Semester_ist_aktuell (uhr k) sem) eqn:E.
  - injection H as <-. exists sem. split; [now left|]. split; [reflexivity|].
    now exists k.
  - destruct (IH _ _ H) as (s & Hin & Hn & Hj). exists s.
    split; [now right | now split].
Qed.

Lemma aktuelles_semester_schleife_first (jetzt : datetime.t)
    (vor nach : list Semester.t) (sem : Semester.t) :
  forall k,
    Forall (fun s => Semester_ist_aktuell jetzt s = false) vor ->
    Semester_ist_aktuell jetzt sem = true ->
    aktuelles_semester_schleife (fun _ => jetzt) k (vor ++ sem :: nach)
    = Some (Semester.nummer sem).
Proof.
  induction vor as [|s vor IH]; intros k Hvor Hsem; simpl.
  - now rewrite Hsem.
  - inversion Hvor as [|? ? Hs Hrest]; subst. rewrite Hs. now apply IH.
Qed.

(** X7. The number [get_aktuelles_semester] returns is the number of a
    semester of the list whose range held a reading of the clock, or 1, or
    the standard duration, which it is for an empty list.  When the
    semesters carry the numbers 1 to the standard duration, as after a
    generation, the result lies between 1 and the standard duration
    whatever the clock shows.  With the clock at one instant, the first
    semester of the list whose range holds the instant gives the result. *)
Theorem current_semester_number :
  (forall uhr sg,
     Studiengang.semester_liste sg = [] ->
     Studiengang_get_aktuelles_semester uhr sg = Studiengang.regelstudienzeit sg)
  /\ (forall uhr sg,
        (exists sem j,
           In sem (Studiengang.semester_liste sg)
           /\ Semester_ist_aktuell (uhr j) sem = true
           /\ Studiengang_get_aktuelles_semester uhr sg = Semester.nummer sem)
        \/ Studiengang_get_aktuelles_semester uhr sg = 1
        \/ Studiengang_get_aktuelles_semester uhr sg
           = Studiengang.regelstudienzeit sg)
  /\ (forall uhr sg,
        1 <= Studiengang.regelstudienzeit sg ->
        map Semester.nummer (Studiengang.semester_liste sg)
        = Studiengang.range1 (Studiengang.regelstudienzeit sg) ->
        1 <= Studiengang_get_aktuelles_semester uhr sg
          <= Studiengang.regelstudienzeit sg)
  /\ (forall jetzt sg vor sem nach,
        Studiengang.semester_liste sg = vor ++ sem :: nach ->
        Forall (fun s => Semester_ist_aktuell jetzt s = false) vor ->
        Semester_ist_aktuell jetzt sem = true ->
        Studiengang_get_aktuelles_semester (fun _ => jetzt) sg
        = Semester.nummer sem).
Proof.
  assert (Cases : forall uhr sg,
        (exists sem j,
           In sem (Studiengang.semester_liste sg)
           /\ Semester_ist_aktuell (uhr j) sem = true
           /\ Studiengang_get_aktuelles_semester uhr sg = Semester.nummer sem)
        \/ Studiengang_get_aktuelles_semester uhr sg = 1
        \/ Studiengang_get_aktuelles_semester uhr sg
           = Studiengang.regelstudienzeit sg).
  { intros uhr sg. unfold Studiengang_get_aktuelles_semester.
    destruct (aktuelles_semester_schleife uhr 0 (Studiengang.semester_liste sg))
      as [n|] eqn:E.
    - left. apply aktuelles_semester_schleife_in in E as (sem & Hin & Hn & j & Hj).
      exists sem, j. now repeat split.
    - right. destruct (Studiengang.semester_liste sg) as [|erstes rest];
        [now right|].
      cbv zeta. destruct (datetime_ltb _ _); [now left | now right]. }
  split; [|split; [exact Cases|split]].
  - intros uhr sg H. unfold Studiengang_get_aktuelles_semester. now rewrite H.
  - intros uhr sg HN Hnum.
    destruct (Cases uhr sg) as [(sem & j & Hin & _ & ->) | [-> | ->]]; try lia.
    apply range1_bounds. rewrite <- Hnum. now apply in_map.
  - intros jetzt sg vor sem nach Hl Hvor Hsem.
    unfold Studiengang_get_aktuelles_semester. rewrite Hl.
    now rewrite (aktuelles_semester_schleife_first jetzt vor nach sem 0%nat Hvor Hsem).
Qed.

Lemma current_semester_number_witness :
  let sg := snd (Studiengang.generiere_semester (at_time 2024 10 1 0 0 0)
                   (Studiengang.init "Informatik" 6 (2 # 1))) in
  1 <= Studiengang_get_aktuelles_semester (fun _ => at_time 2025 3 31 12 0 0) sg <= 6
  /\ Studiengang_get_aktuelles_semester (fun _ => at_time 2025 5 2 9 0 0) sg = 2.
Proof.
  intros sg. destruct current_semester_number as (_ & _ & H3 & H4).
  split.
  - apply (H3 _ sg); vm_compute; [discriminate | reflexivity].
  - etransitivity; [|vm_compute; reflexivity].
    apply (H4 (at_time 2025 5 2 9 0 0) sg
             (firstn 1 (Studiengang.semester_liste sg))
             (nth 1 (Studiengang.semester_liste sg)
                (Semester.init 0 (at_time 1 1 1 0 0 0) (at_time 1 1 1 0 0 0)))
             (skipn 2 (Studiengang.semester_liste sg)));
      [vm_compute; reflexivity | vm_compute; repeat constructor
      | vm_compute; reflexivity].
Defined.

(** X8. For a start on day 1 to 28 of a month, with the last year needed
    within the calendar, the generation goes through and replaces the
    semester list by as many semesters as the standard duration says,
    numbered 1, 2, ..., each starting at the cursor and ending on the day
    before the cursor six calendar months later. *)
Theorem generate_semesters_regular :
  forall start_datum sg,
    datetime.valid start_datum = true -> datetime.day start_datum <= 28 ->
    datetime.year start_datum + Z.max 0 (Studiengang.regelstudienzeit sg) <= 9999 ->
    let folge := semester_folge
                   (Studiengang.range1 (Studiengang.regelstudienzeit sg))
                   start_datum in
    Studiengang.generiere_semester start_datum sg
    = (Ok tt, Studiengang.set_semester_liste folge sg)
    /\ len folge = Z.max 0 (Studiengang.regelstudienzeit sg)
    /\ map Semester.nummer folge
       = Studiengang.range1 (Studiengang.regelstudienzeit sg).
Proof. intros start_datum sg. apply generiere_semester_spec. Qed.

Lemma generate_semesters_regular_witness :
  let sg := Studiengang.init "Informatik" 6 (2 # 1) in
  let folge := semester_folge (Studiengang.range1 6) (at_time 2024 10 1 0 0 0) in
  Studiengang.generiere_semester (at_time 2024 10 1 0 0 0) sg
  = (Ok tt, Studiengang.set_semester_liste folge sg)
  /\ len folge = Z.max 0 6
  /\ map Semester.nummer folge = Studiengang.range1 6.
Proof.
  intros sg folge.
  apply (generate_semesters_regular (at_time 2024 10 1 0 0 0) sg).
  - reflexivity.
  - simpl. lia.
  - simpl. lia.
Defined.

(** X9. Edge behaviour of the generation.  A standard duration of zero or
    less gives an empty semester list and no error, for any start.  The
    list held before the call is gone in every case: outcome and resulting
    list do not depend on it.  From a start in the second half of the year
    9999 the first step leaves the calendar and raises a ValueError, with
    an empty list. *)
Theorem generate_semesters_edges :
  (forall start_datum sg,
     Studiengang.regelstudienzeit sg <= 0 ->
     Studiengang.generiere_semester start_datum sg
     = (Ok tt, Studiengang.set_semester_liste [] sg))
  /\ (forall start_datum sg l,
        Studiengang.generiere_semester start_datum
          (Studiengang.set_semester_liste l sg)
        = Studiengang.generiere_semester start_datum
            (Studiengang.set_semester_liste [] sg))
  /\ (forall start_datum sg,
        datetime.valid start_datum = true ->
        datetime.year start_datum = 9999 -> 7 <= datetime.month start_datum ->
        0 < Studiengang.regelstudienzeit sg ->
        exists msg,
          Studiengang.generiere_semester start_datum sg
          = (Raise (ValueError msg), Studiengang.set_semester_liste [] sg)).
Proof.
  split; [|split].
  - intros d sg H. unfold Studiengang.generiere_semester, Studiengang.range1.
    replace (Z.to_nat (Studiengang.regelstudienzeit sg)) with 0%nat by lia.
    reflexivity.
  - intros d sg l. reflexivity.
  - intros d sg V Hy Hm HN.
    destruct (valid_inv d V) as (_ & Vm & _).
    unfold Studiengang.generiere_semester, Studiengang.range1.
    destruct (Z.to_nat (Studiengang.regelstudienzeit sg)) as [|k] eqn:E; [lia|].
    cbn [seq map Studiengang.semester_schleife].
    rewrite (jahresueberlauf_once _ (datetime.year d) Vm).
    destruct (Z.gtb_spec (datetime.month d + 6) 12); [|lia].
    unfold datetime.replace_year_month, datetime._check_date_fields,
      datetime.MINYEAR, datetime.MAXYEAR. rewrite Hy.
    cbn. eexists. reflexivity.
Qed.

Lemma generate_semesters_edges_witness :
  Studiengang.generiere_semester (at_time 2024 8 31 0 0 0)
    (Studiengang.init "Informatik" 0 (2 # 1))
  = (Ok tt, Studiengang.init "Informatik" 0 (2 # 1))
  /\ exists msg,
       Studiengang.generiere_semester (at_time 9999 10 1 0 0 0)
         (Studiengang.init "Informatik" 6 (2 # 1))
       = (Raise (ValueError msg), Studiengang.init "Informatik" 6 (2 # 1)).
Proof.
  destruct generate_semesters_edges as (H1 & _ & H3). split.
  - apply (H1 _ (Studiengang.init "Informatik" 0 (2 # 1))). simpl. lia.
  - apply (H3 (at_time 9999 10 1 0 0 0) (Studiengang.init "Informatik" 6 (2 # 1)));
      [reflexivity | reflexivity | simpl; lia | simpl; lia].
Defined.

(* ================================================================== *)
(** * Further properties of the persistence layer                      *)
(* ================================================================== *)

Lemma map_outcome_ext {A B} (f g : A -> Outcome B) (l : list A) :
  (forall x, In x l -> f x = g x) -> map_outcome f l = map_outcome g l.
Proof.
  induction l as [|x l IH]; intros H; [reflexivity|].
  simpl. rewrite (H x (or_introl eq_refl)), IH; [reflexivity|].
  intros y Hy. apply H. now right.
Qed.

Lemma map_outcome_filter {A B} (f : A -> Outcome B) (p : A -> bool)
    (q : B -> bool) (l : list A) :
  (forall x y, In x l -> f x = Ok y -> q y = p x) ->
  forall r, map_outcome f l = Ok r ->
            map_outcome f (filter p l) = Ok (filter q r).
Proof.
  induction l as [|x l IH]; intros H r E.
  - injection E as <-. reflexivity.
  - simpl in E. destruct (f x) as [y|e] eqn:Fx; [|discriminate].
    destruct (map_outcome f l) as [ys|e] eqn:Fl; [|discriminate].
    injection E as <-.
    specialize (IH (fun x0 y0 Hin => H x0 y0 (or_intror Hin)) ys eq_refl).
    simpl. rewrite (H x y (or_introl eq_refl) Fx).
    destruct (p x); [|exact IH]. simpl. now rewrite Fx, IH.
Qed.

Lemma map_outcome_change {A B} (f g : A -> Outcome B) (h : B -> B) (l : list A) :
  (forall x y, In x l -> f x = Ok y -> g x = Ok (h y)) ->
  forall r, map_outcome f l = Ok r -> map_outcome g l = Ok (map h r).
Proof.
  induction l as [|x l IH]; intros H r E.
  - injection E as <-. reflexivity.
  - simpl in E. destruct (f x) as [y|e] eqn:Fx; [|discriminate].
    destruct (map_outcome f l) as [ys|e] eqn:Fl; [|discriminate].
    injection E as <-. simpl.
    rewrite (H x y (or_introl eq_refl) Fx).
    now rewrite (IH (fun x0 y0 Hin => H x0 y0 (or_intror Hin)) ys eq_refl).
Qed.

Lemma map_outcome_in {A B} (f : A -> Outcome B) (l : list A) :
  forall r, map_outcome f l = Ok r ->
            forall y, In y r -> exists x, In x l /\ f x = Ok y.
Proof.
  induction l as [|x l IH]; intros r E y Hy.
  - injection E as <-. destruct Hy.
  - simpl in E. destruct (f x) as [y0|e] eqn:Fx; [|discriminate].
    destruct (map_outcome f l) as [ys|e] eqn:Fl; [|discriminate].
    injection E as <-. destruct Hy as [<- | Hy].
    + exists x. split; [now left | exact Fx].
    + destruct (IH ys eq_refl y Hy) as (x0 & Hin & Hx0).
      exists x0. split; [now right | exact Hx0].
Qed.

Lemma filter_comm {A} (p q : A -> bool) (l : list A) :
  filter p (filter q l) = filter q (filter p l).
Proof.
  induction l as [|x l IH]; [reflexivity|].
  simpl. destruct (p x) eqn:P, (q x) eqn:Q; simpl; rewrite ?P, ?Q, IH;
    reflexivity.
Qed.

Lemma filter_absorb {A} (p q : A -> bool) (l : list A) :
  (forall x, In x l -> p x = true -> q x = true) ->
  filter p (filter q l) = filter p l.
Proof.
  induction l as [|x l IH]; intros H; [reflexivity|].
  simpl. destruct (q x) eqn:Q; simpl.
  - destruct (p x); rewrite IH; auto; intros; apply H; auto; now right.
  - destruct (p x) eqn:P.
    + rewrite (H x (or_introl eq_refl) P) in Q. discriminate.
    + apply IH. intros; apply H; auto; now right.
Qed.

Lemma insert_by_head {A} (key : A -> Z) (x : A) (l : list A) :
  Forall (fun y => key x <= key y) l -> insert_by key x l = x :: l.
Proof.
  intros H. destruct l as [|y l]; [reflexivity|].
  inversion H as [|? ? Hy _]; subst. simpl.
  destruct (Z.leb_spec (key x) (key y)); [reflexivity | lia].
Qed.

Lemma insert_by_filter {A} (key : A -> Z) (p : A -> bool) (x : A) (l : list A) :
  aufsteigend key l ->
  filter p (insert_by key x l)
  = if p x then insert_by key x (filter p l) else filter p l.
Proof.
  induction l as [|y l IH]; intros S.
  - simpl. now destruct (p x).
  - destruct S as [Sy Sl]. simpl.
    destruct (Z.leb_spec (key x) (key y)) as [K | K].
    + simpl. destruct (p x) eqn:P; [|reflexivity].
      destruct (p y) eqn:Py.
      * simpl. destruct (Z.leb_spec (key x) (key y)); [reflexivity | lia].
      * rewrite insert_by_head; [reflexivity|].
        apply Forall_filter. eapply Forall_impl; [|exact Sy].
        simpl. intros; lia.
    + simpl. rewrite (IH Sl). destruct (p y) eqn:Py, (p x) eqn:P; try reflexivity.
      simpl. destruct (Z.leb_spec (key x) (key y)); [lia | reflexivity].
Qed.

Lemma order_by_filter {A} (key : A -> Z) (p : A -> bool) (l : list A) :
  filter p (order_by key l) = order_by key (filter p l).
Proof.
  induction l as [|x l IH]; [reflexivity|].
  simpl. rewrite insert_by_filter by apply order_by_sorted.
  rewrite IH. now destruct (p x).
Qed.

Lemma lade_pl_id (z : pl_zeile) (pl : Pruefungsleistung.t) :
  match Pruefungsleistung.init (pl_note z) (pl_versuchs_nummer z) with
  | Raise e => Raise e
  | Ok a => Ok (Pruefungsleistung.set_id (Some (pl_id z)) a)
  end = Ok pl ->
  Pruefungsleistung.id pl = Some (pl_id z).
Proof.
  destruct (Pruefungsleistung.init _ _); [|discriminate].
  now intros [= <-].
Qed.

Lemma lade_pruefungsleistungen_nach_loeschen (pl modul : Z) (db : Database)
    (pls : list Pruefungsleistung.t) :
  ModulRepository.lade_pruefungsleistungen modul db = Ok pls ->
  ModulRepository.lade_pruefungsleistungen modul (loeschen_pruefungsleistung pl db)
  = Ok (filter (fun a => negb (opt_eqb (Pruefungsleistung.id a) (Some pl))) pls).
Proof.
  unfold ModulRepository.lade_pruefungsleistungen. intros H.
  cbn [loeschen_pruefungsleistung mit_pruefungsleistungen pruefungsleistungen].
  rewrite filter_comm, <- order_by_filter.
  apply map_outcome_filter; [|exact H].
  intros z a _ Ha. apply lade_pl_id in Ha. rewrite Ha. reflexivity.
Qed.

Lemma lade_modul_id (db : Database) (z : modul_zeile) (m : Modul.t) :
  match Status_of_value (mod_status z) with
  | Raise e => Raise e
  | Ok status =>
      match ModulRepository.lade_pruefungsleistungen (mod_id z) db with
      | Raise e => Raise e
      | Ok pls =>
          Ok (Modul.set_pruefungsleistungen pls
                (Modul.set_id (Some (mod_id z))
                   (Modul.init (mod_titel z) (mod_ects z) status
                      (mod_geplantes_semester z))))
      end
  end = Ok m ->
  Modul.id m = Some (mod_id z).
Proof.
  destruct (Status_of_value _); [|discriminate].
  destruct (ModulRepository.lade_pruefungsleistungen _ _); [|discriminate].
  now intros [= <-].
Qed.

(** X10. Deleting an attempt from the store takes exactly that attempt out
    of what a load returns: every program comes back as before, with the
    same semesters, modules and stored statuses, each module holding its
    attempts without the deleted one.  The status of the module is not
    recomputed by the deletion. *)
Theorem load_after_deleting_attempt :
  forall pl db sgs,
    DatenbankManager.laden db = Ok sgs ->
    DatenbankManager.laden (loeschen_pruefungsleistung pl db)
    = Ok (ohne_pruefungsleistung pl sgs).
Proof.
  intros pl db sgs H. unfold DatenbankManager.laden in *.
  change (StudiengangRepository.laden_alle (loeschen_pruefungsleistung pl db))
    with (StudiengangRepository.laden_alle db).
  unfold ohne_pruefungsleistung.
  eapply map_outcome_change; [|exact H].
  intros sg sg' _ Hsg. cbv beta in *.
  destruct (ModulRepository.laden_fuer_studiengang (Studiengang.id sg) db)
    as [ms|e] eqn:L; [|discriminate].
  injection Hsg as <-.
  unfold ModulRepository.laden_fuer_studiengang in *.
  change (module (loeschen_pruefungsleistung pl db)) with (module db).
  erewrite map_outcome_change; [reflexivity | | exact L].
  intros z m _ Hm. cbv beta in *.
  destruct (Status_of_value (mod_status z)) as [st|e]; [|discriminate].
  destruct (ModulRepository.lade_pruefungsleistungen (mod_id z) db)
    as [pls|e] eqn:P; [|discriminate].
  injection Hm as <-.
  now rewrite (lade_pruefungsleistungen_nach_loeschen pl _ _ _ P).
Qed.

Lemma load_after_deleting_attempt_witness :
  let db := snd (DatenbankManager.speichern beispiel_studiengang leere_datenbank) in
  exists sgs,
    DatenbankManager.laden db = Ok sgs
    /\ DatenbankManager.laden (loeschen_pruefungsleistung 2 db)
       = Ok (ohne_pruefungsleistung 2 sgs).
Proof.
  intros db. eexists. split; [vm_compute; reflexivity|].
  apply (load_after_deleting_attempt 2 db). vm_compute. reflexivity.
Defined.

Lemma existsb_eqb_in (m : Z) (ids : list Z) :
  existsb (Z.eqb m) ids = true <-> In m ids.
Proof.
  rewrite existsb_exists. split.
  - intros (x & Hx & E). apply Z.eqb_eq in E. now subst.
  - intros H. exists m. split; [exact H | apply Z.eqb_refl].
Qed.

Lemma geloescht_spec (weg : modul_zeile -> bool) (rows : list modul_zeile) (m : Z) :
  existsb (Z.eqb m) (map mod_id (filter weg rows)) = true
  <-> exists z, In z rows /\ weg z = true /\ mod_id z = m.
Proof.
  rewrite existsb_eqb_in, in_map_iff. split.
  - intros (z & E & Hz). apply filter_In in Hz as [Hin Hw]. now exists z.
  - intros (z & Hin & Hw & E). exists z. split; [exact E|].
    apply filter_In. now split.
Qed.

(** The attempts of a module are loaded from the same rows after a
    deletion of modules that does not take the module itself. *)
Lemma lade_pruefungsleistungen_delete_module (weg : modul_zeile -> bool)
    (db : Database) (zt : Zeittabelle) (m : Z) :
  (forall z, In z (module db) -> weg z = true -> mod_id z <> m) ->
  ModulRepository.lade_pruefungsleistungen m (fst (delete_module weg (db, zt)))
  = ModulRepository.lade_pruefungsleistungen m db.
Proof.
  intros H. unfold ModulRepository.lade_pruefungsleistungen.
  cbn [delete_module fst mit_pruefungsleistungen pruefungsleistungen
       mit_module module].
  rewrite filter_absorb; [reflexivity|].
  intros z _ Hz. apply Z.eqb_eq in Hz. apply negb_true_iff.
  apply not_true_is_false. intros G. apply geloescht_spec in G as (z' & Hin & Hw & E).
  apply (H z' Hin Hw). congruence.
Qed.

Lemma laden_fuer_studiengang_delete_module (weg : modul_zeile -> bool)
    (q : Modul.t -> bool) (db : Database) (zt : Zeittabelle)
    (sgid : option Z) (ms : list Modul.t) :
  (forall z z', In z (module db) -> In z' (module db) ->
                weg z' = true -> mod_id z = mod_id z' -> weg z = true) ->
  (forall z m, In z (module db) -> Modul.id m = Some (mod_id z) ->
               q m = negb (weg z)) ->
  ModulRepository.laden_fuer_studiengang sgid db = Ok ms ->
  ModulRepository.laden_fuer_studiengang sgid (fst (delete_module weg (db, zt)))
  = Ok (filter q ms).
Proof.
  intros Hid Hq L. unfold ModulRepository.laden_fuer_studiengang in *.
  cbn [delete_module fst mit_pruefungsleistungen mit_module module].
  rewrite filter_comm.
  set (rows := filter _ (module db)) in *.
  erewrite map_outcome_ext.
  - apply map_outcome_filter; [|exact L].
    intros z m Hz Hm. cbv beta in Hm. apply lade_modul_id in Hm.
    apply Hq; [|exact Hm]. unfold rows in Hz. now apply filter_In in Hz.
  - intros z Hz. cbv beta. apply filter_In in Hz as [Hz Hw].
    unfold rows in Hz. apply filter_In in Hz as [Hz _].
    change (mit_pruefungsleistungen _ _ _)
      with (fst (delete_module weg (db, zt))).
    rewrite lade_pruefungsleistungen_delete_module; [reflexivity|].
    intros z' Hz' Hw' E. apply negb_true_iff in Hw.
    rewrite (Hid z z' Hz Hz' Hw' (eq_sym E)) in Hw. discriminate.
Qed.

(** X11. Deleting a module from the store takes exactly that module, with
    its attempts, out of what a load returns: every program comes back as
    before, without the module.  No time entry is deleted: the entries
    keep their ids and columns, and none names the deleted module any
    more. *)
Theorem load_after_deleting_module :
  forall modul s sgs,
    DatenbankManager.laden (fst s) = Ok sgs ->
    let s' := loeschen_modul modul s in
    DatenbankManager.laden (fst s') = Ok (ohne_modul modul sgs)
    /\ map (fun z => (ze_id z, ze_typ z, ze_datum z, ze_start_zeit z,
                      ze_end_zeit z, ze_geplante_dauer z,
                      ze_tatsaechliche_dauer z, ze_beschreibung z))
         (zeiteintraege (snd s'))
       = map (fun z => (ze_id z, ze_typ z, ze_datum z, ze_start_zeit z,
                        ze_end_zeit z, ze_geplante_dauer z,
                        ze_tatsaechliche_dauer z, ze_beschreibung z))
           (zeiteintraege (snd s))
    /\ (existsb (fun z => mod_id z =? modul) (module (fst s)) = true ->
        forall z, In z (zeiteintraege (snd s')) -> ze_modul_id z <> Some modul)
    /\ (forall z, In z (module (fst s')) -> mod_id z <> modul)
    /\ (existsb (fun z => mod_id z =? modul) (module (fst s)) = true ->
        forall z, In z (pruefungsleistungen (fst s')) -> pl_modul_id z <> modul).
Proof.
  intros modul [db zt] sgs H s'. cbn [fst snd] in *.
  split; [|split; [|split; [|split]]].
  - unfold DatenbankManager.laden in *. unfold s', loeschen_modul.
    change (StudiengangRepository.laden_alle
              (fst (delete_module (fun z => mod_id z =? modul) (db, zt))))
      with (StudiengangRepository.laden_alle db).
    unfold ohne_modul. eapply map_outcome_change; [|exact H].
    intros sg sg' _ Hsg. cbv beta in *.
    destruct (ModulRepository.laden_fuer_studiengang (Studiengang.id sg) db)
      as [ms|e] eqn:L; [|discriminate].
    injection Hsg as <-.
    erewrite laden_fuer_studiengang_delete_module; [reflexivity | | | exact L].
    + intros z z' _ _ Hw E. cbv beta in *. now rewrite E.
    + intros z m _ Hm. cbv beta. rewrite Hm. reflexivity.
  - unfold s', loeschen_modul. cbn [delete_module snd zeiteintraege].
    rewrite map_map. apply map_ext. intros z.
    destruct (ze_modul_id z) as [m|]; [|reflexivity].
    now destruct (existsb _ _).
  - intros Hex z Hz. unfold s', loeschen_modul in Hz.
    cbn [delete_module snd zeiteintraege] in Hz.
    apply in_map_iff in Hz as (z0 & <- & _).
    destruct (ze_modul_id z0) as [m|] eqn:M; [|now rewrite M].
    destruct (existsb (Z.eqb m) _) eqn:G; [discriminate|].
    rewrite M. intros [= ->].
    apply not_true_iff_false in G. apply G, geloescht_spec.
    apply existsb_exists in Hex as (z1 & Hz1 & E). apply Z.eqb_eq in E.
    exists z1. repeat split; auto. now apply Z.eqb_eq.
  - intros z Hz. unfold s', loeschen_modul in Hz.
    cbn [delete_module fst mit_pruefungsleistungen mit_module module] in Hz.
    apply filter_In in Hz as [_ Hz]. apply negb_true_iff, Z.eqb_neq in Hz.
    exact Hz.
  - intros Hex z Hz. unfold s', loeschen_modul in Hz.
    cbn [delete_module fst mit_pruefungsleistungen pruefungsleistungen] in Hz.
    apply filter_In in Hz as [_ Hz]. apply negb_true_iff in Hz.
    intros E. apply not_true_iff_false in Hz. apply Hz, geloescht_spec.
    apply existsb_exists in Hex as (z1 & Hz1 & E1). apply Z.eqb_eq in E1.
    exists z1. repeat split; auto; [now apply Z.eqb_eq | congruence].
Qed.

Lemma load_after_deleting_module_witness :
  let db := snd (DatenbankManager.speichern beispiel_studiengang leere_datenbank) in
  exists sgs,
    DatenbankManager.laden db = Ok sgs
    /\ DatenbankManager.laden (fst (loeschen_modul 1 (db, mk_zeittabelle [] 0)))
       = Ok (ohne_modul 1 sgs).
Proof.
  intros db. eexists. split; [vm_compute; reflexivity|].
  apply (proj1 (load_after_deleting_module 1 (db, mk_zeittabelle [] 0) _
                  ltac:(vm_compute; reflexivity))).
Defined.

Lemma NoDup_map_eq {A} (f : A -> Z) (l : list A) (x y : A) :
  NoDup (map f l) -> In x l -> In y l -> f x = f y -> x = y.
Proof.
  induction l as [|a l IH]; intros N Hx Hy E; [destruct Hx|].
  simpl in N. inversion N as [|? ? Hn N']; subst.
  destruct Hx as [-> | Hx], Hy as [-> | Hy]; auto.
  - elim Hn. rewrite E. now apply in_map.
  - elim Hn. rewrite <- E. now apply in_map.
Qed.

Lemma filter_map_comm {A B} (f : A -> B) (q : B -> bool) (l : list A) :
  filter q (map f l) = map f (filter (fun x => q (f x)) l).
Proof.
  induction l as [|x l IH]; [reflexivity|].
  simpl. destruct (q (f x)); simpl; now rewrite IH.
Qed.

Lemma laden_ids (db : Database) (sgs : list Studiengang.t) :
  DatenbankManager.laden db = Ok sgs ->
  forall sg, In sg sgs ->
    exists z, In z (studiengaenge db) /\ Studiengang.id sg = Some (sg_id z).
Proof.
  unfold DatenbankManager.laden. intros H sg Hsg.
  destruct (map_outcome_in _ _ _ H sg Hsg) as (x & Hx & Fx). cbv beta in Fx.
  destruct (ModulRepository.laden_fuer_studiengang _ _); [|discriminate].
  injection Fx as <-.
  unfold StudiengangRepository.laden_alle in Hx.
  apply in_map_iff in Hx as (z & <- & Hz). now exists z.
Qed.

(** X12. Deleting a program from the store takes exactly that program out
    of what a load returns: the other programs come back as before, with
    their semesters, modules and attempts.  Keys of module rows being
    unique, no row of the deleted program is left: no program, semester or
    module row with its id, and no attempt of one of its modules. *)
Theorem load_after_deleting_program :
  forall sg s sgs,
    NoDup (map mod_id (module (fst s))) ->
    DatenbankManager.laden (fst s) = Ok sgs ->
    let s' := loeschen_studiengang sg s in
    DatenbankManager.laden (fst s') = Ok (ohne_studiengang sg sgs)
    /\ (forall z, In z (studiengaenge (fst s')) -> sg_id z <> sg)
    /\ (existsb (fun z => sg_id z =? sg) (studiengaenge (fst s)) = true ->
        (forall z, In z (semester (fst s')) -> sem_studiengang_id z <> sg)
        /\ (forall z, In z (module (fst s')) -> mod_studiengang_id z <> sg)
        /\ (forall z z', In z (pruefungsleistungen (fst s')) ->
                         In z' (module (fst s)) ->
                         mod_studiengang_id z' = sg ->
                         pl_modul_id z <> mod_id z')).
Proof.
  intros i [db zt] sgs N H s'. cbn [fst snd] in *.
  unfold s', loeschen_studiengang.
  destruct (existsb (fun z => sg_id z =? i) (studiengaenge db)) eqn:Ex.
  - set (db1 := mit_semester _ _ _).
    split; [|split].
    + (* the load *)
      unfold DatenbankManager.laden in *.
      assert (LA : StudiengangRepository.laden_alle
                     (fst (delete_module (fun z => mod_studiengang_id z =? i)
                             (db1, zt)))
                   = filter (fun s => negb (opt_eqb (Studiengang.id s) (Some i)))
                       (StudiengangRepository.laden_alle db)).
      { unfold StudiengangRepository.laden_alle.
        cbn [delete_module fst mit_pruefungsleistungen mit_module studiengaenge].
        unfold db1.
        cbn [mit_semester mit_studiengaenge studiengaenge].
        rewrite filter_map_comm.
        cbn [Studiengang.id Studiengang.set_semester_liste Studiengang.set_id
             opt_eqb].
        apply map_ext_in. intros z Hz. apply filter_In in Hz as [_ Hz].
        f_equal. unfold StudiengangRepository.lade_semester. f_equal. f_equal.
        cbn [semester mit_pruefungsleistungen mit_module mit_semester].
        apply filter_absorb. intros y _ Hy. apply Z.eqb_eq in Hy.
        rewrite Hy. exact Hz. }
      rewrite LA. unfold ohne_studiengang.
      erewrite map_outcome_ext.
      * apply map_outcome_filter; [|exact H].
        intros x y _ Fx. cbv beta in Fx.
        destruct (ModulRepository.laden_fuer_studiengang _ _); [|discriminate].
        now injection Fx as <-.
      * intros x Hx. cbv beta. apply filter_In in Hx as [Hx Hi].
        unfold StudiengangRepository.laden_alle in Hx.
        apply in_map_iff in Hx as (z & <- & Hz).
        cbn [Studiengang.id Studiengang.set_semester_liste Studiengang.set_id
             opt_eqb] in *.
        apply negb_true_iff, Z.eqb_neq in Hi.
        assert (L : ModulRepository.laden_fuer_studiengang (Some (sg_id z))
                      (fst (delete_module (fun z => mod_studiengang_id z =? i)
                              (db1, zt)))
                    = ModulRepository.laden_fuer_studiengang (Some (sg_id z)) db).
        { unfold ModulRepository.laden_fuer_studiengang.
          cbn [delete_module fst mit_pruefungsleistungen mit_module module].
          change (module db1) with (module db).
          rewrite filter_absorb.
          2:{ intros y _ Hy. apply Z.eqb_eq in Hy. apply negb_true_iff.
              apply Z.eqb_neq. congruence. }
          apply map_outcome_ext. intros y Hy. apply filter_In in Hy as [Hy Hsg].
          apply Z.eqb_eq in Hsg.
          change (mit_pruefungsleistungen _ _ _)
            with (fst (delete_module (fun z => mod_studiengang_id z =? i)
                         (db1, zt))).
          rewrite lade_pruefungsleistungen_delete_module.
          - unfold ModulRepository.lade_pruefungsleistungen.
            change (pruefungsleistungen db1) with (pruefungsleistungen db).
            reflexivity.
          - change (module db1) with (module db).
            intros y' Hy' Hw E. apply Z.eqb_eq in Hw.
            assert (y' = y) by (apply (NoDup_map_eq mod_id (module db)); auto).
            subst y'. congruence. }
        now rewrite L.
    + intros z Hz.
      cbn [delete_module fst mit_pruefungsleistungen mit_module studiengaenge] in Hz.
      unfold db1 in Hz. cbn [mit_semester mit_studiengaenge studiengaenge] in Hz.
      apply filter_In in Hz as [_ Hz]. now apply negb_true_iff, Z.eqb_neq in Hz.
    + intros _. split; [|split].
      * intros z Hz.
        cbn [delete_module fst mit_pruefungsleistungen mit_module semester] in Hz.
        unfold db1 in Hz. cbn [mit_semester semester] in Hz.
        apply filter_In in Hz as [_ Hz]. now apply negb_true_iff, Z.eqb_neq in Hz.
      * intros z Hz.
        cbn [delete_module fst mit_pruefungsleistungen mit_module module] in Hz.
        apply filter_In in Hz as [_ Hz]. now apply negb_true_iff, Z.eqb_neq in Hz.
      * intros z z' Hz Hz' Hsg E.
        cbn [delete_module fst mit_pruefungsleistungen pruefungsleistungen] in Hz.
        apply filter_In in Hz as [_ Hz]. apply negb_true_iff in Hz.
        apply not_true_iff_false in Hz. apply Hz, geloescht_spec.
        exists z'. change (module (mit_module _ _ db1)) with (module db) in *.
        repeat split; auto. now apply Z.eqb_eq.
  - split; [|split; [|intros; discriminate]].
    + cbn [fst]. rewrite H. f_equal. unfold ohne_studiengang.
      symmetry. apply filter_all. intros x Hx.
      destruct (laden_ids db sgs H x Hx) as (z & Hz & ->).
      cbn [opt_eqb]. apply negb_true_iff, Z.eqb_neq. intros E.
      apply not_true_iff_false in Ex. apply Ex, existsb_exists.
      exists z. split; [exact Hz | now apply Z.eqb_eq].
    + intros z Hz E. cbn [fst] in Hz.
      apply not_true_iff_false in Ex. apply Ex, existsb_exists.
      exists z. split; [exact Hz | now apply Z.eqb_eq].
Qed.

Lemma load_after_deleting_program_witness :
  let db := snd (DatenbankManager.speichern beispiel_studiengang leere_datenbank) in
  DatenbankManager.laden (fst (loeschen_studiengang 1 (db, mk_zeittabelle [] 0)))
  = Ok (ohne_studiengang 1
          [studiengang_geordnet
             (match fst (DatenbankManager.speichern beispiel_studiengang
                           leere_datenbank) with
              | Ok sg => sg
              | Raise _ => beispiel_studiengang
              end)]).
Proof.
  intros db.
  apply (proj1 (load_after_deleting_program 1 (db, mk_zeittabelle [] 0) _
                  ltac:(vm_compute; repeat constructor; simpl; intuition lia)
                  ltac:(vm_compute; reflexivity))).
Defined.

(* ------------------------------------------------------------------ *)
(** ** What every operation of the store keeps                          *)
(* ------------------------------------------------------------------ *)

Lemma bind_erhaelt {S A B} (P : S -> Prop) (c : Py S A) (k : A -> Py S B)
    (s : S) :
  P (snd (c s)) -> (forall a s', P s' -> P (snd (k a s'))) ->
  P (snd (bind c k s)).
Proof.
  intros Hc Hk. unfold bind. destruct (c s) as [[a|e] s']; simpl in *; auto.
Qed.

Lemma for_map_erhaelt {S A B} (P : S -> Prop) (body : A -> Py S B)
    (xs : list A) :
  (forall x s, In x xs -> P s -> P (snd (body x s))) ->
  forall s, P s -> P (snd (for_map xs body s)).
Proof.
  induction xs as [|x xs IH]; intros H s Hs; [exact Hs|].
  cbn [for_map]. apply bind_erhaelt.
  - apply H; [now left | exact Hs].
  - intros a s' Hs'. apply bind_erhaelt.
    + apply IH; [|exact Hs']. intros y t Hy. apply H. now right.
    + intros; assumption.
Qed.

Lemma next_id_not_in (ids : list Z) (seq : Z) : ~ In (next_id ids seq) ids.
Proof. intros H. apply (next_id_fresh ids seq) in H. lia. Qed.

Lemma NoDup_map_snoc {A} (f : A -> Z) (l : list A) (x : A) :
  NoDup (map f l) -> ~ In (f x) (map f l) -> NoDup (map f (l ++ [x])).
Proof.
  intros N H. rewrite map_app. simpl.
  apply NoDup_app; [exact N | repeat constructor; intros [] | ].
  intros a Ha [<- | []]. contradiction.
Qed.

Lemma NoDup_map_filter {A} (f : A -> Z) (p : A -> bool) (l : list A) :
  NoDup (map f l) -> NoDup (map f (filter p l)).
Proof.
  induction l as [|x l IH]; simpl; intros N; [constructor|].
  inversion N as [|? ? Hx N']; subst.
  destruct (p x); simpl; [constructor|]; auto.
  intros H. apply Hx. apply in_map_iff in H as (y & E & Hy).
  apply filter_In in Hy as [Hy _]. rewrite <- E. now apply in_map.
Qed.

Lemma map_update_key {A} (f : A -> Z) (g : A -> A) (l : list A) :
  (forall z, f (g z) = f z) -> map f (map g l) = map f l.
Proof. intros H. rewrite map_map. apply map_ext. exact H. Qed.

Lemma existsb_key_in {A} (f : A -> Z) (i : Z) (l : list A) :
  existsb (fun z => f z =? i) l = true <-> In i (map f l).
Proof.
  rewrite existsb_exists, in_map_iff. split.
  - intros (z & Hz & E). apply Z.eqb_eq in E. now exists z.
  - intros (z & E & Hz). exists z. split; [exact Hz | now apply Z.eqb_eq].
Qed.

Ltac zerlege H :=
  let I1 := fresh "I1" in let I2 := fresh "I2" in let I3 := fresh "I3" in
  let I4 := fresh "I4" in let F1 := fresh "F1" in let F2 := fresh "F2" in
  let F3 := fresh "F3" in let Z1 := fresh "Z1" in let Z2 := fresh "Z2" in
  let L1 := fresh "L1" in let L2 := fresh "L2" in let T := fresh "T" in
  destruct H as ((I1 & I2 & I3 & I4 & F1 & F2 & F3) & (Z1 & Z2) & (L1 & L2) & T);
  cbn [fst snd] in *.

Ltac aufbauen :=
  unfold konsistent, integritaet, integritaet_zeit, zeilen_lesbar;
  cbn [fst snd studiengaenge semester module pruefungsleistungen
       mit_studiengaenge mit_semester mit_module mit_pruefungsleistungen
       zeiteintraege];
  repeat match goal with |- _ /\ _ => split end.

Lemma insert_studiengang_konsistent name r z (db : Database) (zt : Zeittabelle) :
  konsistent (db, zt) ->
  konsistent (snd (insert_studiengang name r z db), zt).
Proof.
  intros H. zerlege H. unfold insert_studiengang. cbn [snd]. aufbauen; auto.
  - apply NoDup_map_snoc; [exact I1|]. apply next_id_not_in.
  - intros y Hy. rewrite map_app. apply in_or_app. left. auto.
  - intros y Hy. rewrite map_app. apply in_or_app. left. auto.
Qed.

Lemma update_studiengang_konsistent name r z i (db : Database) (zt : Zeittabelle) :
  konsistent (db, zt) ->
  konsistent (snd (update_studiengang name r z i db), zt).
Proof.
  intros H. zerlege H. unfold update_studiengang. cbn [snd].
  assert (E : map sg_id
                (map (fun y => if sg_id y =? i
                               then mk_studiengang_zeile i name r z else y)
                   (studiengaenge db))
              = map sg_id (studiengaenge db)).
  { apply map_update_key. intros y.
    destruct (Z.eqb_spec (sg_id y) i); [now subst | reflexivity]. }
  aufbauen; auto; rewrite ?E; auto.
Qed.

Lemma delete_semester_konsistent sg (db : Database) (zt : Zeittabelle) :
  konsistent (db, zt) -> konsistent (snd (delete_semester sg db), zt).
Proof.
  intros H. zerlege H. unfold delete_semester. cbn [snd]. aufbauen; auto.
  - now apply NoDup_map_filter.
  - intros y Hy. apply filter_In in Hy as [Hy _]. auto.
Qed.

Lemma insert_semester_konsistent nr a b sg (db : Database) (zt : Zeittabelle) :
  konsistent (db, zt) -> konsistent (snd (insert_semester nr a b sg db), zt).
Proof.
  intros H. unfold insert_semester.
  destruct (existsb _ _) eqn:Ex; [|exact H].
  apply existsb_key_in in Ex.
  zerlege H. cbn [snd]. aufbauen; auto.
  - apply NoDup_map_snoc; [exact I2|]. apply next_id_not_in.
  - intros y Hy. apply in_app_or in Hy as [Hy | [<- | []]]; auto.
Qed.

Lemma insert_modul_konsistent titel ects (status : Status) gs sg
    (db : Database) (zt : Zeittabelle) :
  konsistent (db, zt) ->
  konsistent (snd (insert_modul titel ects (Status_value status) gs sg db), zt).
Proof.
  intros H. unfold insert_modul. destruct sg as [sg|]; [|exact H].
  destruct (existsb _ _) eqn:Ex; [|exact H].
  apply existsb_key_in in Ex.
  zerlege H. cbn [snd]. aufbauen; auto.
  - apply NoDup_map_snoc; [exact I3|]. apply next_id_not_in.
  - intros y Hy. apply in_app_or in Hy as [Hy | [<- | []]]; auto.
  - intros y Hy. rewrite map_app. apply in_or_app. left. auto.
  - intros y m Hy Hm. rewrite map_app. apply in_or_app. left. eauto.
  - apply Forall_app. split; [exact L2|]. constructor; [|constructor].
    now exists status.
Qed.

Lemma update_modul_konsistent titel ects (status : Status) gs i
    (db : Database) (zt : Zeittabelle) :
  konsistent (db, zt) ->
  konsistent (snd (update_modul titel ects (Status_value status) gs i db), zt).
Proof.
  intros H. zerlege H. unfold update_modul. cbn [snd].
  set (g := fun y => if mod_id y =? i
                     then mk_modul_zeile i titel ects (Status_value status) gs
                            (mod_studiengang_id y)
                     else y).
  assert (E : map mod_id (map g (module db)) = map mod_id (module db)).
  { apply map_update_key. intros y. unfold g.
    destruct (Z.eqb_spec (mod_id y) i); [now subst | reflexivity]. }
  aufbauen; auto; rewrite ?E; auto.
  - intros y Hy. apply in_map_iff in Hy as (y0 & <- & Hy).
    assert (mod_studiengang_id (g y0) = mod_studiengang_id y0) as ->; auto.
    unfold g. now destruct (mod_id y0 =? i).
  - apply Forall_forall. intros y Hy. apply in_map_iff in Hy as (y0 & <- & Hy).
    unfold g. destruct (mod_id y0 =? i).
    + now exists status.
    + rewrite Forall_forall in L2. auto.
Qed.

Lemma insert_pruefungsleistung_konsistent note nr modul
    (db : Database) (zt : Zeittabelle) :
  in_range note ->
  konsistent (db, zt) ->
  konsistent (snd (insert_pruefungsleistung note nr modul db), zt).
Proof.
  intros R H. unfold insert_pruefungsleistung.
  destruct (existsb _ _) eqn:Ex; [|exact H].
  apply existsb_key_in in Ex.
  zerlege H. cbn [snd]. aufbauen; auto.
  - apply NoDup_map_snoc; [exact I4|]. apply next_id_not_in.
  - intros y Hy. apply in_app_or in Hy as [Hy | [<- | []]]; auto.
  - apply Forall_app. split; [exact L1|].
    constructor; [exact R | constructor].
Qed.

Lemma bind_erhaelt_ok {S A B} (P : S -> Prop) (c : Py S A) (k : A -> Py S B)
    (s : S) :
  P (snd (c s)) -> (forall a s', c s = (Ok a, s') -> P s' -> P (snd (k a s'))) ->
  P (snd (bind c k s)).
Proof.
  intros Hc Hk. unfold bind. destruct (c s) as [[a|e] s']; simpl in *; auto.
Qed.

Lemma StudiengangRepository_speichern_konsistent (sg : Studiengang.t)
    (db : Database) (zt : Zeittabelle) :
  konsistent (db, zt) ->
  konsistent (snd (StudiengangRepository.speichern sg db), zt).
Proof.
  intros H. unfold StudiengangRepository.speichern.
  apply (bind_erhaelt (fun d => konsistent (d, zt))).
  - destruct (Studiengang.id sg) as [i|].
    + apply (bind_erhaelt (fun d => konsistent (d, zt))).
      * now apply update_studiengang_konsistent.
      * intros _ s' Hs'. exact Hs'.
    + now apply insert_studiengang_konsistent.
  - intros i s' Hs'.
    apply (bind_erhaelt (fun d => konsistent (d, zt))).
    + now apply delete_semester_konsistent.
    + intros _ s2 Hs2.
      apply (bind_erhaelt (fun d => konsistent (d, zt))).
      * apply (for_map_erhaelt (fun d => konsistent (d, zt))); [|exact Hs2].
        intros x s3 _ Hs3. unfold StudiengangRepository.speichere_semester.
        apply (bind_erhaelt (fun d => konsistent (d, zt))).
        -- now apply insert_semester_konsistent.
        -- intros; assumption.
      * intros; assumption.
Qed.

Lemma StudiengangRepository_speichern_module (sg sg' : Studiengang.t)
    (db db' : Database) :
  StudiengangRepository.speichern sg db = (Ok sg', db') ->
  Studiengang.module sg' = Studiengang.module sg.
Proof.
  unfold StudiengangRepository.speichern. intros H.
  unfold bind at 1 in H.
  destruct (Studiengang.id sg) as [i|].
  - unfold bind at 1 in H. cbn [update_studiengang] in H.
    unfold ret at 1 in H. unfold bind at 1 in H. cbn [delete_semester] in H.
    unfold bind at 1 in H.
    destruct (for_map _ _ _) as [[l|e] s2]; [|discriminate].
    unfold ret in H. now injection H as <- _.
  - cbn [insert_studiengang] in H.
    unfold bind at 1 in H. cbn [delete_semester] in H.
    unfold bind at 1 in H.
    destruct (for_map _ _ _) as [[l|e] s2]; [|discriminate].
    unfold ret in H. now injection H as <- _.
Qed.

Lemma ModulRepository_speichern_konsistent (modul : Modul.t) (sg : option Z)
    (db : Database) (zt : Zeittabelle) :
  Forall (fun pl => in_range (Pruefungsleistung.note pl))
    (Modul.pruefungsleistungen modul) ->
  konsistent (db, zt) ->
  konsistent (snd (ModulRepository.speichern modul sg db), zt).
Proof.
  intros R H. unfold ModulRepository.speichern.
  apply (bind_erhaelt (fun d => konsistent (d, zt))).
  - destruct (Modul.id modul) as [i|].
    + apply (bind_erhaelt (fun d => konsistent (d, zt))).
      * now apply update_modul_konsistent.
      * intros _ s' Hs'. exact Hs'.
    + now apply insert_modul_konsistent.
  - intros i s' Hs'.
    apply (bind_erhaelt (fun d => konsistent (d, zt))).
    + apply (for_map_erhaelt (fun d => konsistent (d, zt))); [|exact Hs'].
      intros x s3 Hx Hs3. unfold ModulRepository.speichere_neue.
      destruct (Pruefungsleistung.id x); [exact Hs3|].
      apply (bind_erhaelt (fun d => konsistent (d, zt))).
      * apply insert_pruefungsleistung_konsistent; [|exact Hs3].
        rewrite Forall_forall in R. now apply R.
      * intros; assumption.
    + intros; assumption.
Qed.

Lemma DatenbankManager_speichern_konsistent (sg : Studiengang.t)
    (db : Database) (zt : Zeittabelle) :
  noten_gueltig sg ->
  konsistent (db, zt) ->
  konsistent (snd (DatenbankManager.speichern sg db), zt).
Proof.
  intros R H. unfold DatenbankManager.speichern.
  apply (bind_erhaelt_ok (fun d => konsistent (d, zt))).
  - now apply StudiengangRepository_speichern_konsistent.
  - intros sg' s' E Hs'.
    apply StudiengangRepository_speichern_module in E.
    apply (bind_erhaelt (fun d => konsistent (d, zt))).
    + apply (for_map_erhaelt (fun d => konsistent (d, zt))); [|exact Hs'].
      intros m s2 Hm Hs2. apply ModulRepository_speichern_konsistent; [|exact Hs2].
      rewrite E in Hm. unfold noten_gueltig in R. rewrite Forall_forall in R.
      now apply R.
    + intros; assumption.
Qed.

Lemma modul_vorhanden_in (m : Z) (db : Database) :
  modul_vorhanden (Some m) db = true -> In m (map mod_id (module db)).
Proof. apply existsb_key_in. Qed.

Lemma insert_zeiteintrag_konsistent typ datum start ende g t b m (s : Speicher) :
  (if String.eqb typ "TERMIN" then g <> None /\ b <> None else ende <> None) ->
  konsistent s ->
  konsistent (snd (insert_zeiteintrag typ datum start ende g t b m s)).
Proof.
  intros Ty H. unfold insert_zeiteintrag.
  destruct (modul_vorhanden m (fst s)) eqn:V; [|exact H].
  destruct s as [db zt]. zerlege H. cbn [snd]. aufbauen; auto.
  - apply NoDup_map_snoc; [exact Z1|]. apply next_id_not_in.
  - intros y k Hy Hk. apply in_app_or in Hy as [Hy | [<- | []]]; eauto.
    cbn [ze_modul_id] in Hk. subst m. now apply modul_vorhanden_in.
  - apply Forall_app. split; [exact T|]. constructor; [|constructor].
    exact Ty.
Qed.

Lemma update_zeiteintrag_konsistent neu m i (s : Speicher) :
  (forall z, ze_id (neu z) = ze_id z) ->
  (forall z, ze_modul_id (neu z) = m) ->
  (forall z, zeile_typisiert z -> zeile_typisiert (neu z)) ->
  konsistent s ->
  konsistent (snd (update_zeiteintrag neu m i s)).
Proof.
  intros Hid Hm Hty H. unfold update_zeiteintrag.
  destruct (existsb _ _) eqn:Ex; cbn [andb].
  - destruct (modul_vorhanden m (fst s)) eqn:V; cbn [negb]; [|exact H].
    destruct s as [db zt]. zerlege H. cbn [snd]. aufbauen; auto.
    + rewrite map_update_key; [exact Z1|].
      intros z. destruct (ze_id z =? i); [apply Hid | reflexivity].
    + intros y k Hy Hk. apply in_map_iff in Hy as (y0 & <- & Hy).
      destruct (ze_id y0 =? i); [|eauto].
      rewrite Hm in Hk. subst m. now apply modul_vorhanden_in.
    + apply Forall_forall. intros y Hy. apply in_map_iff in Hy as (y0 & <- & Hy).
      rewrite Forall_forall in T. destruct (ze_id y0 =? i); auto.
  - destruct s as [db zt]. cbn [snd fst].
    assert (E : map (fun z => if ze_id z =? i then neu z else z) (zeiteintraege zt)
                = zeiteintraege zt).
    { rewrite <- (map_id (zeiteintraege zt)) at 2. apply map_ext_in.
      intros z Hz. destruct (Z.eqb_spec (ze_id z) i) as [E|]; [|reflexivity].
      apply not_true_iff_false in Ex. elim Ex. apply existsb_exists.
      exists z. split; [exact Hz | now apply Z.eqb_eq]. }
    rewrite E. now destruct zt.
Qed.

Lemma ZeiteintragRepository_speichern_konsistent (e : ZeitEintrag.t)
    (s : Speicher) :
  konsistent s -> konsistent (snd (ZeiteintragRepository.speichern e s)).
Proof.
  intros H. unfold ZeiteintragRepository.speichern.
  destruct e as [e|e].
  - destruct (Lerntermin.id e) as [i|].
    + apply (bind_erhaelt konsistent); [|intros; assumption].
      apply update_zeiteintrag_konsistent; auto.
      intros z. unfold zeile_typisiert. cbn [ze_typ ze_geplante_dauer
        ze_beschreibung ze_end_zeit].
      destruct (String.eqb (ze_typ z) "TERMIN"); [|auto].
      intros _. split; discriminate.
    + apply (bind_erhaelt konsistent); [|intros; assumption].
      apply insert_zeiteintrag_konsistent; [|exact H].
      cbn. split; discriminate.
  - destruct (Lernsession.id e) as [i|].
    + apply (bind_erhaelt konsistent); [|intros; assumption].
      apply update_zeiteintrag_konsistent; auto.
      intros z. unfold zeile_typisiert. cbn [ze_typ ze_geplante_dauer
        ze_beschreibung ze_end_zeit].
      destruct (String.eqb (ze_typ z) "TERMIN"); [auto|].
      intros _. discriminate.
    + apply (bind_erhaelt konsistent); [|intros; assumption].
      apply insert_zeiteintrag_konsistent; [|exact H].
      cbn. discriminate.
Qed.

Lemma ZeiteintragRepository_loeschen_konsistent (i : Z) (s : Speicher) :
  konsistent s -> konsistent (ZeiteintragRepository.loeschen i s).
Proof.
  intros H. destruct s as [db zt]. zerlege H.
  unfold ZeiteintragRepository.loeschen. cbn [fst snd]. aufbauen; auto.
  - now apply NoDup_map_filter.
  - intros y k Hy. apply filter_In in Hy as [Hy _]. eauto.
  - now apply Forall_filter.
Qed.

Lemma loeschen_pruefungsleistung_konsistent (i : Z) (db : Database)
    (zt : Zeittabelle) :
  konsistent (db, zt) -> konsistent (loeschen_pruefungsleistung i db, zt).
Proof.
  intros H. zerlege H. unfold loeschen_pruefungsleistung. aufbauen; auto.
  - now apply NoDup_map_filter.
  - intros y Hy. apply filter_In in Hy as [Hy _]. auto.
  - now apply Forall_filter.
Qed.

Lemma bleibt_modul (weg : modul_zeile -> bool) (rows : list modul_zeile) (m : Z) :
  In m (map mod_id rows) ->
  existsb (Z.eqb m) (map mod_id (filter weg rows)) = false ->
  In m (map mod_id (filter (fun z => negb (weg z)) rows)).
Proof.
  intros Hin G. apply in_map_iff in Hin as (y & E & Hy).
  apply in_map_iff. exists y. split; [exact E|].
  apply filter_In. split; [exact Hy|].
  apply negb_true_iff, not_true_is_false. intros W.
  apply not_true_iff_false in G. apply G, geloescht_spec. now exists y.
Qed.

Lemma delete_module_konsistent (weg : modul_zeile -> bool) (s : Speicher) :
  konsistent s -> konsistent (delete_module weg s).
Proof.
  intros H. destruct s as [db zt]. zerlege H.
  unfold delete_module. aufbauen; auto.
  - now apply NoDup_map_filter.
  - now apply NoDup_map_filter.
  - intros y Hy. apply filter_In in Hy as [Hy _]. auto.
  - intros y Hy. apply filter_In in Hy as [Hy G].
    apply negb_true_iff in G. apply bleibt_modul; auto.
  - rewrite map_update_key; [exact Z1|].
    intros z. destruct (ze_modul_id z) as [m|]; [|reflexivity].
    now destruct (existsb _ _).
  - intros y k Hy Hk. apply in_map_iff in Hy as (y0 & <- & Hy).
    destruct (ze_modul_id y0) as [m|] eqn:M.
    + destruct (existsb _ _) eqn:G; [discriminate|].
      rewrite M in Hk. injection Hk as <-. apply bleibt_modul; eauto.
    + congruence.
  - now apply Forall_filter.
  - now apply Forall_filter.
  - apply Forall_forall. intros y Hy. apply in_map_iff in Hy as (y0 & <- & Hy).
    rewrite Forall_forall in T. specialize (T y0 Hy).
    destruct (ze_modul_id y0) as [m|]; [|exact T].
    destruct (existsb _ _); exact T.
Qed.

Lemma loeschen_studiengang_umgestellt (sg : Z) (db : Database) (zt : Zeittabelle) :
  delete_module (fun z => mod_studiengang_id z =? sg)
    (mit_semester
       (filter (fun z => negb (sem_studiengang_id z =? sg)) (semester db))
       (seq_semester db)
       (mit_studiengaenge
          (filter (fun z => negb (sg_id z =? sg)) (studiengaenge db))
          (seq_studiengaenge db) db), zt)
  = let s' := delete_module (fun z => mod_studiengang_id z =? sg) (db, zt) in
    (mit_semester
       (filter (fun z => negb (sem_studiengang_id z =? sg)) (semester (fst s')))
       (seq_semester (fst s'))
       (mit_studiengaenge
          (filter (fun z => negb (sg_id z =? sg)) (studiengaenge (fst s')))
          (seq_studiengaenge (fst s')) (fst s')), snd s').
Proof. reflexivity. Qed.

Lemma loeschen_studiengang_konsistent (sg : Z) (s : Speicher) :
  konsistent s -> konsistent (loeschen_studiengang sg s).
Proof.
  intros H. destruct s as [db zt]. unfold loeschen_studiengang.
  destruct (existsb _ _); [|exact H].
  rewrite loeschen_studiengang_umgestellt.
  apply (delete_module_konsistent (fun z => mod_studiengang_id z =? sg)) in H.
  assert (M : forall z, In z (module (fst (delete_module
                 (fun z => mod_studiengang_id z =? sg) (db, zt)))) ->
              mod_studiengang_id z <> sg).
  { intros z Hz. cbn [delete_module fst mit_pruefungsleistungen mit_module
                      module] in Hz.
    apply filter_In in Hz as [_ Hz]. now apply negb_true_iff, Z.eqb_neq in Hz. }
  destruct (delete_module _ _) as [db' zt']. cbv zeta. cbn [fst snd] in *.
  zerlege H. aufbauen; auto.
  - now apply NoDup_map_filter.
  - now apply NoDup_map_filter.
  - intros y Hy. apply filter_In in Hy as [Hy G].
    apply negb_true_iff, Z.eqb_neq in G.
    specialize (F1 y Hy). apply in_map_iff in F1 as (p & E & Hp).
    apply in_map_iff. exists p. split; [exact E|]. apply filter_In.
    split; [exact Hp|]. apply negb_true_iff, Z.eqb_neq. congruence.
  - intros y Hy. specialize (F2 y Hy). apply in_map_iff in F2 as (p & E & Hp).
    apply in_map_iff. exists p. split; [exact E|]. apply filter_In.
    split; [exact Hp|]. apply negb_true_iff, Z.eqb_neq.
    specialize (M y Hy). congruence.
Qed.

Lemma erreichbar_konsistent (s : Speicher) : erreichbar s -> konsistent s.
Proof.
  induction 1 as [|sg s _ IH R|e s _ IH|i s _ IH|i s _ IH|i s _ IH|i s _ IH].
  - unfold leerer_speicher, leere_datenbank. aufbauen;
      try constructor; intros ? []; try intros [].
  - destruct s as [db zt]. now apply DatenbankManager_speichern_konsistent.
  - now apply ZeiteintragRepository_speichern_konsistent.
  - now apply ZeiteintragRepository_loeschen_konsistent.
  - destruct s as [db zt]. now apply loeschen_pruefungsleistung_konsistent.
  - now apply delete_module_konsistent.
  - now apply loeschen_studiengang_konsistent.
Qed.

Lemma map_outcome_total {A B} (f : A -> Outcome B) (l : list A) :
  (forall x, In x l -> exists y, f x = Ok y) ->
  exists ys, map_outcome f l = Ok ys.
Proof.
  induction l as [|x l IH]; intros H; [now exists []|].
  destruct (H x (or_introl eq_refl)) as (y & E).
  destruct IH as (ys & F); [intros z Hz; apply H; now right|].
  exists (y :: ys). simpl. now rewrite E, F.
Qed.

Lemma konsistent_laden (s : Speicher) :
  konsistent s -> exists sgs, DatenbankManager.laden (fst s) = Ok sgs.
Proof.
  intros (_ & _ & (L1 & L2) & _). destruct s as [db zt]. cbn [fst] in *.
  rewrite Forall_forall in L1, L2.
  apply map_outcome_total. intros sg _.
  destruct (map_outcome_total
              (fun z =>
                 match Status_of_value (mod_status z) with
                 | Raise e => Raise e
                 | Ok status =>
                     match ModulRepository.lade_pruefungsleistungen (mod_id z) db with
                     | Raise e => Raise e
                     | Ok pls =>
                         Ok (Modul.set_pruefungsleistungen pls
                               (Modul.set_id (Some (mod_id z))
                                  (Modul.init (mod_titel z) (mod_ects z) status
                                     (mod_geplantes_semester z))))
                     end
                 end)
              (filter (fun z => match Studiengang.id sg with
                                | Some i => mod_studiengang_id z =? i
                                | None => false
                                end) (module db))) as (ms & E).
  - intros z Hz. apply filter_In in Hz as [Hz _].
    destruct (L2 z Hz) as (st & ->). rewrite Status_round_trip.
    destruct (map_outcome_total
                (fun y =>
                   match Pruefungsleistung.init (pl_note y) (pl_versuchs_nummer y) with
                   | Raise e => Raise e
                   | Ok pl => Ok (Pruefungsleistung.set_id (Some (pl_id y)) pl)
                   end)
                (order_by pl_versuchs_nummer
                   (filter (fun y => pl_modul_id y =? mod_id z)
                      (pruefungsleistungen db)))) as (pls & P).
    + intros y Hy. apply order_by_in, filter_In in Hy as [Hy _].
      rewrite (init_ok _ _ (L1 y Hy)). eauto.
    + unfold ModulRepository.lade_pruefungsleistungen. rewrite P. eauto.
  - unfold ModulRepository.laden_fuer_studiengang. rewrite E. eauto.
Qed.

Lemma lies_zeile_typisiert (z : zeiteintrag_zeile) :
  zeile_typisiert z -> exists e, ZeiteintragRepository.lies_zeile z = Wert e.
Proof.
  unfold zeile_typisiert, ZeiteintragRepository.lies_zeile.
  destruct (String.eqb (ze_typ z) "TERMIN").
  - intros [G B]. destruct (ze_geplante_dauer z); [|congruence].
    destruct (ze_beschreibung z); [|congruence]. eauto.
  - intros E. destruct (ze_end_zeit z); [|congruence]. eauto.
Qed.

Lemma lies_alle_typisiert (l : list zeiteintrag_zeile) :
  Forall zeile_typisiert l ->
  exists es, ZeiteintragRepository.lies_alle l = Wert es.
Proof.
  induction 1 as [|z l Hz _ (es & IH)]; [now exists []|].
  destruct (lies_zeile_typisiert z Hz) as (e & E).
  exists (e :: es). simpl. now rewrite E, IH.
Qed.

Lemma konsistent_laden_alle (s : Speicher) :
  konsistent s -> exists l, ZeiteintragRepository.laden_alle (snd s) = Wert l.
Proof.
  intros (_ & _ & _ & T). apply lies_alle_typisiert.
  rewrite Forall_forall in *. intros z Hz. apply order_by_in in Hz. auto.
Qed.

(** X13. Whatever sequence of saves and deletions the persistence layer
    has carried out from the empty store, programs being saved with
    scores in range, and whether or not a save raised on the way: row ids
    are unique in every table, every reference of a semester, a module,
    an attempt or a time entry names an existing row, and both loads
    return without raising. *)
Theorem reachable_store_loads :
  forall s, erreichbar s ->
    integritaet (fst s) /\ integritaet_zeit s
    /\ (exists sgs, DatenbankManager.laden (fst s) = Ok sgs)
    /\ (exists l, ZeiteintragRepository.laden_alle (snd s) = Wert l).
Proof.
  intros s H. apply erreichbar_konsistent in H.
  split; [apply H|]. split; [apply H|].
  split; [now apply konsistent_laden | now apply konsistent_laden_alle].
Qed.

Lemma reachable_store_loads_witness :
  let s0 := (snd (DatenbankManager.speichern beispiel_studiengang leere_datenbank),
             mk_zeittabelle [] 0) in
  let termin := ZeitEintrag.Termin
                  (Lerntermin.init (at_time 2025 1 10 0 0 0)
                     (at_time 2025 1 10 14 0 0) 90 "Analysis" (Some 1)) in
  let s := loeschen_modul 1 (snd (ZeiteintragRepository.speichern termin s0)) in
  erreichbar s
  /\ integritaet (fst s) /\ integritaet_zeit s
  /\ (exists sgs, DatenbankManager.laden (fst s) = Ok sgs)
  /\ (exists l, ZeiteintragRepository.laden_alle (snd s) = Wert l).
Proof.
  intros s0 termin s.
  assert (E : erreichbar s).
  { apply erreichbar_loeschen_modul, erreichbar_speichern_zeiteintrag.
    apply (erreichbar_speichern beispiel_studiengang leerer_speicher).
    - apply erreichbar_leer.
    - repeat constructor; simpl; first [apply in_range_5 | apply in_range_23]. }
  split; [exact E|]. apply (reachable_store_loads s E).
Defined.

(* ------------------------------------------------------------------ *)
(** ** Saving and loading time entries                                  *)
(* ------------------------------------------------------------------ *)

Lemma insert_by_vor {A} (key : A -> Z) (x r : A) (a b : list A) :
  key x <= key r ->
  insert_by key x (a ++ r :: b) = insert_by key x a ++ r :: b.
Proof.
  intros K. induction a as [|y a IH]; simpl.
  - destruct (Z.leb_spec (key x) (key r)); [reflexivity | lia].
  - destruct (key x <=? key y); [reflexivity|]. simpl. now rewrite IH.
Qed.

Lemma insert_by_nach {A} (key : A -> Z) (x r : A) (a b : list A) :
  Forall (fun y => key y < key x) a -> key r < key x ->
  insert_by key x (a ++ r :: b) = a ++ r :: insert_by key x b.
Proof.
  intros F K. induction F as [|y a Hy _ IH]; simpl.
  - destruct (Z.leb_spec (key x) (key r)); [lia | reflexivity].
  - destruct (Z.leb_spec (key x) (key y)); [lia|]. now rewrite IH.
Qed.

(** A row appended to a table comes, in a stable sort, behind the rows
    with the same or a smaller key. *)
Lemma order_by_snoc {A} (key : A -> Z) (r : A) (l : list A) :
  order_by key (l ++ [r])
  = filter (fun z => key z <=? key r) (order_by key l)
    ++ r :: filter (fun z => key r <? key z) (order_by key l).
Proof.
  induction l as [|x l IH]; [reflexivity|].
  cbn [app order_by]. rewrite IH.
  rewrite !insert_by_filter by apply order_by_sorted.
  destruct (Z.leb_spec (key x) (key r)) as [K|K].
  - destruct (Z.ltb_spec (key r) (key x)); [lia|].
    now apply insert_by_vor.
  - destruct (Z.ltb_spec (key r) (key x)); [|lia].
    apply insert_by_nach; [|exact K].
    apply Forall_forall. intros y Hy. apply filter_In in Hy as [_ Hy].
    apply Z.leb_le in Hy. lia.
Qed.

Lemma lies_alle_wert (g : zeiteintrag_zeile -> ZeitEintrag.t)
    (l : list zeiteintrag_zeile) :
  (forall z, In z l -> ZeiteintragRepository.lies_zeile z = Wert (g z)) ->
  ZeiteintragRepository.lies_alle l = Wert (map g l).
Proof.
  induction l as [|z l IH]; intros H; [reflexivity|].
  simpl. rewrite (H z (or_introl eq_refl)), IH; [reflexivity|].
  intros y Hy. apply H. now right.
Qed.

Lemma lies_alle_inv (l : list zeiteintrag_zeile) (es : list ZeitEintrag.t) :
  ZeiteintragRepository.lies_alle l = Wert es ->
  Forall2 (fun z e => ZeiteintragRepository.lies_zeile z = Wert e) l es.
Proof.
  revert es. induction l as [|z l IH]; intros es H.
  - injection H as <-. constructor.
  - simpl in H. destruct (ZeiteintragRepository.lies_zeile z) as [e|[|]] eqn:E.
    + destruct (ZeiteintragRepository.lies_alle l) as [es'|f]; [|discriminate].
      injection H as <-. constructor; [exact E | now apply IH].
    + discriminate.
    + destruct (ZeiteintragRepository.lies_alle l) as [?|[|]]; discriminate.
Qed.

Lemma lies_zeile_felder (z : zeiteintrag_zeile) (e : ZeitEintrag.t) :
  ZeiteintragRepository.lies_zeile z = Wert e ->
  ZeitEintrag_id e = Some (ze_id z) /\ ZeitEintrag_datum e = ze_datum z
  /\ ZeitEintrag.modul_id e = ze_modul_id z.
Proof.
  unfold ZeiteintragRepository.lies_zeile.
  destruct (String.eqb _ _).
  - destruct (ze_geplante_dauer z); [|discriminate].
    destruct (ze_beschreibung z); [|discriminate].
    intros [= <-]. now repeat split.
  - destruct (ze_end_zeit z); [|discriminate].
    intros [= <-]. now repeat split.
Qed.

Lemma Forall2_filter {A B} (R : A -> B -> Prop) (p : A -> bool) (q : B -> bool)
    (l : list A) (m : list B) :
  Forall2 (fun a b => R a b /\ p a = q b) l m ->
  Forall2 R (filter p l) (filter q m).
Proof.
  induction 1 as [|a b l m [Hr Hp] _ IH]; simpl; [constructor|].
  rewrite <- Hp. destruct (p a); [constructor|]; assumption.
Qed.

Lemma Forall2_In_rechts {A B} (R : A -> B -> Prop) (l : list A) (m : list B) :
  Forall2 R l m -> forall b, In b m -> exists a, In a l /\ R a b.
Proof.
  induction 1 as [|a b l m Hr _ IH]; intros x Hx; [destruct Hx|].
  destruct Hx as [<- | Hx].
  - exists a. split; [now left | exact Hr].
  - destruct (IH x Hx) as (a' & Ha & Hr'). exists a'. split; [now right | exact Hr'].
Qed.

Lemma lies_alle_Forall2 (l : list zeiteintrag_zeile) (es : list ZeitEintrag.t) :
  Forall2 (fun z e => ZeiteintragRepository.lies_zeile z = Wert e) l es ->
  ZeiteintragRepository.lies_alle l = Wert es.
Proof.
  induction 1 as [|z e l es Hz _ IH]; [reflexivity|].
  simpl. now rewrite Hz, IH.
Qed.

(** The insert of a time entry and the load after it. *)
Lemma zeiteintrag_einfuegen_laden (e : ZeitEintrag.t) (s : Speicher)
    (l : list ZeitEintrag.t) :
  ZeitEintrag_id e = None ->
  ZeiteintragRepository.laden_alle (snd s) = Wert l ->
  modul_vorhanden (ZeitEintrag.modul_id e) (fst s) = true ->
  let i := nid_zeiteintraege (snd s) in
  let e' := ZeitEintrag_set_id (Some i) e in
  let k x := iso_schluessel (ZeitEintrag_datum x) in
  exists s',
    ZeiteintragRepository.speichern e s = (Ok e', s')
    /\ fst s' = fst s
    /\ Forall (fun x => ZeitEintrag_id x <> Some i) l
    /\ ZeiteintragRepository.laden_alle (snd s')
       = Wert (filter (fun x => k x <=? k e) l
               ++ wie_geladen e' :: filter (fun x => k e <? k x) l).
Proof.
  intros Hid L V i e' k.
    set (r := match e with
              | ZeitEintrag.Termin t =>
                  mk_zeiteintrag_zeile i "TERMIN" (Lerntermin.datum t)
                    (Lerntermin.start_zeit t) None
                    (Some (Lerntermin.geplante_dauer t)) None
                    (Some (Lerntermin.beschreibung t)) (Lerntermin.modul_id t)
              | ZeitEintrag.Session t =>
                  mk_zeiteintrag_zeile i "SESSION" (Lernsession.datum t)
                    (Lernsession.start_zeit t) (Some (Lernsession.end_zeit t))
                    None (Some (Lernsession.tatsaechliche_dauer t)) None
                    (Lernsession.modul_id t)
              end).
    exists (fst s, mk_zeittabelle (zeiteintraege (snd s) ++ [r]) i).
    assert (Hr : ZeiteintragRepository.lies_zeile r = Wert (wie_geladen e')
                 /\ ze_datum r = ZeitEintrag_datum e).
    { unfold r, e'. destruct e as [t|t]; cbn in Hid |- *.
      - split; [|reflexivity]. unfold Lerntermin_set_id, Lerntermin.init.
        cbn. reflexivity.
      - split; reflexivity. }
    destruct Hr as [Hr Hd].
    split; [|split; [reflexivity|split]].
    + unfold ZeiteintragRepository.speichern, e', r.
      destruct e as [t|t]; cbn in Hid, V; rewrite Hid;
        unfold bind, insert_zeiteintrag; cbn [ZeitEintrag.modul_id] in V;
        rewrite V; reflexivity.
    + apply lies_alle_inv in L.
      apply Forall_forall. intros x Hx.
      destruct (Forall2_In_rechts _ _ _ L x Hx) as (z & Hz & Hzx).
      apply lies_zeile_felder in Hzx as (-> & _).
      intros [= E]. apply order_by_in in Hz.
      apply (next_id_not_in (map ze_id (zeiteintraege (snd s)))
               (seq_zeiteintraege (snd s))).
      fold (nid_zeiteintraege (snd s)). fold i. rewrite <- E. now apply in_map.
    + unfold ZeiteintragRepository.laden_alle in *.
      cbn [snd zeiteintraege].
      rewrite (order_by_snoc (fun z => iso_schluessel (ze_datum z))).
      apply lies_alle_inv in L. apply lies_alle_Forall2.
      apply Forall2_app; [|constructor; [exact Hr|]].
      * apply Forall2_filter. eapply Forall2_impl; [|exact L].
        intros z x Hzx. split; [exact Hzx|]. cbv beta.
        apply lies_zeile_felder in Hzx as (_ & <- & _).
        unfold k. now rewrite Hd.
      * apply Forall2_filter. eapply Forall2_impl; [|exact L].
        intros z x Hzx. split; [exact Hzx|]. cbv beta.
        apply lies_zeile_felder in Hzx as (_ & <- & _).
        unfold k. now rewrite Hd.
Qed.







(* ------------------------------------------------------------------ *)
(** ** The figures of the dashboard                                     *)
(* ------------------------------------------------------------------ *)






(* ------------------------------------------------------------------ *)
(** ** The learning time of the dashboard                               *)
(* ------------------------------------------------------------------ *)

Lemma gesamt_min_summe (sessions : list ZeitEintrag.t) (acc : Z) :
  fold_left (fun summe s => summe + ZeitEintrag.dauer s) sessions acc
  = acc + minuten_summe (map ZeitEintrag.dauer sessions).
Proof.
  revert acc. induction sessions as [|s l IH]; intros acc; simpl; [lia|].
  rewrite IH. unfold minuten_summe. simpl. lia.
Qed.

(** Of modules with distinct identities at most one is referred to by an
    entry. *)
Lemma ein_modul_je_eintrag (s : ZeitEintrag.t) (module : list Modul.t) :
  NoDup (map Modul.id module) ->
  minuten_summe
    (map (fun m => if refers_to m s then ZeitEintrag.dauer s else 0) module)
  = if existsb (fun m => refers_to m s) module then ZeitEintrag.dauer s else 0.
Proof.
  unfold minuten_summe.
  induction module as [|m ms IH]; intros N; [reflexivity|].
  simpl in N. inversion N as [|? ? Hm N']; subst.
  simpl. rewrite (IH N').
  destruct (refers_to m s) eqn:R; [|reflexivity]. simpl.
  destruct (existsb (fun m0 => refers_to m0 s) ms) eqn:Ex; [|lia].
  exfalso. apply existsb_exists in Ex as (m' & Hin & R').
  apply Hm. unfold refers_to in *.
  assert (Modul.id m = Modul.id m') as ->.
  { destruct (ZeitEintrag.modul_id s) as [a|], (Modul.id m) as [b|],
      (Modul.id m') as [c|]; simpl in *; try discriminate; try reflexivity.
    apply Z.eqb_eq in R, R'. congruence. }
  now apply in_map.
Qed.

Lemma aufwand_summe (module : list Modul.t) (sessions : list ZeitEintrag.t) :
  NoDup (map Modul.id module) ->
  minuten_summe (map (fun m => effort_spec m sessions) module)
  = minuten_summe
      (map ZeitEintrag.dauer
         (filter (fun s => existsb (fun m => refers_to m s) module) sessions)).
Proof.
  intros N. induction sessions as [|s l IH].
  - unfold effort_spec, minuten_summe. simpl.
    induction module as [|m ms IHm]; [reflexivity|].
    simpl. apply IHm. simpl in N. now inversion N.
  - assert (E : minuten_summe (map (fun m => effort_spec m (s :: l)) module)
                = minuten_summe
                    (map (fun m => if refers_to m s then ZeitEintrag.dauer s
                                   else 0) module)
                  + minuten_summe (map (fun m => effort_spec m l) module)).
    { clear. unfold minuten_summe, effort_spec.
      induction module as [|m ms IHm]; [reflexivity|].
      cbn [map fold_right]. rewrite IHm. cbn [filter].
      destruct (refers_to m s); simpl; lia. }
    rewrite E, IH, (ein_modul_je_eintrag s module N). cbn [filter].
    destruct (existsb _ module); unfold minuten_summe; simpl; lia.
Qed.

Lemma effort_spec_nonneg (m : Modul.t) (sessions : list ZeitEintrag.t) :
  Forall (fun s => 0 <= ZeitEintrag.dauer s) sessions ->
  0 <= effort_spec m sessions.
Proof.
  unfold effort_spec. induction 1 as [|s l Hs _ IH]; simpl; [lia|].
  destruct (refers_to m s); simpl; lia.
Qed.

Lemma summe_positive_zeilen (f : Modul.t -> Z) (module : list Modul.t) :
  (forall m, 0 <= f m) ->
  minuten_summe (map f (filter (fun m => f m >? 0) module))
  = minuten_summe (map f module).
Proof.
  intros H. unfold minuten_summe.
  induction module as [|m ms IH]; [reflexivity|].
  simpl. destruct (Z.gtb_spec (f m) 0); simpl; rewrite IH; [reflexivity|].
  specialize (H m). lia.
Qed.

Lemma summe_filter_le (p : ZeitEintrag.t -> bool) (sessions : list ZeitEintrag.t) :
  Forall (fun s => 0 <= ZeitEintrag.dauer s) sessions ->
  minuten_summe (map ZeitEintrag.dauer (filter p sessions))
  <= minuten_summe (map ZeitEintrag.dauer sessions).
Proof.
  unfold minuten_summe. induction 1 as [|s l Hs _ IH]; simpl; [lia|].
  destruct (p s); simpl; lia.
Qed.

(** X17. The learning time of the dashboard.  Nothing is shown exactly
    when the entries hold no session.  Otherwise the total is the sum of
    the durations of the sessions, and, for modules with distinct
    identities and durations that are not negative, every line of a
    module shows a positive number of minutes and the lines add up to the
    durations of the sessions that refer to a module of the program: the
    lines never exceed the total, and they fall short of it by the
    sessions of no module or of a module that is not in the program. *)
Theorem learning_time_breakdown :
  forall sg zeiteintraege,
    let sessions := nur_sessions zeiteintraege in
    NoDup (map Modul.id (Studiengang.module sg)) ->
    Forall (fun s => 0 <= ZeitEintrag.dauer s) sessions ->
    match zeige_lernzeit sg sessions with
    | None => sessions = []
    | Some (gesamt, zeilen) =>
        sessions <> []
        /\ gesamt = minuten_summe (map ZeitEintrag.dauer sessions)
        /\ Forall (fun zeile => 0 < snd zeile) zeilen
        /\ minuten_summe (map snd zeilen)
           = minuten_summe
               (map ZeitEintrag.dauer
                  (filter (fun s => existsb (fun m => refers_to m s)
                                      (Studiengang.module sg)) sessions))
        /\ minuten_summe (map snd zeilen) <= gesamt
    end.
Proof.
  intros sg zeiteintraege. cbv zeta.
  generalize (nur_sessions zeiteintraege). intros sessions N P.
  unfold zeige_lernzeit.
  destruct sessions as [|s0 l0]; [reflexivity|].
  split; [discriminate|].
  set (sessions := s0 :: l0) in *.
  split; [rewrite gesamt_min_summe; lia|].
  assert (Z : minuten_summe
                (map snd
                   (map (fun modul =>
                           (Modul.titel modul, Modul.berechne_aufwand modul sessions))
                      (filter (fun modul =>
                                 Modul.berechne_aufwand modul sessions >? 0)
                         (Studiengang.module sg))))
              = minuten_summe
                  (map ZeitEintrag.dauer
                     (filter (fun s => existsb (fun m => refers_to m s)
                                         (Studiengang.module sg)) sessions))).
  { rewrite map_map. cbn [snd].
    rewrite (summe_positive_zeilen
               (fun m => Modul.berechne_aufwand m sessions)).
    - rewrite <- (aufwand_summe _ _ N). f_equal. apply map_ext.
      intros m. apply berechne_aufwand_spec.
    - intros m. rewrite berechne_aufwand_spec. now apply effort_spec_nonneg. }
  split; [|split; [exact Z|]].
  - apply Forall_forall. intros z Hz. apply in_map_iff in Hz as (m & <- & Hm).
    apply filter_In in Hm as [_ Hm]. cbn [snd]. now apply Z.gtb_lt in Hm.
  - rewrite Z, gesamt_min_summe. cbn [Z.add]. now apply summe_filter_le.
Qed.

Lemma learning_time_breakdown_witness :
  let sg := Studiengang.set_module
              [Modul.set_id (Some 1) (Modul.init "Mathematik I" 5 OFFEN 1);
               Modul.set_id (Some 2) (Modul.init "Physik" 5 OFFEN 1)]
              (Studiengang.init "Informatik" 6 (2 # 1)) in
  let tag := at_time 2025 1 10 0 0 0 in
  let zeiteintraege :=
    [ZeitEintrag.Session
       (Lernsession.init tag (at_time 2025 1 10 14 0 0)
          (at_time 2025 1 10 15 30 0) (Some 1));
     ZeitEintrag.Termin
       (Lerntermin.init tag (at_time 2025 1 10 16 0 0) 60 "Mechanik" (Some 2));
     ZeitEintrag.Session
       (Lernsession.init tag (at_time 2025 1 10 18 0 0)
          (at_time 2025 1 10 18 45 0) None)] in
  match zeige_lernzeit sg (nur_sessions zeiteintraege) with
  | Some (gesamt, zeilen) =>
      gesamt = 135 /\ zeilen = [("Mathematik I"%string, 90)]
      /\ minuten_summe (map snd zeilen) <= gesamt
  | None => False
  end.
Proof.
  intros sg tag zeiteintraege.
  pose proof (learning_time_breakdown sg zeiteintraege
                ltac:(vm_compute; repeat constructor;
                      simpl; intuition discriminate)
                ltac:(vm_compute; repeat constructor; discriminate)) as H.
  destruct (zeige_lernzeit sg (nur_sessions zeiteintraege))
    as [[gesamt zeilen]|] eqn:E; [|vm_compute in H; discriminate].
  split; [vm_compute in E; congruence|].
  split; [vm_compute in E; congruence|]. apply H.
Defined.

(* ------------------------------------------------------------------ *)
(** ** What a load returns after each statement of a save               *)
(* ------------------------------------------------------------------ *)












Lemma lade_pruefungsleistungen_gleich (j : Z) (db db' : Database) :
  pruefungsleistungen db' = pruefungsleistungen db ->
  ModulRepository.lade_pruefungsleistungen j db'
  = ModulRepository.lade_pruefungsleistungen j db.
Proof.
  intros E. unfold ModulRepository.lade_pruefungsleistungen. now rewrite E.
Qed.

Lemma laden_fuer_studiengang_gleich (sg : option Z) (db db' : Database) :
  module db' = module db -> pruefungsleistungen db' = pruefungsleistungen db ->
  ModulRepository.laden_fuer_studiengang sg db'
  = ModulRepository.laden_fuer_studiengang sg db.
Proof.
  intros E P. unfold ModulRepository.laden_fuer_studiengang. rewrite E.
  apply map_outcome_ext. intros z _.
  now rewrite (lade_pruefungsleistungen_gleich _ db db' P).
Qed.
















Lemma Forall2_In_links {A B} (R : A -> B -> Prop) (l : list A) (m : list B) :
  Forall2 R l m -> forall a, In a l -> exists b, In b m /\ R a b.
Proof.
  induction 1 as [|a b l m Hr _ IH]; intros x Hx; [destruct Hx|].
  destruct Hx as [<- | Hx].
  - exists b. split; [now left | exact Hr].
  - destruct (IH x Hx) as (b' & Hb & Hr'). exists b'. split; [now right | exact Hr'].
Qed.















Section Gespeichert.

Variable zt : Zeittabelle.
Variable i : Z.
Variable kopf : list Modul.t -> Studiengang.t.
Hypothesis kopf_id : forall l, Studiengang.id (kopf l) = Some i.
Hypothesis kopf_module : forall l, Studiengang.module (kopf l) = l.
Hypothesis kopf_set : forall l l', Studiengang.set_module l' (kopf l) = kopf l'.



End Gespeichert.





(* ------------------------------------------------------------------ *)
(** ** Changing and deleting time entries                               *)
(* ------------------------------------------------------------------ *)




(** The load after a deletion of a time entry. *)
Lemma zeiteintrag_loeschen_laden (k : Z) (s : Speicher) (l : list ZeitEintrag.t) :
  ZeiteintragRepository.laden_alle (snd s) = Wert l ->
  ZeiteintragRepository.laden_alle (snd (ZeiteintragRepository.loeschen k s))
  = Wert (filter (fun x => negb (opt_eqb (ZeitEintrag_id x) (Some k))) l).
Proof.
  intros L. unfold ZeiteintragRepository.laden_alle in *.
  apply lies_alle_inv in L. unfold ZeiteintragRepository.loeschen.
  cbn [snd zeiteintraege]. rewrite <- order_by_filter.
  apply lies_alle_Forall2. apply Forall2_filter.
  eapply Forall2_impl; [|exact L]. intros z x Hzx. split; [exact Hzx|].
  cbv beta. apply lies_zeile_felder in Hzx as (-> & _). reflexivity.
Qed.



(* ------------------------------------------------------------------ *)
(** ** The calendar: ordinals and dates                                 *)
(* ------------------------------------------------------------------ *)

Lemma monat_und_tag_jahr (leapyear : bool) :
  forallb (monat_und_tag_richtig leapyear) (seq 0 365) = true.
Proof. destruct leapyear; vm_compute; reflexivity. Qed.

Lemma monat_und_tag_ok (n : Z) (leapyear : bool) :
  0 <= n <= 364 ->
  let '(month, day) := monat_und_tag n leapyear in
  1 <= month <= 12 /\ 1 <= day
  /\ day <= nth (Z.to_nat month) datetime._DAYS_IN_MONTH 0
            + (if (month =? 2) && leapyear then 1 else 0)
  /\ nth (Z.to_nat month) datetime._DAYS_BEFORE_MONTH 0
     + (if (month >? 2) && leapyear then 1 else 0) + day = n + 1.
Proof.
  intros H. pose proof (monat_und_tag_jahr leapyear) as F.
  rewrite forallb_forall in F. specialize (F (Z.to_nat n)).
  unfold monat_und_tag_richtig in F. rewrite Z2Nat.id in F by lia.
  destruct (monat_und_tag n leapyear) as [month day].
  assert (In (Z.to_nat n) (seq 0 365)) as Hin by (apply in_seq; lia).
  specialize (F Hin).
  repeat (apply andb_prop in F as [F ?]).
  repeat split; first [now apply Z.leb_le | now apply Z.eqb_eq].
Qed.

Lemma days_before_year_zerlegt (a b c n1 : Z) :
  0 <= b <= 3 -> 0 <= c <= 24 -> 0 <= n1 <= 3 ->
  datetime._days_before_year (400 * a + 100 * b + 4 * c + n1 + 1)
  = 146097 * a + 36524 * b + 1461 * c + 365 * n1.
Proof.
  intros Hb Hc Hn. unfold datetime._days_before_year. cbv zeta.
  replace (400 * a + 100 * b + 4 * c + n1 + 1 - 1)
    with (400 * a + 100 * b + 4 * c + n1) by lia.
  destruct (div_mod_unique (400 * a + 100 * b + 4 * c + n1) 4
              (100 * a + 25 * b + c) n1) as [-> _]; [lia | lia |].
  destruct (div_mod_unique (400 * a + 100 * b + 4 * c + n1) 100
              (4 * a + b) (4 * c + n1)) as [-> _]; [lia | lia |].
  destruct (div_mod_unique (400 * a + 100 * b + 4 * c + n1) 400
              a (100 * b + 4 * c + n1)) as [-> _]; [lia | lia |].
  lia.
Qed.

Lemma is_leap_zerlegt (a b c n1 : Z) :
  0 <= b <= 3 -> 0 <= c <= 24 -> 0 <= n1 <= 3 ->
  datetime._is_leap (400 * a + 100 * b + 4 * c + n1 + 1)
  = (n1 =? 3) && (negb (c =? 24) || (b =? 3)).
Proof.
  intros Hb Hc Hn. unfold datetime._is_leap.
  set (y := 400 * a + 100 * b + 4 * c + n1 + 1).
  destruct (Z.eqb_spec n1 3) as [E3|E3].
  - assert (M4 : y mod 4 = 0).
    { destruct (div_mod_unique y 4 (100 * a + 25 * b + c + 1) 0) as [_ ->];
        [lia | unfold y; lia | reflexivity]. }
    rewrite M4. cbn [Z.eqb andb].
    destruct (Z.eqb_spec c 24) as [E24|E24].
    + assert (M100 : y mod 100 = 0).
      { destruct (div_mod_unique y 100 (4 * a + b + 1) 0) as [_ ->];
          [lia | unfold y; lia | reflexivity]. }
      rewrite M100. cbn [Z.eqb negb orb].
      destruct (Z.eqb_spec b 3) as [Eb|Eb].
      * destruct (div_mod_unique y 400 (a + 1) 0) as [_ ->];
          [lia | unfold y; lia | reflexivity].
      * destruct (div_mod_unique y 400 a (100 * b + 100)) as [_ ->];
          [lia | unfold y; lia |].
        destruct (Z.eqb_spec (100 * b + 100) 0); [lia | reflexivity].
    + destruct (div_mod_unique y 100 (4 * a + b) (4 * c + 4)) as [_ ->];
        [lia | unfold y; lia |].
      destruct (Z.eqb_spec (4 * c + 4) 0); [lia | reflexivity].
  - destruct (div_mod_unique y 4 (100 * a + 25 * b + c) (n1 + 1)) as [_ ->];
      [lia | unfold y; lia |].
    destruct (Z.eqb_spec (n1 + 1) 0); [lia | reflexivity].
Qed.

(** [_ord2ymd] gives a date of the calendar, and [_ymd2ord] leads back. *)
Lemma ord2ymd_ymd2ord (n : Z) :
  1 <= n ->
  let '(y, m, d) := datetime._ord2ymd n in
  datetime._ymd2ord y m d = n
  /\ 1 <= m <= 12 /\ 1 <= d <= datetime._days_in_month y m
  /\ (n <= datetime._MAXORDINAL -> 1 <= y <= 9999).
Proof.
  intros Hn. unfold datetime._ord2ymd. cbv zeta.
  unfold datetime._DI400Y, datetime._DI100Y, datetime._DI4Y,
    datetime._MAXORDINAL.
  set (n0 := n - 1).
  pose proof (Z.div_mod n0 146097 ltac:(lia)) as E400.
  pose proof (Z.mod_pos_bound n0 146097 ltac:(lia)) as B400.
  assert (A0 : 0 <= n0 / 146097) by (apply Z.div_pos; lia).
  set (a := n0 / 146097) in *. set (r400 := n0 mod 146097) in *.
  pose proof (Z.div_mod r400 36524 ltac:(lia)) as E100.
  pose proof (Z.mod_pos_bound r400 36524 ltac:(lia)) as B100.
  assert (Bb : 0 <= r400 / 36524) by (apply Z.div_pos; lia).
  set (b := r400 / 36524) in *. set (r100 := r400 mod 36524) in *.
  pose proof (Z.div_mod r100 1461 ltac:(lia)) as E4.
  pose proof (Z.mod_pos_bound r100 1461 ltac:(lia)) as B4.
  assert (Bc : 0 <= r100 / 1461) by (apply Z.div_pos; lia).
  set (c := r100 / 1461) in *. set (r4 := r100 mod 1461) in *.
  pose proof (Z.div_mod r4 365 ltac:(lia)) as E1.
  pose proof (Z.mod_pos_bound r4 365 ltac:(lia)) as B1.
  assert (Bn : 0 <= r4 / 365) by (apply Z.div_pos; lia).
  set (n1 := r4 / 365) in *. set (r := r4 mod 365) in *.
  assert (Hb4 : b <= 4) by lia.
  assert (Hc24 : c <= 24) by lia.
  assert (Hn4 : n1 <= 4) by lia.
  destruct ((n1 =? 4) || (b =? 4)) eqn:Sp.
  - (* the last day of a leap year *)
    assert (Y : exists b' c',
               0 <= b' <= 3 /\ 0 <= c' <= 24 /\ (c' <> 24 \/ b' = 3)
               /\ a * 400 + 1 + b * 100 + c * 4 + n1 - 1
                  = 400 * a + 100 * b' + 4 * c' + 3 + 1
               /\ n = 146097 * a + 36524 * b' + 1461 * c' + 365 * 3 + 366).
    { apply orb_true_iff in Sp as [Sp|Sp]; apply Z.eqb_eq in Sp.
      - destruct (Z.eq_dec b 4) as [Eb|Eb].
        + exfalso. lia.
        + exists b, c. repeat split; try lia.
      - exists 3, 24. repeat split; try lia. }
    destruct Y as (b' & c' & Hb' & Hc' & Hl & -> & En).
    unfold datetime._ymd2ord, datetime._days_before_month,
      datetime._days_in_month.
    rewrite days_before_year_zerlegt, is_leap_zerlegt by lia.
    assert (L : (3 =? 3) && (negb (c' =? 24) || (b' =? 3)) = true).
    { cbn [Z.eqb andb]. destruct Hl as [Hl|Hl].
      - destruct (Z.eqb_spec c' 24); [contradiction | reflexivity].
      - subst b'. cbn. apply orb_true_r. }
    rewrite L. change (12 >? 2) with true. change (12 =? 2) with false.
    cbn [andb]. repeat eval_table.
    split; [lia|]. split; [lia|]. split; [lia|]. lia.
  - apply orb_false_iff in Sp as [S1 S2].
    apply Z.eqb_neq in S1, S2.
    assert (Hr : 0 <= r <= 364) by lia.
    replace (a * 400 + 1 + b * 100 + c * 4 + n1)
      with (400 * a + 100 * b + 4 * c + n1 + 1) by lia.
    set (leap := (n1 =? 3) && (negb (c =? 24) || (b =? 3))).
    pose proof (monat_und_tag_ok r leap Hr) as M.
    unfold monat_und_tag in M. cbv zeta in M. fold leap.
    destruct (nth (Z.to_nat (Z.shiftr (r + 50) 5)) datetime._DAYS_BEFORE_MONTH 0
              + (if (Z.shiftr (r + 50) 5 >? 2) && leap then 1 else 0) >? r).
    + destruct M as (Hm & Hd1 & Hd2 & Hs).
      unfold datetime._ymd2ord, datetime._days_before_month,
        datetime._days_in_month.
      rewrite days_before_year_zerlegt, is_leap_zerlegt by lia. fold leap.
      split; [lia|]. split; [lia|]. split.
      * split; [lia|].
        destruct ((Z.shiftr (r + 50) 5 - 1 =? 2) && leap) eqn:F; [|lia].
        apply andb_prop in F as [F _]. apply Z.eqb_eq in F.
        assert (nth (Z.to_nat (Z.shiftr (r + 50) 5 - 1))
                  datetime._DAYS_IN_MONTH 0 = 28)
          by (rewrite F; reflexivity).
        lia.
      * lia.
    + destruct M as (Hm & Hd1 & Hd2 & Hs).
      unfold datetime._ymd2ord, datetime._days_before_month,
        datetime._days_in_month.
      rewrite days_before_year_zerlegt, is_leap_zerlegt by lia. fold leap.
      split; [lia|]. split; [lia|]. split.
      * split; [lia|].
        destruct ((Z.shiftr (r + 50) 5 =? 2) && leap) eqn:F; [|lia].
        apply andb_prop in F as [F _]. apply Z.eqb_eq in F.
        assert (nth (Z.to_nat (Z.shiftr (r + 50) 5))
                  datetime._DAYS_IN_MONTH 0 = 28)
          by (rewrite F; reflexivity).
        lia.
      * lia.
Qed.

(** Adding a duration to a moment and taking the moment away again gives
    the duration, and a sum that exists is a value of the calendar. *)
Lemma add_sub (d d' : datetime.t) (delta : timedelta.t) :
  datetime.add d delta = Ok d' ->
  datetime.sub d' d = delta /\ datetime.valid d' = true.
Proof.
  unfold datetime.add. cbv zeta.
  set (total := datetime.toordinal d * 86400000000 + datetime.time_us d + delta).
  set (days := total / 86400000000). set (rest := total mod 86400000000).
  destruct ((0 <? days) && (days <=? datetime._MAXORDINAL)) eqn:B; [|discriminate].
  apply andb_prop in B as [B1 B2]. apply Z.ltb_lt in B1. apply Z.leb_le in B2.
  pose proof (ord2ymd_ymd2ord days ltac:(lia)) as O.
  destruct (datetime._ord2ymd days) as [[y m] t].
  destruct O as (Oy & Om & Ot & Or). specialize (Or B2).
  intros [= <-].
  pose proof (Z.div_mod total 86400000000 ltac:(lia)) as E.
  pose proof (Z.mod_pos_bound total 86400000000 ltac:(lia)) as Br.
  fold days rest in E, Br.
  pose proof (Z.div_mod rest 1000000 ltac:(lia)) as Es.
  pose proof (Z.mod_pos_bound rest 1000000 ltac:(lia)) as Bs.
  set (seconds := rest / 1000000) in *. set (us := rest mod 1000000) in *.
  pose proof (Z.div_mod seconds 3600 ltac:(lia)) as Eh.
  pose proof (Z.mod_pos_bound seconds 3600 ltac:(lia)) as Bh.
  set (hour := seconds / 3600) in *. set (rem := seconds mod 3600) in *.
  pose proof (Z.div_mod rem 60 ltac:(lia)) as Em.
  pose proof (Z.mod_pos_bound rem 60 ltac:(lia)) as Bm.
  set (minute := rem / 60) in *. set (second := rem mod 60) in *.
  assert (Hs : 0 <= seconds < 86400) by lia.
  assert (Hh : 0 <= hour <= 23) by lia.
  assert (Hmi : 0 <= minute <= 59) by lia.
  split.
  - unfold datetime.sub, datetime.toordinal at 1, datetime.time_us at 1.
    cbn [datetime.year datetime.month datetime.day datetime.hour
         datetime.minute datetime.second datetime.microsecond].
    rewrite Oy. unfold total in E. lia.
  - unfold datetime.valid, datetime._check_date_fields,
      datetime._check_time_fields, datetime.MINYEAR, datetime.MAXYEAR.
    cbn [datetime.year datetime.month datetime.day datetime.hour
         datetime.minute datetime.second datetime.microsecond].
    destruct (Z.leb_spec 1 y); [|lia]. destruct (Z.leb_spec y 9999); [|lia].
    destruct (Z.leb_spec 1 m); [|lia]. destruct (Z.leb_spec m 12); [|lia].
    destruct (Z.leb_spec 1 t); [|lia].
    destruct (Z.leb_spec t (datetime._days_in_month y m)); [|lia].
    cbn [andb negb].
    destruct (Z.leb_spec 0 hour); [|lia]. destruct (Z.leb_spec hour 23); [|lia].
    destruct (Z.leb_spec 0 minute); [|lia].
    destruct (Z.leb_spec minute 59); [|lia].
    destruct (Z.leb_spec 0 second); [|lia].
    destruct (Z.leb_spec second 59); [|lia].
    destruct (Z.leb_spec 0 us); [|lia]. destruct (Z.leb_spec us 999999); [|lia].
    reflexivity.
Qed.

Lemma dauer_nach_minuten (n : Z) (delta : timedelta.t)
    (datum start_zeit end_zeit : datetime.t) (modul_id : option Z) :
  timedelta_of_minutes n = Ok delta ->
  datetime.add start_zeit delta = Ok end_zeit ->
  datetime.sub end_zeit start_zeit = n * 60000000
  /\ Lernsession.tatsaechliche_dauer
       (Lernsession.init datum start_zeit end_zeit modul_id) = n
  /\ datetime.valid end_zeit = true.
Proof.
  unfold timedelta_of_minutes. cbv zeta.
  destruct (_ && _); [|discriminate]. intros [= <-] A.
  apply add_sub in A as [S V]. split; [exact S|]. split; [|exact V].
  cbn [Lernsession.init Lernsession.tatsaechliche_dauer].
  rewrite berechne_dauer_quot.
  cbn [Lernsession.end_zeit Lernsession.start_zeit]. rewrite S.
  apply Z.quot_mul. lia.
Qed.

Lemma entferne_termin_app (k : nat) (z x : list ZeitEintrag.t)
    (t : Lerntermin.t) :
  nth_error (nur_termine z) k = Some t ->
  entferne_termin k (z ++ x) = entferne_termin k z ++ x
  /\ Permutation z (ZeitEintrag.Termin t :: entferne_termin k z).
Proof.
  revert k. induction z as [|e z IH]; intros k H.
  - destruct k; discriminate.
  - destruct e as [t0|s0].
    + destruct k as [|k]; cbn in H.
      * injection H as <-. split; [reflexivity | apply Permutation_refl].
      * destruct (IH k H) as [E P]. cbn. rewrite E. split; [reflexivity|].
        rewrite perm_swap. now apply perm_skip.
    + cbn in H. destruct (IH k H) as [E P]. cbn. rewrite E.
      split; [reflexivity|]. rewrite perm_swap. now apply perm_skip.
Qed.

Lemma Permutation_filter_beide {A} (p : A -> bool) (a b : list A) :
  Permutation a b -> Permutation (filter p a) (filter p b).
Proof.
  induction 1 as [|x a b _ IH|x y a|a b c _ IH1 _ IH2]; cbn.
  - constructor.
  - destruct (p x); [now constructor | exact IH].
  - destruct (p x), (p y); try apply Permutation_refl. apply perm_swap.
  - now transitivity (filter p b).
Qed.

Lemma Permutation_einsortiert {A} (key : A -> Z) (x : A) (l : list A) :
  Permutation (filter (fun y => key y <=? key x) l
               ++ x :: filter (fun y => key x <? key y) l) (x :: l).
Proof.
  rewrite <- Permutation_middle. apply perm_skip.
  induction l as [|y l IH]; [constructor|].
  cbn. destruct (Z.leb_spec (key y) (key x)), (Z.ltb_spec (key x) (key y));
    try lia.
  - cbn. now apply perm_skip.
  - rewrite <- Permutation_middle. now apply perm_skip.
Qed.

Lemma speichern_session_ohne_modul (t : Lernsession.t) (s : Speicher) :
  Lernsession.id t = None ->
  modul_vorhanden (Lernsession.modul_id t) (fst s) = false ->
  ZeiteintragRepository.speichern (ZeitEintrag.Session t) s
  = (Raise IntegrityError, s).
Proof.
  intros Hid V. unfold ZeiteintragRepository.speichern. rewrite Hid.
  unfold bind, insert_zeiteintrag. now rewrite V.
Qed.

(** X20. Confirming the appointment number [nr] of the entries in memory
    with [n] minutes.  When the end, start plus [n] minutes, is beyond
    the calendar, OverflowError is raised and nothing is changed.
    Otherwise the session that is built ends [n] minutes after the start
    of the appointment and its duration is [n], as computed from start
    and end and as assigned.  When the module of the appointment has no
    row any more, the save raises IntegrityError: the store is unchanged,
    but the session is already in the list in memory and the appointment
    still is.  When the save goes through and the list in memory held
    the entries of the store, it holds them again afterwards: the row of
    the appointment is deleted, and a load returns the entries of the
    list, the session with its duration [n] among them. *)
Theorem confirm_appointment :
  forall zeiteintraege s nr n termin,
    1 <= nr ->
    nth_error (nur_termine zeiteintraege) (Z.to_nat (nr - 1)) = Some termin ->
    let zustand := (zeiteintraege, s) in
    (forall e,
       timedelta_of_minutes n = Raise e
       \/ (exists delta,
             timedelta_of_minutes n = Ok delta
             /\ datetime.add (Lerntermin.start_zeit termin) delta = Raise e) ->
       bestaetigen (Some nr) (Some n) zustand = (Raise e, zustand))
    /\ (forall delta end_zeit,
          timedelta_of_minutes n = Ok delta ->
          datetime.add (Lerntermin.start_zeit termin) delta = Ok end_zeit ->
          let session :=
            Lernsession.init (Lerntermin.datum termin)
              (Lerntermin.start_zeit termin) end_zeit
              (Lerntermin.modul_id termin) in
          datetime.sub end_zeit (Lerntermin.start_zeit termin) = n * 60000000
          /\ Lernsession.tatsaechliche_dauer session = n
          /\ (modul_vorhanden (Lerntermin.modul_id termin) (fst s) = false ->
              bestaetigen (Some nr) (Some n) zustand
              = (Raise IntegrityError,
                 (zeiteintraege ++ [ZeitEintrag.Session session], s)))
          /\ (modul_vorhanden (Lerntermin.modul_id termin) (fst s) = true ->
              forall i l,
                Lerntermin.id termin = Some i -> i <> 0 ->
                ZeiteintragRepository.laden_alle (snd s) = Wert l ->
                Permutation zeiteintraege l ->
                NoDup (map ZeitEintrag_id l) ->
                exists liste s' l',
                  bestaetigen (Some nr) (Some n) zustand = (Ok tt, (liste, s'))
                  /\ fst s' = fst s
                  /\ ZeiteintragRepository.laden_alle (snd s') = Wert l'
                  /\ Permutation liste l'
                  /\ In (ZeitEintrag.Session
                           (Lernsession_set_id
                              (Some (nid_zeiteintraege (snd s))) session)) l'
                  /\ ~ In (ZeitEintrag.Termin termin) l')).
Proof.
  intros zeiteintraege s nr n termin Hnr Hth zustand.
  assert (Hne : nur_termine zeiteintraege <> [])
    by (intros E; rewrite E in Hth; destruct (Z.to_nat (nr - 1)); discriminate).
  assert (Hlen : (1 <=? nr) && (nr <=? len (nur_termine zeiteintraege)) = true).
  { apply andb_true_intro. split; [now apply Z.leb_le|].
    apply Z.leb_le. unfold len.
    assert (Z.to_nat (nr - 1) < length (nur_termine zeiteintraege))%nat
      by (apply nth_error_Some; congruence).
    lia. }
  assert (Anfang : forall r,
            match timedelta_of_minutes n with
            | Raise e => (Raise e, zustand)
            | Ok delta =>
                match datetime.add (Lerntermin.start_zeit termin) delta with
                | Raise e => (Raise e, zustand)
                | Ok end_zeit =>
                    let session :=
                      Lernsession.set_tatsaechliche_dauer n
                        (Lernsession.init (Lerntermin.datum termin)
                           (Lerntermin.start_zeit termin) end_zeit
                           (Lerntermin.modul_id termin)) in
                    match ZeiteintragRepository.speichern
                            (ZeitEintrag.Session session) s with
                    | (Raise e, s') =>
                        (Raise e,
                         (zeiteintraege ++ [ZeitEintrag.Session session], s'))
                    | (Ok gespeichert, s') =>
                        let liste :=
                          entferne_termin (Z.to_nat (nr - 1))
                            (zeiteintraege ++ [gespeichert]) in
                        match Lerntermin.id termin with
                        | None => (Ok tt, (liste, s'))
                        | Some i =>
                            if i =? 0 then (Ok tt, (liste, s'))
                            else (Ok tt,
                                  (liste, ZeiteintragRepository.loeschen i s'))
                        end
                    end
                end
            end = r ->
            bestaetigen (Some nr) (Some n) zustand = r).
  { intros r <-. unfold bestaetigen, zustand.
    destruct (nur_termine zeiteintraege) as [|t0 ts] eqn:T; [contradiction|].
    rewrite Hlen. cbn [negb]. rewrite Hth. reflexivity. }
  split.
  - intros e [H | (delta & Hd & Ha)]; apply Anfang.
    + now rewrite H.
    + now rewrite Hd, Ha.
  - intros delta end_zeit Hd Ha session.
    destruct (dauer_nach_minuten n delta (Lerntermin.datum termin) _ _
                (Lerntermin.modul_id termin) Hd Ha) as (Hs & Ht & _).
    fold session in Ht.
    assert (Es : Lernsession.set_tatsaechliche_dauer n session = session).
    { unfold Lernsession.set_tatsaechliche_dauer. rewrite <- Ht at 1.
      now destruct session. }
    split; [exact Hs|]. split; [exact Ht|]. split.
    + intros V. apply Anfang. rewrite Hd, Ha. cbv zeta. fold session.
      rewrite Es.
      now rewrite (speichern_session_ohne_modul session s eq_refl V).
    + intros V i l Hi Hi0 L P N.
      destruct (zeiteintrag_einfuegen_laden (ZeitEintrag.Session session) s l
                  eq_refl L V) as (s1 & Sp & F1 & Fr & L1).
      set (k := nid_zeiteintraege (snd s)) in *.
      set (e' := ZeitEintrag.Session (Lernsession_set_id (Some k) session)) in *.
      change (ZeitEintrag_set_id (Some k) (ZeitEintrag.Session session))
        with e' in Sp, L1.
      change (wie_geladen e') with e' in L1.
      pose proof (zeiteintrag_loeschen_laden i s1 _ L1) as L2.
      destruct (entferne_termin_app (Z.to_nat (nr - 1)) zeiteintraege [e']
                  termin Hth) as [Ea Pa].
      set (rest := entferne_termin (Z.to_nat (nr - 1)) zeiteintraege) in *.
      set (p := fun x => negb (opt_eqb (ZeitEintrag_id x) (Some i))) in *.
      assert (Pl : Permutation (ZeitEintrag.Termin termin :: rest) l)
        by (now rewrite <- Pa).
      assert (Hki : k <> i).
      { intros E. rewrite Forall_forall in Fr.
        apply (Fr (ZeitEintrag.Termin termin)).
        - apply (Permutation_in _ Pl). now left.
        - cbn. now rewrite Hi, E. }
      assert (Nr : forall x, In x rest -> p x = true).
      { intros x Hx. unfold p. apply negb_true_iff.
        apply not_true_is_false. intros E.
        assert (Ex : ZeitEintrag_id x = Some i).
        { destruct (ZeitEintrag_id x) as [a|]; [|discriminate].
          cbn in E. apply Z.eqb_eq in E. now subst. }
        assert (N' : NoDup (map ZeitEintrag_id (ZeitEintrag.Termin termin :: rest))).
        { eapply Permutation_NoDup; [|exact N].
          apply Permutation_map. now symmetry. }
        cbn in N'. inversion N' as [|? ? Hn _]; subst. apply Hn.
        rewrite Hi, <- Ex. now apply in_map. }
      exists (rest ++ [e']), (ZeiteintragRepository.loeschen i s1),
        (filter p (filter (fun x => iso_schluessel (ZeitEintrag_datum x)
                                    <=? iso_schluessel (ZeitEintrag_datum e')) l
                   ++ e' :: filter (fun x => iso_schluessel (ZeitEintrag_datum e')
                                             <? iso_schluessel
                                                  (ZeitEintrag_datum x)) l)).
      assert (Pf : Permutation (rest ++ [e'])
                     (filter p
                        (filter (fun x => iso_schluessel (ZeitEintrag_datum x)
                                          <=? iso_schluessel
                                                (ZeitEintrag_datum e')) l
                         ++ e' :: filter
                                    (fun x => iso_schluessel (ZeitEintrag_datum e')
                                              <? iso_schluessel
                                                   (ZeitEintrag_datum x)) l))).
      { rewrite (Permutation_filter_beide p _ _
                   (Permutation_einsortiert
                      (fun x => iso_schluessel (ZeitEintrag_datum x)) e' l)).
        rewrite <- (Permutation_filter_beide p _ _ (perm_skip e' Pl)).
        cbn [filter]. unfold p at 1. cbn [ZeitEintrag_id e' Lernsession_set_id
                                          Lernsession.id opt_eqb].
        destruct (Z.eqb_spec k i) as [|_]; [contradiction|]. cbn [negb].
        unfold p at 1. cbn [ZeitEintrag_id]. rewrite Hi. cbn [opt_eqb].
        rewrite Z.eqb_refl. cbn [negb].
        rewrite (filter_all p rest Nr).
        rewrite <- Permutation_cons_append. apply Permutation_refl. }
      split; [|split; [exact F1|split; [exact L2|split; [exact Pf|split]]]].
      * apply Anfang. rewrite Hd, Ha. cbv zeta. fold session.
        rewrite Es, Sp, Hi. destruct (Z.eqb_spec i 0); [contradiction|].
        unfold rest in Ea. now rewrite Ea.
      * apply (Permutation_in _ Pf). apply in_or_app. right. now left.
      * intros Hin. apply filter_In in Hin as [_ Hp].
        unfold p in Hp. cbn in Hp. rewrite Hi in Hp. cbn in Hp.
        rewrite Z.eqb_refl in Hp. discriminate.
Qed.

Lemma confirm_appointment_witness :
  let s0 := (snd (DatenbankManager.speichern beispiel_studiengang leere_datenbank),
             mk_zeittabelle [] 0) in
  let tag := at_time 2025 1 10 0 0 0 in
  let geplant := Lerntermin.init tag (at_time 2025 1 10 14 0 0) 90 "Analysis"
                   (Some 1) in
  let s := snd (ZeiteintragRepository.speichern (ZeitEintrag.Termin geplant) s0) in
  let termin := Lerntermin_set_id (Some 1) geplant in
  let zeiteintraege := [ZeitEintrag.Termin termin] in
  let session := Lernsession.init tag (at_time 2025 1 10 14 0 0)
                   (at_time 2025 1 10 15 15 0) (Some 1) in
  Lernsession.tatsaechliche_dauer session = 75
  /\ exists liste s' l',
       bestaetigen (Some 1) (Some 75) (zeiteintraege, s) = (Ok tt, (liste, s'))
       /\ ZeiteintragRepository.laden_alle (snd s') = Wert l'
       /\ Permutation liste l'
       /\ ~ In (ZeitEintrag.Termin termin) l'.
Proof.
  intros s0 tag geplant s termin zeiteintraege session.
  destruct (confirm_appointment zeiteintraege s 1 75 termin ltac:(lia) eq_refl)
    as [_ H].
  destruct (H (75 * 60000000) (at_time 2025 1 10 15 15 0)
              ltac:(vm_compute; reflexivity) ltac:(vm_compute; reflexivity))
    as (_ & Hd & _ & Hok).
  split; [exact Hd|].
  destruct (Hok ltac:(vm_compute; reflexivity) 1 zeiteintraege eq_refl
              ltac:(lia) ltac:(vm_compute; reflexivity)
              (Permutation_refl _)
              ltac:(vm_compute; repeat constructor; intros []))
    as (liste & s' & l' & B & _ & L & P & _ & N).
  exists liste, s', l'. repeat split; assumption.
Defined.
